(** * A shallow embedding of the bond trading system's service pipeline

    The development follows the C++ headers of the trading system:
    [utils.hpp] (price strings, PV01 reference table), [marketdataservice.hpp]
    (orders, order books, best bid/offer, depth aggregation),
    [algoexecutionservice.hpp] (spread-crossing executions),
    [algostreamingservice.hpp] (two-sided quotes), [positionservice.hpp]
    (per-book positions) and [riskservice.hpp] (PV01 risk); further
    [executionservice.hpp], [streamingservice.hpp] and [inquiryservice.hpp]
    (the services behind the two engines, the inquiry life cycle), the file
    connectors of the pricing, market-data and inquiry services, and
    [simulate_data.hpp] (the simulated input files).

    Conventions of the embedding:
    - a C++ [double] is an exact rational ([Q]); the rounding of the double
      operations, NaN and the infinities are not modelled, so the statements
      speak about values on which the double operations of the code are
      exact (prices on the 1/256 grid); the conversion of a [long] to
      [double] is modelled with its rounding ([long_to_double]);
    - a C++ [int]/[long] is a [Z]; signed overflow is undefined behaviour in
      C++, so a sum or a cast of the code is the one written here as long as
      it stays in the range of its type: the statements that add quantities
      or cast carry that range as a hypothesis ([in_long], bounds of 2^31);
    - a [std::map<string, V>] is a [gmap string V]; [operator[]] is
      [map_index], which inserts the value-initialised element on a miss;
    - listeners are opaque callbacks: a service run returns, next to the new
      service state, the list of [ProcessAdd] calls it made, in call order;
    - a thrown exception is the [inl] branch of a sum for a function without
      state ([PV01Info]) and the [Thrown] outcome of a service call. *)

From Stdlib Require Import ZArith Zquot QArith Qround Lqa Ascii String List Lia Permutation.
From stdpp Require Import base option gmap strings list fin_maps.

Local Open Scope Z_scope.

(** ** Machine integers *)

(** The range of a [long] (64 bits). *)
Definition LONG_MAX : Z := 2 ^ 63 - 1.
Definition LONG_MIN : Z := - 2 ^ 63.
Definition in_long (z : Z) : Prop := LONG_MIN <= z <= LONG_MAX.

Global Instance in_long_dec z : Decision (in_long z).
Proof. unfold in_long. apply _. Defined.


(** ** Decimal text: [std::to_string], [operator<<(int)] and [std::stod] *)

Module Text.

Definition digit_char (d : Z) : ascii := ascii_of_nat (48 + Z.to_nat d).

Definition digit_val (c : ascii) : option Z :=
  let n := Z.of_nat (nat_of_ascii c) in
  if (48 <=? n) && (n <=? 57) then Some (n - 48) else None.

(** Decimal digits of a non-negative integer, most significant first.
    [fuel] bounds the number of digits. *)
Fixpoint digits (fuel : nat) (n : Z) : string :=
  match fuel with
  | O => EmptyString
  | S f =>
      if n <? 10 then String (digit_char n) EmptyString
      else digits f (n / 10) +:+ String (digit_char (n mod 10)) EmptyString
  end.

Definition to_string_nonneg (n : Z) : string :=
  digits (S (Z.to_nat (Z.log2 n))) n.

(** [std::to_string(int)] and [ostream << int]: decimal, with a leading
    minus sign for negative values. *)
Definition to_string (n : Z) : string :=
  if n <? 0 then String "-"%char (to_string_nonneg (- n)) else to_string_nonneg n.

Fixpoint stod_acc (acc : Z) (s : string) : option Z :=
  match s with
  | EmptyString => Some acc
  | String c s' =>
      match digit_val c with
      | Some d => stod_acc (acc * 10 + d) s'
      | None => None
      end
  end.

(** [std::stod] on a non-empty string of decimal digits.  Every other input
    (where the real [stod] throws, or reads a sign, a decimal point, an
    exponent, a hexadecimal or a special value, or stops at the first
    character it cannot use) is outside the modelled fragment and is [None].
    The value is the number the digits denote, which is what [std::stod]
    returns as long as a [double] holds that number (every integer up to
    2^53); the statements that read numbers bound them. *)
Definition stod (s : string) : option Q :=
  match s with
  | EmptyString => None
  | _ => inject_Z <$> stod_acc 0 s
  end.

End Text.

(** ** utils.hpp: price strings *)

Record parse_state := ParseState {
  partWhole : string;
  part32 : string;
  part8 : string;
  dashCount : Z
}.

Definition push_back (s : string) (ch : ascii) : string :=
  s +:+ String ch EmptyString.

(** One iteration of the [for (char ch : inputPrice)] loop of [ParsePrice]. *)
Definition ParsePrice_step (st : parse_state) (ch : ascii) : parse_state :=
  if Ascii.eqb ch "-"%char then
    ParseState (partWhole st) (part32 st) (part8 st) (dashCount st + 1)
  else if dashCount st =? 0 then
    ParseState (push_back (partWhole st) ch) (part32 st) (part8 st) (dashCount st)
  else if (0 <? dashCount st) && (dashCount st <? 3) then
    ParseState (partWhole st) (push_back (part32 st) ch) (part8 st) (dashCount st + 1)
  else if dashCount st =? 3 then
    ParseState (partWhole st) (part32 st)
      (push_back (part8 st) (if Ascii.eqb ch "+"%char then "4"%char else ch))
      (dashCount st)
  else st.

Fixpoint ParsePrice_loop (st : parse_state) (s : string) : parse_state :=
  match s with
  | EmptyString => st
  | String ch s' => ParsePrice_loop (ParsePrice_step st ch) s'
  end.

Definition stod_or_zero (s : string) : option Q :=
  match s with
  | EmptyString => Some 0%Q
  | _ => Text.stod s
  end.

(** [double ParsePrice(const std::string&)]. *)
Definition ParsePrice (inputPrice : string) : option Q :=
  let st := ParsePrice_loop (ParseState "" "" "" 0) inputPrice in
  wholeVal ← stod_or_zero (partWhole st);
  val32 ← stod_or_zero (part32 st);
  val8 ← stod_or_zero (part8 st);
  Some (wholeVal + val32 / 32 + val8 / 256)%Q.

(** [std::string FormatPrice(double)].  [static_cast<int>] is the identity on
    the floor as long as it fits an [int]. *)
Definition FormatPrice (price : Q) : string :=
  let integerPart := Qfloor price in
  let fraction := (price - inject_Z integerPart)%Q in
  let fraction256 := Qfloor (fraction * 256) in
  let fraction32 := Z.quot fraction256 8 in
  let fraction8 := Z.rem fraction256 8 in
  let oss32 := (if fraction32 <? 10 then "0"%string else ""%string) +:+ Text.to_string fraction32 in
  let part8 := if fraction8 =? 4 then "+"%string else Text.to_string fraction8 in
  Text.to_string integerPart +:+ "-" +:+ oss32 +:+ part8.

(** The spec's [W-FFE] notation: [W] the integer part in decimal, [FF] the
    32nds as two digits, [E] the eighths of a 32nd as one character, a digit
    [0]..[7] or [+] for 4. *)
Definition two_digits (ff : Z) : string :=
  String (Text.digit_char (ff / 10)) (String (Text.digit_char (ff mod 10)) EmptyString).

Definition eighth_value (e : ascii) : option Z :=
  if Ascii.eqb e "+"%char then Some 4
  else match Text.digit_val e with
       | Some d => if d <? 8 then Some d else None
       | None => None
       end.

(** The character [FormatPrice] writes for [v] eighths. *)
Definition eighth_char (v : Z) : ascii :=
  if v =? 4 then "+"%char else Text.digit_char v.

Definition price_string (w ff : Z) (e : ascii) : string :=
  Text.to_string w +:+ "-" +:+ two_digits ff +:+ String e EmptyString.

(** ** Value-initialisation and [std::map::operator[]] *)

(** [T()] for a type whose default constructor is implicit or defaulted on
    its first declaration: scalars are zero, strings and containers empty. *)
Class ValueInit (A : Type) := value_init : A.
Global Hint Mode ValueInit ! : typeclass_instances.

Global Instance Z_value_init : ValueInit Z := 0.
Global Instance Q_value_init : ValueInit Q := 0%Q.
Global Instance string_value_init : ValueInit string := EmptyString.
Global Instance list_value_init {A} : ValueInit (list A) := (@nil A).
Global Instance gmap_value_init {V} : ValueInit (gmap string V) := (∅ : gmap string V).
Global Instance option_value_init {A} : ValueInit (option A) := (@None A).

(** [m[k]]: the stored element, or a value-initialised element which the call
    inserts under [k].  The second component is the map after the call. *)
Definition map_index {V} `{ValueInit V} (m : gmap string V) (k : string)
  : V * gmap string V :=
  match m !! k with
  | Some v => (v, m)
  | None => (value_init, <[k := value_init]> m)
  end.

(** ** soa.hpp: listeners *)

(** Modelled from the spec: [soa.hpp] (the [Service], [ServiceListener] and
    [Connector] base classes) is missing from the sources.  A
    [ServiceListener<V>*] is identified by a number (its address); the only
    callback any stage uses is [ProcessAdd], invoked on each subscribed
    listener in subscription order.  [ProcessRemove] and [ProcessUpdate] are
    empty in every listener of the system. *)
Definition ServiceListener := nat.

Inductive call (V : Type) : Type :=
  | ProcessAdd (l : ServiceListener) (data : V).
Arguments ProcessAdd {V} l data.

(** [for (auto& l : listeners) l->ProcessAdd(data);] *)
Definition notify {V} (listeners : list ServiceListener) (data : V) : list (call V) :=
  (λ l, ProcessAdd l data) <$> listeners.

Inductive exception := invalid_argument (what : string).

(** ** products.hpp *)

(** What the service templates require of their product parameter [T]. *)
Class Product (T : Type) := {
  GetProductId : T → string;
  Product_value_init :: ValueInit T
}.

Inductive BondIdType := CUSIP | ISIN.

Record Bond := mkBond {
  Bond_productId : string;
  Bond_bondIdType : BondIdType;
  Bond_ticker : string;
  Bond_coupon : Q;
  Bond_maturityDate : Z * Z * Z
}.

Global Instance Bond_Product : Product Bond := {
  GetProductId := Bond_productId;
  Product_value_init := mkBond "" CUSIP "" 0%Q (0, 0, 0)
}.

(** ** utils.hpp: the PV01 reference table *)

Definition pv01_map : gmap string Q :=
  list_to_map
    [ ("91282CLY5"%string, 1854 # 10000); ("91282CMB4"%string, 2738 # 10000);
      ("91282CMA6"%string, 4389 # 10000); ("91282CLZ2"%string, 5911 # 10000);
      ("91282CLW9"%string, 7910 # 10000); ("912810UF3"%string, 12829 # 10000);
      ("912810UE6"%string, 15956 # 10000) ].

(** [double PV01Info(const std::string&)]. *)
Definition PV01Info (_cusip : string) : exception + Q :=
  match pv01_map !! _cusip with
  | Some v => inr v
  | None => inl (invalid_argument "Unknown CUSIP")
  end.

(** ** marketdataservice.hpp *)

Inductive PricingSide := BID | OFFER.

Global Instance PricingSide_eq_dec : EqDecision PricingSide.
Proof. solve_decision. Defined.

Definition Qlt_bool (x y : Q) : bool := negb (Qle_bool y x).

Module MarketData.

Record Order := mkOrder {
  GetPrice : Q;
  GetQuantity : Z;
  GetSide : PricingSide
}.

Record BidOffer := mkBidOffer {
  GetBidOrder : Order;
  GetOfferOrder : Order
}.

Record OrderBook (T : Type) := mkOrderBook {
  GetProduct : T;
  GetBidStack : list Order;
  GetOfferStack : list Order
}.
Arguments mkOrderBook {T} _ _ _.
Arguments GetProduct {T} _.
Arguments GetBidStack {T} _.
Arguments GetOfferStack {T} _.

Global Instance OrderBook_value_init {T} `{Product T} : ValueInit (OrderBook T) :=
  mkOrderBook value_init [] [].

(** [numeric_limits<double>::max()] and [numeric_limits<double>::lowest()]. *)
Definition DBL_MAX : Q := inject_Z (2 ^ 1024 - 2 ^ 971).
Definition DBL_LOWEST : Q := (- DBL_MAX)%Q.

(** The two scanning loops of [GetBestBidOffer]; the accumulator is the pair
    of locals ([bestBidPrice], [bestBid]), resp. ([bestOfferPrice],
    [bestOffer]). *)
Definition bid_scan_step (acc : Q * Order) (b : Order) : Q * Order :=
  let px := GetPrice b in
  if Qlt_bool (fst acc) px then (px, b) else acc.

Definition offer_scan_step (acc : Q * Order) (o : Order) : Q * Order :=
  let px := GetPrice o in
  if Qlt_bool px (fst acc) then (px, o) else acc.

Section GetBestBidOffer.
Context {T : Type}.

(** [Order bestBid;] and [Order bestOffer;] are default-initialised: their
    fields are indeterminate until the loop assigns them.  The embedding
    takes their initial contents as parameters. *)
Variables (bestBid0 bestOffer0 : Order).

(** [BidOffer OrderBook<T>::GetBestBidOffer() const]. *)
Definition GetBestBidOffer (ob : OrderBook T) : BidOffer :=
  let bestBid := snd (fold_left bid_scan_step (GetBidStack ob) (DBL_LOWEST, bestBid0)) in
  let bestOffer := snd (fold_left offer_scan_step (GetOfferStack ob) (DBL_MAX, bestOffer0)) in
  mkBidOffer bestBid bestOffer.
End GetBestBidOffer.

(** The spec's wording of "best": the maximum-price order of a stack, the
    first such order in stack order when several share the maximum price,
    and likewise for the minimum. *)
Definition first_max_price (stack : list Order) (best : Order) : Prop :=
  ∃ before after,
    stack = before ++ best :: after
    ∧ Forall (λ o, (GetPrice o < GetPrice best)%Q) before
    ∧ Forall (λ o, (GetPrice o <= GetPrice best)%Q) after.

Definition first_min_price (stack : list Order) (best : Order) : Prop :=
  ∃ before after,
    stack = before ++ best :: after
    ∧ Forall (λ o, (GetPrice best < GetPrice o)%Q) before
    ∧ Forall (λ o, (GetPrice best <= GetPrice o)%Q) after.

(** The [unordered_map<double, long>] of [AggregateDepth], as an association
    list in order of first insertion; keys are compared as doubles are
    ([==], here [Qeq]).  [umap_add m k v] is [m[k] += v]; the sum is the sum
    of the two [long] as long as it is in the range of a [long]
    ([sums_in_long] below). *)
Fixpoint umap_add (m : list (Q * Z)) (k : Q) (v : Z) : list (Q * Z) :=
  match m with
  | [] => [(k, 0 + v)]
  | (k', v') :: m' =>
      if Qeq_bool k' k then (k', v' + v) :: m' else (k', v') :: umap_add m' k v
  end.

(** The lambda [aggregateStack] of [AggregateDepth].  The C++ iterates the
    hash map in an unspecified order; the embedding lists the groups in order
    of first insertion, and the statements about it are made for every
    reordering of that list. *)
Definition aggregateStack (stack : list Order) (side : PricingSide) : list Order :=
  let priceQuantityMap :=
    fold_left (λ m order, umap_add m (GetPrice order) (GetQuantity order)) stack [] in
  (λ pq, mkOrder (fst pq) (snd pq) side) <$> priceQuantityMap.

(** The spec's wording of depth aggregation.  [quantity_at stack p] is the
    sum of the quantities of the orders of [stack] priced at [p];
    [aggregated stack side out] says that [out], read as a set, holds exactly
    one order per price occurring in [stack], with that sum as quantity and
    with side [side]. *)
Definition quantity_at (stack : list Order) (p : Q) : Z :=
  foldr (λ o acc, if Qeq_bool (GetPrice o) p then GetQuantity o + acc else acc) 0 stack.

(** The additions [priceQuantityMap[price] += quantity] of a run of
    [aggregateStack] are additions of [long]; what the map holds under a
    price after the first [k] orders is the running sum of that price.  The
    run stays clear of signed overflow when every order quantity and every
    such running sum is in the range of a [long]. *)
Definition sums_in_long (stack : list Order) : Prop :=
  Forall (λ o, in_long (GetQuantity o)) stack
  ∧ ∀ (k : nat) (p : Q), in_long (quantity_at (take k stack) p).

(** The size of a stack: the magnitudes of its quantities, added up. *)
Definition stack_magnitude (stack : list Order) : Z :=
  foldr (λ o acc, Z.abs (GetQuantity o) + acc) 0 stack.

Definition has_price (stack : list Order) (p : Q) : bool :=
  existsb (λ o, Qeq_bool (GetPrice o) p) stack.

Definition same_price (p : Q) (o : Order) : Prop := Qeq_bool (GetPrice o) p = true.

Global Instance same_price_dec p o : Decision (same_price p o).
Proof. unfold same_price. apply _. Defined.

Definition aggregated (stack : list Order) (side : PricingSide) (out : list Order) : Prop :=
  (∀ o, o ∈ stack → length (filter (same_price (GetPrice o)) out) = 1%nat)
  ∧ (∀ g, g ∈ out →
       (∃ o, o ∈ stack ∧ (GetPrice o == GetPrice g)%Q)
       ∧ GetQuantity g = quantity_at stack (GetPrice g)
       ∧ GetSide g = side).

(** Bookkeeping on the association list: how many entries, and how much
    quantity in total, it holds under keys equal to [p]. *)
Definition key_count (m : list (Q * Z)) (p : Q) : nat :=
  foldr (λ kv acc, if Qeq_bool (fst kv) p then S acc else acc) 0%nat m.

Definition val_sum (m : list (Q * Z)) (p : Q) : Z :=
  foldr (λ kv acc, if Qeq_bool (fst kv) p then snd kv + acc else acc) 0 m.

Record BondMarketDataService (T : Type) := mkBondMarketDataService {
  orderBooks : gmap string (OrderBook T);
  listeners : list ServiceListener;
  bookDepth : Z
}.
Arguments mkBondMarketDataService {T} _ _ _.
Arguments orderBooks {T} _.
Arguments listeners {T} _.
Arguments bookDepth {T} _.

Section Service.
Context {T : Type} `{Product T}.

Definition BondMarketDataService_new : BondMarketDataService T :=
  mkBondMarketDataService ∅ [] 5.

Definition set_orderBooks (s : BondMarketDataService T) m : BondMarketDataService T :=
  mkBondMarketDataService m (listeners s) (bookDepth s).

(** [OrderBook<T>& GetData(string _key)]. *)
Definition GetData (s : BondMarketDataService T) (_key : string)
  : OrderBook T * BondMarketDataService T :=
  let '(v, m) := map_index (orderBooks s) _key in (v, set_orderBooks s m).

(** [void OnMessage(OrderBook<T>& _data)]. *)
Definition OnMessage (s : BondMarketDataService T) (_data : OrderBook T)
  : BondMarketDataService T * list (call (OrderBook T)) :=
  (set_orderBooks s (<[GetProductId (GetProduct _data) := _data]> (orderBooks s)),
   notify (listeners s) _data).

Definition AddListener (s : BondMarketDataService T) (l : ServiceListener)
  : BondMarketDataService T :=
  mkBondMarketDataService (orderBooks s) (listeners s ++ [l]) (bookDepth s).

(** [OrderBook<T> AggregateDepth(const string& productId)].  Each of the
    three [orderBooks[productId]] goes through [map_index]. *)
Definition AggregateDepth (s : BondMarketDataService T) (productId : string)
  : OrderBook T * BondMarketDataService T :=
  let '(ob1, m1) := map_index (orderBooks s) productId in
  let bidStack := GetBidStack ob1 in
  let '(ob2, m2) := map_index m1 productId in
  let offerStack := GetOfferStack ob2 in
  let aggregatedBidStack := aggregateStack bidStack BID in
  let aggregatedOfferStack := aggregateStack offerStack OFFER in
  let '(ob3, m3) := map_index m2 productId in
  (mkOrderBook (GetProduct ob3) aggregatedBidStack aggregatedOfferStack,
   set_orderBooks s m3).
End Service.

End MarketData.

(** ** algoexecutionservice.hpp *)

Inductive OrderType := FOK | IOC | MARKET | LIMIT | STOP.

(** The conversion of a [long] to [double]: a double carries 53 significant
    bits, so an integer of magnitude up to 2^53 is kept and a larger one is
    rounded to the nearest multiple of its unit in the last place, a tie
    going to the even mantissa (the default rounding mode). *)
Definition long_to_double (z : Z) : Q :=
  let a := Z.abs z in
  if a <? 2 ^ 53 then inject_Z z
  else
    let ulp := 2 ^ (Z.log2 a - 52) in
    let q := a / ulp in
    let r := a mod ulp in
    let q' :=
      if 2 * r <? ulp then q
      else if ulp <? 2 * r then q + 1
      else if Z.even q then q else q + 1 in
    inject_Z (Z.sgn z * (q' * ulp)).
Global Arguments long_to_double : simpl never.

(** The conversion of a [double] to [long] or to [int] truncates toward
    zero. *)
Definition double_to_long (x : Q) : Z := Z.quot (Qnum x) (Zpos (Qden x)).

(** ** utils.hpp: [GenerateUniqueId] *)


Section GenerateUniqueId.
(** The generator is not modelled: [dist_rng seed i] stands for the [i]-th
    value that [uniform_real_distribution<double>(0.0, 1.0)] draws from a
    [std::mt19937_64] constructed with [seed], which depends on nothing
    else.  [now] is the reading of [steady_clock] at the call, the count of
    its [time_since_epoch()]. *)
Variable dist_rng : Z → nat → Q.

End GenerateUniqueId.

Module AlgoExecution.

(** [ExecutionOrder<T>]; the two quantities are [double] members that are
    set from, and read back as, [long]. *)
Record ExecutionOrder (T : Type) := mkExecutionOrder {
  GetProduct : T;
  GetPriceSide : PricingSide;
  GetOrderId : string;
  GetOrderType : OrderType;
  GetPrice : Q;
  visibleQuantity : Q;
  hiddenQuantity : Q;
  GetParentOrderId : string;
  IsChildOrder : bool
}.
Arguments mkExecutionOrder {T} _ _ _ _ _ _ _ _ _.
Arguments GetProduct {T} _.
Arguments GetPriceSide {T} _.
Arguments GetOrderId {T} _.
Arguments GetOrderType {T} _.
Arguments GetPrice {T} _.
Arguments visibleQuantity {T} _.
Arguments hiddenQuantity {T} _.
Arguments GetParentOrderId {T} _.
Arguments IsChildOrder {T} _.

Definition ExecutionOrder_new {T} (_product : T) (_side : PricingSide) (_orderId : string)
    (_orderType : OrderType) (_price : Q) (_visibleQuantity _hiddenQuantity : Z)
    (_parentOrderId : string) (_isChildOrder : bool) : ExecutionOrder T :=
  mkExecutionOrder _product _side _orderId _orderType _price
    (long_to_double _visibleQuantity) (long_to_double _hiddenQuantity)
    _parentOrderId _isChildOrder.

Definition GetVisibleQuantity {T} (eo : ExecutionOrder T) : Z :=
  double_to_long (visibleQuantity eo).
Definition GetHiddenQuantity {T} (eo : ExecutionOrder T) : Z :=
  double_to_long (hiddenQuantity eo).

(** [AlgoExecution<T>] holds a pointer to a heap-allocated execution order;
    [None] is the null pointer of a value-initialised [AlgoExecution]. *)
Record AlgoExecution (T : Type) := mkAlgoExecution {
  RetrieveExecutionOrder : option (ExecutionOrder T)
}.
Arguments mkAlgoExecution {T} _.
Arguments RetrieveExecutionOrder {T} _.

Global Instance AlgoExecution_value_init {T} : ValueInit (AlgoExecution T) :=
  mkAlgoExecution None.

Definition AlgoExecution_new {T} (product : T) (pricingSide : PricingSide)
    (orderIdentifier : string) (orderKind : OrderType) (orderPrice : Q)
    (visibleQty hiddenQty : Z) (parentOrderIdentifier : string) (isChild : bool)
  : AlgoExecution T :=
  mkAlgoExecution
    (Some (ExecutionOrder_new product pricingSide orderIdentifier orderKind orderPrice
             visibleQty hiddenQty parentOrderIdentifier isChild)).

Record AlgoExecutionService (T : Type) := mkAlgoExecutionService {
  executionSpread : Q;
  executionCount : Z;
  algoExecutionMap : gmap string (AlgoExecution T);
  serviceListeners : list ServiceListener
}.
Arguments mkAlgoExecutionService {T} _ _ _ _.
Arguments executionSpread {T} _.
Arguments executionCount {T} _.
Arguments algoExecutionMap {T} _.
Arguments serviceListeners {T} _.

Section Service.
Context {T : Type} `{Product T}.
Variables (bestBid0 bestOffer0 : MarketData.Order).

(** The constructor. *)
Definition AlgoExecutionService_new : AlgoExecutionService T :=
  mkAlgoExecutionService (1 / 128)%Q 0 ∅ [].

Definition GetData (s : AlgoExecutionService T) (key : string)
  : AlgoExecution T * AlgoExecutionService T :=
  let '(v, m) := map_index (algoExecutionMap s) key in
  (v, mkAlgoExecutionService (executionSpread s) (executionCount s) m (serviceListeners s)).

(** [OnMessage] dereferences the execution-order pointer of its argument;
    on a null pointer the behaviour is undefined ([None]). *)
Definition OnMessage (s : AlgoExecutionService T) (data : AlgoExecution T)
  : option (AlgoExecutionService T) :=
  eo ← RetrieveExecutionOrder data;
  Some (mkAlgoExecutionService (executionSpread s) (executionCount s)
          (<[GetProductId (GetProduct eo) := data]> (algoExecutionMap s))
          (serviceListeners s)).

Definition AddListener (s : AlgoExecutionService T) (newListener : ServiceListener)
  : AlgoExecutionService T :=
  mkAlgoExecutionService (executionSpread s) (executionCount s) (algoExecutionMap s)
    (serviceListeners s ++ [newListener]).

(** The test [(lowestOfferPrice - highestBidPrice) <= executionSpread]. *)
Definition crosses (s : AlgoExecutionService T) (currentOrderBook : MarketData.OrderBook T) : bool :=
  let optimalBidOffer := MarketData.GetBestBidOffer bestBid0 bestOffer0 currentOrderBook in
  let highestBidPrice := MarketData.GetPrice (MarketData.GetBidOrder optimalBidOffer) in
  let lowestOfferPrice := MarketData.GetPrice (MarketData.GetOfferOrder optimalBidOffer) in
  Qle_bool (lowestOfferPrice - highestBidPrice) (executionSpread s).

(** [void ExecuteOrder(OrderBook<T>&)].  [uniqueOrderId] is the local of that
    name, which the first statement of the function sets to the result of
    [GenerateUniqueId()]: the value [GenerateUniqueId dist_rng now] for the
    clock reading [now] of the call. *)
Definition ExecuteOrder (s : AlgoExecutionService T) (uniqueOrderId : string)
    (currentOrderBook : MarketData.OrderBook T)
  : AlgoExecutionService T * list (call (AlgoExecution T)) :=
  let associatedProduct := MarketData.GetProduct currentOrderBook in
  let productId := GetProductId associatedProduct in
  let optimalBidOffer := MarketData.GetBestBidOffer bestBid0 bestOffer0 currentOrderBook in
  let highestBid := MarketData.GetBidOrder optimalBidOffer in
  let highestBidPrice := MarketData.GetPrice highestBid in
  let highestBidQuantity := MarketData.GetQuantity highestBid in
  let lowestOffer := MarketData.GetOfferOrder optimalBidOffer in
  let lowestOfferPrice := MarketData.GetPrice lowestOffer in
  let lowestOfferQuantity := MarketData.GetQuantity lowestOffer in
  if Qle_bool (lowestOfferPrice - highestBidPrice) (executionSpread s) then
    let '(determinedPrice, determinedQuantity, selectedSide) :=
      if Z.rem (executionCount s) 2 =? 0
      then (highestBidPrice, highestBidQuantity, BID)
      else (lowestOfferPrice, lowestOfferQuantity, OFFER) in
    let executionCount' := executionCount s + 1 in
    let executionInstance :=
      AlgoExecution_new associatedProduct selectedSide uniqueOrderId MARKET
        determinedPrice determinedQuantity 0 "" false in
    (mkAlgoExecutionService (executionSpread s) executionCount'
       (<[productId := executionInstance]> (algoExecutionMap s)) (serviceListeners s),
     notify (serviceListeners s) executionInstance)
  else (s, []).

(** The states an engine instance can be in, indexed by the number of
    executions it has triggered since construction. *)
Inductive reachable : nat → AlgoExecutionService T → Prop :=
  | reach_new : reachable 0 AlgoExecutionService_new
  | reach_AddListener n s l :
      reachable n s → reachable n (AddListener s l)
  | reach_GetData n s key :
      reachable n s → reachable n (snd (GetData s key))
  | reach_OnMessage n s data s' :
      reachable n s → OnMessage s data = Some s' → reachable n s'
  | reach_ExecuteOrder n s uid ob :
      reachable n s →
      reachable (if crosses s ob then S n else n) (fst (ExecuteOrder s uid ob)).
End Service.

End AlgoExecution.

(** ** pricingservice.hpp *)

Module Pricing.

Record Price (T : Type) := mkPrice {
  GetProduct : T;
  GetMid : Q;
  GetBidOfferSpread : Q
}.
Arguments mkPrice {T} _ _ _.
Arguments GetProduct {T} _.
Arguments GetMid {T} _.
Arguments GetBidOfferSpread {T} _.

Global Instance Price_value_init {T} `{Product T} : ValueInit (Price T) :=
  mkPrice value_init 0%Q 0%Q.

Record PricingService (T : Type) := mkPricingService {
  priceData : gmap string (Price T);
  serviceListeners : list ServiceListener
}.
Arguments mkPricingService {T} _ _.
Arguments priceData {T} _.
Arguments serviceListeners {T} _.

Section Service.
Context {T : Type} `{Product T}.

Definition PricingService_new : PricingService T := mkPricingService ∅ [].

(** [Price<T>& GetData(string key)]. *)
Definition GetData (s : PricingService T) (key : string) : Price T * PricingService T :=
  let '(v, m) := map_index (priceData s) key in
  (v, mkPricingService m (serviceListeners s)).

Definition OnMessage (s : PricingService T) (data : Price T)
  : PricingService T * list (call (Price T)) :=
  (mkPricingService (<[GetProductId (GetProduct data) := data]> (priceData s))
     (serviceListeners s),
   notify (serviceListeners s) data).

Definition AddListener (s : PricingService T) (listener : ServiceListener) : PricingService T :=
  mkPricingService (priceData s) (serviceListeners s ++ [listener]).
End Service.

End Pricing.

(** ** algostreamingservice.hpp *)

Module AlgoStreaming.

Record PriceStreamOrder := mkPriceStreamOrder {
  GetPrice : Q;
  GetVisibleQuantity : Z;
  GetHiddenQuantity : Z;
  GetSide : PricingSide
}.

Record PriceStream (T : Type) := mkPriceStream {
  GetProduct : T;
  GetBidOrder : PriceStreamOrder;
  GetOfferOrder : PriceStreamOrder
}.
Arguments mkPriceStream {T} _ _ _.
Arguments GetProduct {T} _.
Arguments GetBidOrder {T} _.
Arguments GetOfferOrder {T} _.

(** [AlgoStream<T>] holds a pointer to a heap-allocated price stream. *)
Record AlgoStream (T : Type) := mkAlgoStream {
  GetPriceStream : option (PriceStream T)
}.
Arguments mkAlgoStream {T} _.
Arguments GetPriceStream {T} _.

Global Instance AlgoStream_value_init {T} : ValueInit (AlgoStream T) := mkAlgoStream None.

Definition AlgoStream_new {T} (_product : T) (_bidOrder _offerOrder : PriceStreamOrder)
  : AlgoStream T :=
  mkAlgoStream (Some (mkPriceStream _product _bidOrder _offerOrder)).

Record AlgoStreamingService (T : Type) := mkAlgoStreamingService {
  orderCounter : Z;
  algoStreamMap : gmap string (AlgoStream T);
  listeners : list ServiceListener
}.
Arguments mkAlgoStreamingService {T} _ _ _.
Arguments orderCounter {T} _.
Arguments algoStreamMap {T} _.
Arguments listeners {T} _.

Section Service.
Context {T : Type} `{Product T}.

Definition AlgoStreamingService_new : AlgoStreamingService T :=
  mkAlgoStreamingService 0 ∅ [].

Definition GetData (s : AlgoStreamingService T) (key : string)
  : AlgoStream T * AlgoStreamingService T :=
  let '(v, m) := map_index (algoStreamMap s) key in
  (v, mkAlgoStreamingService (orderCounter s) m (listeners s)).

Definition OnMessage (s : AlgoStreamingService T) (data : AlgoStream T)
  : option (AlgoStreamingService T) :=
  ps ← GetPriceStream data;
  Some (mkAlgoStreamingService (orderCounter s)
          (<[GetProductId (GetProduct ps) := data]> (algoStreamMap s)) (listeners s)).

Definition AddListener (s : AlgoStreamingService T) (listener : ServiceListener)
  : AlgoStreamingService T :=
  mkAlgoStreamingService (orderCounter s) (algoStreamMap s) (listeners s ++ [listener]).

(** [void PublishAlgorithmicPrice(const Price<T>& price)]. *)
Definition PublishAlgorithmicPrice (s : AlgoStreamingService T) (price : Pricing.Price T)
  : AlgoStreamingService T * list (call (AlgoStream T)) :=
  let product := Pricing.GetProduct price in
  let productId := GetProductId product in
  let midPrice := Pricing.GetMid price in
  let spread := Pricing.GetBidOfferSpread price in
  let bidPrice := (midPrice - spread / 2)%Q in
  let offerPrice := (midPrice + spread / 2)%Q in
  let visibleQty := (Z.rem (orderCounter s) 2 + 1) * 10000000 in
  let hiddenQty := visibleQty * 2 in
  let orderCounter' := orderCounter s + 1 in
  let bidOrder := mkPriceStreamOrder bidPrice visibleQty hiddenQty BID in
  let offerOrder := mkPriceStreamOrder offerPrice visibleQty hiddenQty OFFER in
  let algoStream := AlgoStream_new product bidOrder offerOrder in
  (mkAlgoStreamingService orderCounter'
     (<[productId := algoStream]> (algoStreamMap s)) (listeners s),
   notify (listeners s) algoStream).

(** The states an engine instance can be in, indexed by the number of
    Price updates it has processed since construction. *)
Inductive reachable : nat → AlgoStreamingService T → Prop :=
  | reach_new : reachable 0 AlgoStreamingService_new
  | reach_AddListener n s l :
      reachable n s → reachable n (AddListener s l)
  | reach_GetData n s key :
      reachable n s → reachable n (snd (GetData s key))
  | reach_OnMessage n s data s' :
      reachable n s → OnMessage s data = Some s' → reachable n s'
  | reach_PublishAlgorithmicPrice n s price :
      reachable n s → reachable (S n) (fst (PublishAlgorithmicPrice s price)).
End Service.

End AlgoStreaming.

(** ** tradebookingservice.hpp: trades *)

(** [enum Side { BUY, SELL }]. *)
Inductive Side := BUY | SELL.

Module TradeBooking.

(** Modelled from the spec: [tradebookingservice.hpp] (the [Trade] class) is
    missing from the sources.  A trade carries product, unique trade id, price, book,
    quantity and side; [AddTrade] reads it through the accessors below. *)
Record Trade (T : Type) := mkTrade {
  GetProduct : T;
  GetTradeId : string;
  GetPrice : Q;
  GetBook : string;
  GetQuantity : Z;
  GetSide : Side
}.
Arguments mkTrade {T} _ _ _ _ _ _.
Arguments GetProduct {T} _.
Arguments GetTradeId {T} _.
Arguments GetPrice {T} _.
Arguments GetBook {T} _.
Arguments GetQuantity {T} _.
Arguments GetSide {T} _.

End TradeBooking.

(** ** positionservice.hpp *)

Module Position.

Record Position (T : Type) := mkPosition {
  GetProduct : T;
  GetPositions : gmap string Z
}.
Arguments mkPosition {T} _ _.
Arguments GetProduct {T} _.
Arguments GetPositions {T} _.

Global Instance Position_value_init {T} `{Product T} : ValueInit (Position T) :=
  mkPosition value_init ∅.

(** [Position(const T& _product)]. *)
Definition Position_new {T} (_product : T) : Position T := mkPosition _product ∅.

(** [long GetPosition(string& _book)]: [positions[_book]]. *)
Definition GetPosition {T} (p : Position T) (_book : string) : Z * Position T :=
  let '(v, m) := map_index (GetPositions p) _book in (v, mkPosition (GetProduct p) m).

(** [void AddPosition(string& _book, long _position)]:
    [positions[_book] += _position], an addition of [long]: the sum
    written here as long as it is in the range of a [long]. *)
Definition AddPosition {T} (p : Position T) (_book : string) (_position : Z) : Position T :=
  let '(v, m) := map_index (GetPositions p) _book in
  mkPosition (GetProduct p) (<[_book := v + _position]> m).

(** [long GetAggregatePosition()]: the loop adds [p.second] of every entry
    to a [long]; the sum written here as long as the partial sums are in the
    range of a [long]. *)
Definition GetAggregatePosition {T} (p : Position T) : Z :=
  map_fold (λ _ quantity aggregatePosition, aggregatePosition + quantity) 0 (GetPositions p).

Record PositionService (T : Type) := mkPositionService {
  positions : gmap string (Position T);
  listeners : list ServiceListener
}.
Arguments mkPositionService {T} _ _.
Arguments positions {T} _.
Arguments listeners {T} _.

Section Service.
Context {T : Type} `{Product T}.

Definition PositionService_new : PositionService T := mkPositionService ∅ [].

Definition GetData (s : PositionService T) (_key : string)
  : Position T * PositionService T :=
  let '(v, m) := map_index (positions s) _key in (v, mkPositionService m (listeners s)).

Definition OnMessage (s : PositionService T) (_data : Position T) : PositionService T :=
  mkPositionService (<[GetProductId (GetProduct _data) := _data]> (positions s)) (listeners s).

Definition AddListener (s : PositionService T) (_listener : ServiceListener)
  : PositionService T :=
  mkPositionService (positions s) (listeners s ++ [_listener]).

(** [void AddTrade(const Trade<T>& _trade)]. *)
Definition AddTrade (s : PositionService T) (_trade : TradeBooking.Trade T)
  : PositionService T * list (call (Position T)) :=
  let _product := TradeBooking.GetProduct _trade in
  let _productId := GetProductId _product in
  let _book := TradeBooking.GetBook _trade in
  let _quantity := TradeBooking.GetQuantity _trade in
  let _side := TradeBooking.GetSide _trade in
  let _positionTo0 := Position_new _product in
  let _positionTo1 :=
    match _side with
    | BUY => AddPosition _positionTo0 _book _quantity
    | SELL => AddPosition _positionTo0 _book (- _quantity)
    end in
  let '(_positionFrom, positions1) := map_index (positions s) _productId in
  let _positionMap := GetPositions _positionFrom in
  let _positionTo :=
    map_fold (λ _book _quantity acc, AddPosition acc _book _quantity)
      _positionTo1 _positionMap in
  (mkPositionService (<[_productId := _positionTo]> positions1) (listeners s),
   notify (listeners s) _positionTo).

(** Replaying a sequence of trades, oldest first; the calls made to the
    listeners are collected in order. *)
Definition AddTrades (s : PositionService T) (trades : list (TradeBooking.Trade T))
  : PositionService T * list (call (Position T)) :=
  fold_left (λ acc t, let '(s', calls) := AddTrade (fst acc) t in (s', snd acc ++ calls))
    trades (s, []).
End Service.

(** The signed quantity of a trade: BUY positive, SELL negative. *)
Definition signed_quantity {T} (t : TradeBooking.Trade T) : Z :=
  match TradeBooking.GetSide t with
  | BUY => TradeBooking.GetQuantity t
  | SELL => - TradeBooking.GetQuantity t
  end.

Definition sum_signed {T} (trades : list (TradeBooking.Trade T)) : Z :=
  foldr (λ t acc, signed_quantity t + acc) 0 trades.

(** The sizes that bound every sum the code can form: of the quantities of
    a sequence of trades, and of the books of a position. *)
Definition total_magnitude {T} (trades : list (TradeBooking.Trade T)) : Z :=
  foldr (λ t acc, Z.abs (TradeBooking.GetQuantity t) + acc) 0 trades.

Definition magnitude {T} (p : Position T) : Z :=
  map_fold (λ _ quantity acc, acc + Z.abs quantity) 0 (GetPositions p).

End Position.

(** ** riskservice.hpp *)

(** What a call leaves behind: it returns, or it throws; either way with the
    service state and the listener calls made up to that point. *)
Inductive outcome (S V : Type) : Type :=
  | Returned (s : S) (calls : list (call V))
  | Thrown (e : exception) (s : S) (calls : list (call V)).
Arguments Returned {S V} s calls.
Arguments Thrown {S V} e s calls.

Module Risk.

Record PV01 (P : Type) := mkPV01 {
  GetProduct : P;
  GetPV01 : Q;
  GetQuantity : Z
}.
Arguments mkPV01 {P} _ _ _.
Arguments GetProduct {P} _.
Arguments GetPV01 {P} _.
Arguments GetQuantity {P} _.

Global Instance PV01_value_init {P} `{ValueInit P} : ValueInit (PV01 P) :=
  mkPV01 value_init 0%Q 0.

Record RiskService (T : Type) := mkRiskService {
  pv01s : gmap string (PV01 T);
  listeners : list ServiceListener
}.
Arguments mkRiskService {T} _ _.
Arguments pv01s {T} _.
Arguments listeners {T} _.

Section Service.
Context {T : Type} `{Product T}.

Definition RiskService_new : RiskService T := mkRiskService ∅ [].

(** [PV01<T>& GetData(string _key)]. *)
Definition GetData (s : RiskService T) (_key : string) : PV01 T * RiskService T :=
  let '(v, m) := map_index (pv01s s) _key in (v, mkRiskService m (listeners s)).

Definition OnMessage (s : RiskService T) (_data : PV01 T) : RiskService T :=
  mkRiskService (<[GetProductId (GetProduct _data) := _data]> (pv01s s)) (listeners s).

Definition AddListener (s : RiskService T) (_listener : ServiceListener) : RiskService T :=
  mkRiskService (pv01s s) (listeners s ++ [_listener]).

(** [void AddPosition(Position<T>& _position)]. *)
Definition AddPosition (s : RiskService T) (_position : Position.Position T)
  : outcome (RiskService T) (PV01 T) :=
  let _product := Position.GetProduct _position in
  let _productId := GetProductId _product in
  match PV01Info _productId with
  | inl e => Thrown e s []
  | inr _pv01Value =>
      let _quantity := Position.GetAggregatePosition _position in
      let _pv01 := mkPV01 _product _pv01Value _quantity in
      Returned (mkRiskService (<[_productId := _pv01]> (pv01s s)) (listeners s))
        (notify (listeners s) _pv01)
  end.

(** [GetBucketedRisk] is not embedded.  The member function is declared
    [const] and reads [pv01s[_pId]]; [std::map] has no [operator[]] for a
    constant map, so the member cannot be instantiated, and it returns a
    reference to a [PV01] that is destroyed when it returns.  No caller in
    the repository uses it. *)
End Service.

End Risk.

(** ** Sample data used by the examples *)

Definition bond_unlisted : Bond := mkBond "912828XX1" CUSIP "US1Y" (4 # 100) (2025, 11, 30).
Definition bond_2y : Bond := mkBond "91282CLY5" CUSIP "US2Y" (425 # 10000) (2026, 11, 30).
Definition bond_3y : Bond := mkBond "91282CMB4" CUSIP "US3Y" (400 # 10000) (2027, 12, 15).

Definition risk_service_1 : Risk.RiskService Bond :=
  Risk.mkRiskService {[ "91282CLY5"%string := Risk.mkPV01 bond_2y (1854 # 10000) 5 ]} [7%nat].

(** An order book whose best bid and best offer are exactly 1/128 apart, and
    one whose best prices are 1/128 + 1/256 apart. *)
Definition book_at_threshold : MarketData.OrderBook Bond :=
  MarketData.mkOrderBook bond_2y
    [ MarketData.mkOrder (9950 # 100) 10 BID; MarketData.mkOrder (9975 # 100) 20 BID ]
    [ MarketData.mkOrder (100 # 1) 15 OFFER; MarketData.mkOrder ((9975 # 100) + (1 # 128)) 5 OFFER ].


(** The order book of the spec's best-bid-offer example. *)
Definition book_spec_example : MarketData.OrderBook Bond :=
  MarketData.mkOrderBook bond_2y
    [ MarketData.mkOrder (9950 # 100) 10 BID; MarketData.mkOrder (9975 # 100) 20 BID ]
    [ MarketData.mkOrder (100 # 1) 15 OFFER; MarketData.mkOrder (9990 # 100) 5 OFFER ].

(** A book whose only bid and only offer are priced at the two extreme
    finite doubles. *)
Definition book_sentinel : MarketData.OrderBook Bond :=
  MarketData.mkOrderBook bond_2y
    [ MarketData.mkOrder MarketData.DBL_LOWEST 10 BID ]
    [ MarketData.mkOrder MarketData.DBL_MAX 5 OFFER ].

Definition book_at_threshold_3y : MarketData.OrderBook Bond :=
  MarketData.mkOrderBook bond_3y
    [ MarketData.mkOrder (100 # 1) 30 BID ]
    [ MarketData.mkOrder ((100 # 1) + (1 # 128)) 5 OFFER ].




(** A position service with one listener that holds two books for the
    two-year note, and a sale out of the first book. *)
Definition position_service_1 : Position.PositionService Bond :=
  Position.mkPositionService
    {[ "91282CLY5"%string :=
         Position.mkPosition bond_2y
           {[ "TRSY1"%string := 1000000; "TRSY2"%string := 2000000 ]} ]}
    [9%nat].

Definition trade_sell_trsy1 : TradeBooking.Trade Bond :=
  TradeBooking.mkTrade bond_2y "T0000000001" (100 # 1) "TRSY1" 400000 SELL.

Definition trade_buy_trsy2 : TradeBooking.Trade Bond :=
  TradeBooking.mkTrade bond_2y "T0000000002" (99 # 1) "TRSY2" 250000 BUY.

(** A market-data store holding the bid stack of the spec's depth example;
    the first two bids carry the same price in two different fractions. *)
Definition book_depth_example : MarketData.OrderBook Bond :=
  MarketData.mkOrderBook bond_2y
    [ MarketData.mkOrder (995 # 10) 10 BID; MarketData.mkOrder (199 # 2) 5 BID;
      MarketData.mkOrder (9975 # 100) 20 BID ]
    [ MarketData.mkOrder (100 # 1) 15 OFFER ].

Definition market_service_1 : MarketData.BondMarketDataService Bond :=
  fst (MarketData.OnMessage MarketData.BondMarketDataService_new book_depth_example).

(** Some contents for a default-initialised [Order]. *)
Definition stale_order : MarketData.Order := MarketData.mkOrder (12345 # 1) (-7) OFFER.

(** An execution engine with one listener, before and after one execution. *)
Definition exec_engine_0 : AlgoExecution.AlgoExecutionService Bond :=
  AlgoExecution.AddListener AlgoExecution.AlgoExecutionService_new 4%nat.

Definition exec_engine_1 : AlgoExecution.AlgoExecutionService Bond :=
  fst (AlgoExecution.ExecuteOrder stale_order stale_order exec_engine_0 "A1B2C3D4E5F6"
         book_at_threshold).

(** A streaming engine with one listener that has processed one Price update. *)
Definition stream_engine_1 : AlgoStreaming.AlgoStreamingService Bond :=
  fst (AlgoStreaming.PublishAlgorithmicPrice
         (AlgoStreaming.AddListener AlgoStreaming.AlgoStreamingService_new 3%nat)
         (Pricing.mkPrice bond_2y (99 # 1) (1 # 64))).

(** ** marketdataservice.hpp: the service's own best bid/offer *)

Module BondMarketDataService.

Section Service.
Context {T : Type} `{Product T}.
Variables (bestBid0 bestOffer0 : MarketData.Order).

(** [BidOffer GetBestBidOffer(const string& _productId)]: the book is read
    with [orderBooks[_productId]]. *)
Definition GetBestBidOffer (s : MarketData.BondMarketDataService T) (_productId : string)
  : MarketData.BidOffer * MarketData.BondMarketDataService T :=
  let '(currOrderBook, m) := map_index (MarketData.orderBooks s) _productId in
  (MarketData.GetBestBidOffer bestBid0 bestOffer0 currOrderBook,
   MarketData.set_orderBooks s m).
End Service.

End BondMarketDataService.

(** The quantity on offer in a stack, all levels together. *)
Definition total_quantity (stack : list MarketData.Order) : Z :=
  foldr (λ o acc, MarketData.GetQuantity o + acc) 0 stack.

(** A run of Price updates through [PricingService::OnMessage], oldest
    first, with the listener calls in the order they are made. *)
Definition Pricing_OnMessages {T : Type} `{Product T}
    (s : Pricing.PricingService T) (datas : list (Pricing.Price T))
  : Pricing.PricingService T * list (call (Pricing.Price T)) :=
  fold_left
    (λ acc d, let '(s', calls) := Pricing.OnMessage (fst acc) d in (s', snd acc ++ calls))
    datas (s, []).

(** ** algoexecutionservice.hpp: the listener on the market-data service *)

Module ListenerAlgoToMarketData.
Section Listener.
Context {T : Type} `{Product T}.
Variables (bestBid0 bestOffer0 : MarketData.Order).

(** [void ProcessAdd(OrderBook<T>& _data)]: [service->ExecuteOrder(_data)].
    [uniqueOrderId] is the identifier that this call of [ExecuteOrder]
    draws. *)
Definition ProcessAdd (service : AlgoExecution.AlgoExecutionService T)
    (uniqueOrderId : string) (_data : MarketData.OrderBook T)
  : AlgoExecution.AlgoExecutionService T * list (call (AlgoExecution.AlgoExecution T)) :=
  AlgoExecution.ExecuteOrder bestBid0 bestOffer0 service uniqueOrderId _data.

(** A sequence of order-book updates delivered to the listener, oldest
    first, each with the identifier drawn for it. *)
Definition ProcessAdds (service : AlgoExecution.AlgoExecutionService T)
    (updates : list (string * MarketData.OrderBook T))
  : AlgoExecution.AlgoExecutionService T * list (call (AlgoExecution.AlgoExecution T)) :=
  fold_left
    (λ acc u, let '(s', calls) := ProcessAdd (fst acc) (fst u) (snd u) in
              (s', snd acc ++ calls))
    updates (service, []).
End Listener.
End ListenerAlgoToMarketData.

(** ** riskservice.hpp: the listener on the position service *)

Module RiskToPositionListener.
Section Listener.
Context {T : Type} `{Product T}.

(** [void ProcessAdd(Position<T>& _data)]: [service->AddPosition(_data)]. *)
Definition ProcessAdd (service : Risk.RiskService T) (_data : Position.Position T)
  : outcome (Risk.RiskService T) (Risk.PV01 T) :=
  Risk.AddPosition service _data.
End Listener.
End RiskToPositionListener.

(** ** executionservice.hpp *)

Module Execution.

(** [ExecutionOrder() = default], value-initialised by [operator[]]: the
    first enumerators, zero quantities and price, empty strings. *)
Global Instance ExecutionOrder_value_init {T} `{Product T}
  : ValueInit (AlgoExecution.ExecutionOrder T) :=
  AlgoExecution.mkExecutionOrder value_init BID "" FOK 0%Q 0%Q 0%Q "" false.

Record ExecutionService (T : Type) := mkExecutionService {
  executionOrders : gmap string (AlgoExecution.ExecutionOrder T);
  listeners : list ServiceListener
}.
Arguments mkExecutionService {T} _ _.
Arguments executionOrders {T} _.
Arguments listeners {T} _.

Section Service.
Context {T : Type} `{Product T}.

Definition ExecutionService_new : ExecutionService T := mkExecutionService ∅ [].

(** [ExecutionOrder<T>& GetData(string key)]. *)
Definition GetData (s : ExecutionService T) (key : string)
  : AlgoExecution.ExecutionOrder T * ExecutionService T :=
  let '(v, m) := map_index (executionOrders s) key in (v, mkExecutionService m (listeners s)).

(** [void OnMessage(ExecutionOrder<T>& data)]. *)
Definition OnMessage (s : ExecutionService T) (data : AlgoExecution.ExecutionOrder T)
  : ExecutionService T :=
  mkExecutionService
    (<[GetProductId (AlgoExecution.GetProduct data) := data]> (executionOrders s))
    (listeners s).

Definition AddListener (s : ExecutionService T) (listener : ServiceListener)
  : ExecutionService T :=
  mkExecutionService (executionOrders s) (listeners s ++ [listener]).

(** [void ProcessExecution(ExecutionOrder<T>& _executionOrder)]. *)
Definition ProcessExecution (s : ExecutionService T)
    (_executionOrder : AlgoExecution.ExecutionOrder T)
  : ExecutionService T * list (call (AlgoExecution.ExecutionOrder T)) :=
  let _productId := GetProductId (AlgoExecution.GetProduct _executionOrder) in
  (mkExecutionService (<[_productId := _executionOrder]> (executionOrders s)) (listeners s),
   notify (listeners s) _executionOrder).
End Service.

End Execution.

Module ListenerExeToAlgoExe.
Section Listener.
Context {T : Type} `{Product T}.

(** [void ProcessAdd(AlgoExecution<T>& _data)]: the execution-order pointer
    is dereferenced; on a null pointer the behaviour is undefined ([None]). *)
Definition ProcessAdd (service : Execution.ExecutionService T)
    (_data : AlgoExecution.AlgoExecution T)
  : option (Execution.ExecutionService T * list (call (AlgoExecution.ExecutionOrder T))) :=
  _executionOrder ← AlgoExecution.RetrieveExecutionOrder _data;
  let service1 := Execution.OnMessage service _executionOrder in
  Some (Execution.ProcessExecution service1 _executionOrder).
End Listener.
End ListenerExeToAlgoExe.

(** ** algostreamingservice.hpp: the listener on the pricing service *)

Module ListenerAlgoStreamToPrc.
Section Listener.
Context {T : Type} `{Product T}.

(** [void ProcessAdd(Price<T>& _data)]:
    [service->PublishAlgorithmicPrice(_data)]. *)
Definition ProcessAdd (service : AlgoStreaming.AlgoStreamingService T)
    (_data : Pricing.Price T)
  : AlgoStreaming.AlgoStreamingService T * list (call (AlgoStreaming.AlgoStream T)) :=
  AlgoStreaming.PublishAlgorithmicPrice service _data.
End Listener.
End ListenerAlgoStreamToPrc.

(** ** streamingservice.hpp *)

Module Streaming.

(** [PriceStreamOrder() = default] and [PriceStream() = default],
    value-initialised. *)
Global Instance PriceStreamOrder_value_init : ValueInit AlgoStreaming.PriceStreamOrder :=
  AlgoStreaming.mkPriceStreamOrder 0%Q 0 0 BID.

Global Instance PriceStream_value_init {T} `{Product T}
  : ValueInit (AlgoStreaming.PriceStream T) :=
  AlgoStreaming.mkPriceStream value_init value_init value_init.

Record StreamingService (T : Type) := mkStreamingService {
  priceStreams : gmap string (AlgoStreaming.PriceStream T);
  listeners : list ServiceListener
}.
Arguments mkStreamingService {T} _ _.
Arguments priceStreams {T} _.
Arguments listeners {T} _.

Section Service.
Context {T : Type} `{Product T}.

Definition StreamingService_new : StreamingService T := mkStreamingService ∅ [].

(** [PriceStream<T>& GetData(string _key)]. *)
Definition GetData (s : StreamingService T) (_key : string)
  : AlgoStreaming.PriceStream T * StreamingService T :=
  let '(v, m) := map_index (priceStreams s) _key in (v, mkStreamingService m (listeners s)).

(** [void OnMessage(PriceStream<T>& _data)]. *)
Definition OnMessage (s : StreamingService T) (_data : AlgoStreaming.PriceStream T)
  : StreamingService T :=
  mkStreamingService
    (<[GetProductId (AlgoStreaming.GetProduct _data) := _data]> (priceStreams s))
    (listeners s).

Definition AddListener (s : StreamingService T) (_listener : ServiceListener)
  : StreamingService T :=
  mkStreamingService (priceStreams s) (listeners s ++ [_listener]).

(** [void PublishPrice(PriceStream<T>& _priceStream)]: the store is not
    touched. *)
Definition PublishPrice (s : StreamingService T) (_priceStream : AlgoStreaming.PriceStream T)
  : list (call (AlgoStreaming.PriceStream T)) :=
  notify (listeners s) _priceStream.
End Service.

End Streaming.

Module ListenerStreamToAlgoStream.
Section Listener.
Context {T : Type} `{Product T}.

(** [void ProcessAdd(AlgoStream<T>& _data)]; a null price-stream pointer is
    undefined behaviour ([None]). *)
Definition ProcessAdd (service : Streaming.StreamingService T)
    (_data : AlgoStreaming.AlgoStream T)
  : option (Streaming.StreamingService T * list (call (AlgoStreaming.PriceStream T))) :=
  _priceStream ← AlgoStreaming.GetPriceStream _data;
  let service1 := Streaming.OnMessage service _priceStream in
  Some (service1, Streaming.PublishPrice service1 _priceStream).
End Listener.
End ListenerStreamToAlgoStream.

(** A streaming and an execution service with stored entries and listeners. *)
Definition streaming_service_1 : Streaming.StreamingService Bond :=
  Streaming.AddListener
    (Streaming.OnMessage Streaming.StreamingService_new
       (AlgoStreaming.mkPriceStream bond_2y
          (AlgoStreaming.mkPriceStreamOrder (99 # 1) 10000000 20000000 BID)
          (AlgoStreaming.mkPriceStreamOrder (100 # 1) 10000000 20000000 OFFER)))
    11%nat.

Definition execution_service_1 : Execution.ExecutionService Bond :=
  Execution.AddListener
    (Execution.AddListener Execution.ExecutionService_new 5%nat) 6%nat.

(** ** inquiryservice.hpp *)

Inductive InquiryState := RECEIVED | QUOTED | DONE | REJECTED | CUSTOMER_REJECTED.

Global Instance InquiryState_eq_dec : EqDecision InquiryState.
Proof. solve_decision. Defined.

Module Inquiry.

Record Inquiry (T : Type) := mkInquiry {
  GetInquiryId : string;
  GetProduct : T;
  GetSide : Side;
  GetQuantity : Z;
  GetPrice : Q;
  GetState : InquiryState
}.
Arguments mkInquiry {T} _ _ _ _ _ _.
Arguments GetInquiryId {T} _.
Arguments GetProduct {T} _.
Arguments GetSide {T} _.
Arguments GetQuantity {T} _.
Arguments GetPrice {T} _.
Arguments GetState {T} _.

Definition SetPrice {T} (inq : Inquiry T) (newPrice : Q) : Inquiry T :=
  mkInquiry (GetInquiryId inq) (GetProduct inq) (GetSide inq) (GetQuantity inq)
    newPrice (GetState inq).

Definition SetState {T} (inq : Inquiry T) (newState : InquiryState) : Inquiry T :=
  mkInquiry (GetInquiryId inq) (GetProduct inq) (GetSide inq) (GetQuantity inq)
    (GetPrice inq) newState.

(** [Inquiry() = default], value-initialised by [operator[]]. *)
Global Instance Inquiry_value_init {T} `{Product T} : ValueInit (Inquiry T) :=
  mkInquiry "" value_init BUY 0 0%Q RECEIVED.

Record BondInquiryService (T : Type) := mkBondInquiryService {
  inquiryRecords : gmap string (Inquiry T);
  listenerCollection : list ServiceListener
}.
Arguments mkBondInquiryService {T} _ _.
Arguments inquiryRecords {T} _.
Arguments listenerCollection {T} _.

(** What a call that takes the inquiry by reference leaves behind: the
    service, the caller's inquiry object, and the listener calls made. *)
Definition run (T : Type) : Type :=
  BondInquiryService T * Inquiry T * list (call (Inquiry T)).

Section Service.
Context {T : Type} `{Product T}.

Definition BondInquiryService_new : BondInquiryService T := mkBondInquiryService ∅ [].

Definition GetData (s : BondInquiryService T) (key : string)
  : Inquiry T * BondInquiryService T :=
  let '(v, m) := map_index (inquiryRecords s) key in
  (v, mkBondInquiryService m (listenerCollection s)).

Definition AddListener (s : BondInquiryService T) (listener : ServiceListener)
  : BondInquiryService T :=
  mkBondInquiryService (inquiryRecords s) (listenerCollection s ++ [listener]).

(** The connector holds a pointer back to its service; its two functions
    take the service's [OnMessage] as [servicePtr_OnMessage]. *)
Section Connector.
Variable servicePtr_OnMessage : BondInquiryService T → Inquiry T → option (run T).

(** [void InquiryConnector<T>::Subscribe(Inquiry<T>& msg)]. *)
Definition Connector_Subscribe (s : BondInquiryService T) (msg : Inquiry T)
  : option (run T) :=
  servicePtr_OnMessage s msg.

(** [void InquiryConnector<T>::Publish(Inquiry<T>& msg)]. *)
Definition Connector_Publish (s : BondInquiryService T) (msg : Inquiry T)
  : option (run T) :=
  let curState := GetState msg in
  if decide (curState = RECEIVED) then
    let msg := SetState msg QUOTED in
    Connector_Subscribe s msg
  else Some (s, msg, []).
End Connector.

(** [void BondInquiryService<T>::OnMessage(Inquiry<T>& msg)].  The function
    calls itself through the connector; [fuel] bounds the depth of these
    calls, and [None] says that the bound was reached. *)
Fixpoint OnMessage (fuel : nat) (s : BondInquiryService T) (msg : Inquiry T)
  : option (run T) :=
  match fuel with
  | O => None
  | S fuel' =>
      let curState := GetState msg in
      match curState with
      | RECEIVED =>
          let msg := SetPrice msg 100 in
          let s := mkBondInquiryService (<[GetInquiryId msg := msg]> (inquiryRecords s))
                     (listenerCollection s) in
          Connector_Publish (OnMessage fuel') s msg
      | QUOTED =>
          let msg := SetState msg DONE in
          let s := mkBondInquiryService (<[GetInquiryId msg := msg]> (inquiryRecords s))
                     (listenerCollection s) in
          Some (s, msg, notify (listenerCollection s) msg)
      | _ => Some (s, msg, [])
      end
  end.

(** [void SendQuote(const string &inquiryId, double price)]: [inq] is a
    reference into the map. *)
Definition SendQuote (s : BondInquiryService T) (inquiryId : string) (price : Q)
  : BondInquiryService T * list (call (Inquiry T)) :=
  let '(inq, m) := map_index (inquiryRecords s) inquiryId in
  let inq := SetPrice inq price in
  (mkBondInquiryService (<[inquiryId := inq]> m) (listenerCollection s),
   notify (listenerCollection s) inq).

(** [void RejectInquiry(const string &inquiryId)]. *)
Definition RejectInquiry (s : BondInquiryService T) (inquiryId : string)
  : BondInquiryService T :=
  let '(inq, m) := map_index (inquiryRecords s) inquiryId in
  let inq := SetState inq REJECTED in
  mkBondInquiryService (<[inquiryId := inq]> m) (listenerCollection s).
End Service.

End Inquiry.

(** An inquiry service with one listener, and a customer inquiry as the
    connector reads it from a file. *)
Definition inquiry_service_1 : Inquiry.BondInquiryService Bond :=
  Inquiry.AddListener Inquiry.BondInquiryService_new 12%nat.

Definition inquiry_received : Inquiry.Inquiry Bond :=
  Inquiry.mkInquiry "Q7XK2M4PA9ZT" bond_2y BUY 2000000 0%Q RECEIVED.

(** ** Text input: [std::getline], [std::stol], [vector::operator[]] *)

Definition newline : ascii := "010"%char.

Fixpoint contains (delim : ascii) (s : string) : bool :=
  match s with
  | EmptyString => false
  | String c s' => Ascii.eqb c delim || contains delim s'
  end.

(** [while (getline(stream, cell, delim)) cells.push_back(cell);] on what is
    left of a stream, [cell] being the characters extracted so far.
    A delimiter ends a cell, which may be empty; at the end of the stream a
    cell counts only if a character was extracted for it, so that one final
    delimiter does not open another cell. *)
Fixpoint getline_all (delim : ascii) (cell : string) (stream : string) : list string :=
  match stream with
  | EmptyString => match cell with EmptyString => [] | _ => [cell] end
  | String c stream' =>
      if Ascii.eqb c delim then cell :: getline_all delim "" stream'
      else getline_all delim (push_back cell c) stream'
  end.

(** [std::stol] on a non-empty string of decimal digits; as for [Text.stod],
    every other input is outside the modelled fragment. *)
Definition stol (s : string) : option Z :=
  match s with
  | EmptyString => None
  | _ => Text.stod_acc 0 s
  end.

(** Why a connector run stops before the end of its input. *)
Inductive abort :=
  | undefined_behaviour   (* a vector index beyond its size, a division by zero *)
  | not_modelled          (* a number text outside the modelled fragment *)
  | thrown (e : exception).

Global Instance abort_ret : MRet (sum abort) := λ A x, inr x.
Global Instance abort_bind : MBind (sum abort) :=
  λ A B f x, match x with inl a => inl a | inr v => f v end.

(** [v[i]] on a [vector<string>]. *)
Definition at_index (v : list string) (i : nat) : abort + string :=
  match v !! i with
  | Some x => inr x
  | None => inl undefined_behaviour
  end.

Definition modelled {A} (x : option A) : abort + A :=
  match x with
  | Some v => inr v
  | None => inl not_modelled
  end.

Definition throwing {A} (x : exception + A) : abort + A :=
  match x with
  | inr v => inr v
  | inl e => inl (thrown e)
  end.

(** ** utils.hpp: the bond reference table, and the connectors that use it *)

Section Connectors.

(** [year_month_day parse_date_string(const std::string&)] is not modelled:
    the table below is built from whatever it returns for the seven date
    texts. *)
Variable parse_date_string : string → Z * Z * Z.

Definition bond_map : gmap string Bond :=
  list_to_map
    [ ("91282CLY5"%string,
       mkBond "91282CLY5" CUSIP "US2Y" (425 # 10000) (parse_date_string "2026-11-30"));
      ("91282CMB4"%string,
       mkBond "91282CMB4" CUSIP "US3Y" (400 # 10000) (parse_date_string "2027-12-15"));
      ("91282CMA6"%string,
       mkBond "91282CMA6" CUSIP "US5Y" (4125 # 100000) (parse_date_string "2029-11-30"));
      ("91282CLZ2"%string,
       mkBond "91282CLZ2" CUSIP "US7Y" (4125 # 100000) (parse_date_string "2031-11-30"));
      ("91282CLW9"%string,
       mkBond "91282CLW9" CUSIP "US10Y" (425 # 10000) (parse_date_string "2034-11-15"));
      ("912810UF3"%string,
       mkBond "912810UF3" CUSIP "US20Y" (4625 # 100000) (parse_date_string "2044-11-15"));
      ("912810UE6"%string,
       mkBond "912810UE6" CUSIP "US30Y" (4500 # 100000) (parse_date_string "2054-11-15")) ].

(** [Bond BondInfo(const std::string& _cusip)]. *)
Definition BondInfo (_cusip : string) : exception + Bond :=
  match bond_map !! _cusip with
  | Some b => inr b
  | None => inl (invalid_argument "Unknown CUSIP")
  end.

(** *** pricingservice.hpp: [PricingConnector<T>::Subscribe] *)

(** The body of the [while (getline(inputData, lineBuffer))] loop. *)
Definition PricingConnector_Subscribe_line (service : Pricing.PricingService Bond)
    (lineBuffer : string)
  : abort + (Pricing.PricingService Bond * list (call (Pricing.Price Bond))) :=
  let parsedFields := getline_all "," "" lineBuffer in
  productId ← at_index parsedFields 0;
  field1 ← at_index parsedFields 1;
  bidPrice ← modelled (ParsePrice field1);
  field2 ← at_index parsedFields 2;
  offerPrice ← modelled (ParsePrice field2);
  let midPrice := ((bidPrice + offerPrice) / 2)%Q in
  let bidOfferSpread := (offerPrice - bidPrice)%Q in
  productInstance ← throwing (BondInfo productId);
  let priceObject := Pricing.mkPrice productInstance midPrice bidOfferSpread in
  mret (Pricing.OnMessage service priceObject).

(** The loop over the lines; it ends with the input, or with the first line
    that aborts. *)
Fixpoint PricingConnector_Subscribe_lines (service : Pricing.PricingService Bond)
    (lines : list string)
  : Pricing.PricingService Bond * list (call (Pricing.Price Bond)) * option abort :=
  match lines with
  | [] => (service, [], None)
  | lineBuffer :: rest =>
      match PricingConnector_Subscribe_line service lineBuffer with
      | inl a => (service, [], Some a)
      | inr (service1, calls1) =>
          let '(service2, calls2, ended) := PricingConnector_Subscribe_lines service1 rest in
          (service2, calls1 ++ calls2, ended)
      end
  end.

(** [void PricingConnector<T>::Subscribe(ifstream& inputData)], on the
    content of the file. *)
Definition PricingConnector_Subscribe (service : Pricing.PricingService Bond)
    (inputData : string)
  : Pricing.PricingService Bond * list (call (Pricing.Price Bond)) * option abort :=
  PricingConnector_Subscribe_lines service (getline_all newline "" inputData).

(** *** marketdataservice.hpp: [BondMarketDataConnector<T>::Subscribe] *)

(** The lambda [parseOrder]. *)
Definition parseOrder (line : string) : abort + (string * MarketData.Order) :=
  let tokens := getline_all "," "" line in
  productId ← at_index tokens 0;
  token1 ← at_index tokens 1;
  price ← modelled (ParsePrice token1);
  token2 ← at_index tokens 2;
  quantity ← modelled (stol token2);
  token3 ← at_index tokens 3;
  let side := if decide (token3 = "BID"%string) then BID else OFFER in
  mret (productId, MarketData.mkOrder price quantity side).

(** The locals of [Subscribe] that live across loop iterations, with the
    service. *)
Record market_feed := mkMarketFeed {
  feed_service : MarketData.BondMarketDataService Bond;
  bidOrders : list MarketData.Order;
  offerOrders : list MarketData.Order;
  orderCount : Z
}.

(** The body of the [while (getline(dataStream, line))] loop. *)
Definition BondMarketDataConnector_Subscribe_line (batchSize : Z) (st : market_feed)
    (line : string)
  : abort + (market_feed * list (call (MarketData.OrderBook Bond))) :=
  '(productId, order) ← parseOrder line;
  let bidOrders1 :=
    if decide (MarketData.GetSide order = BID) then bidOrders st ++ [order] else bidOrders st in
  let offerOrders1 :=
    if decide (MarketData.GetSide order = BID) then offerOrders st
    else offerOrders st ++ [order] in
  let orderCount1 := orderCount st + 1 in
  if batchSize =? 0 then inl undefined_behaviour
  else if Z.rem orderCount1 batchSize =? 0 then
    product ← throwing (BondInfo productId);
    let orderBook := MarketData.mkOrderBook product bidOrders1 offerOrders1 in
    let '(service1, calls) := MarketData.OnMessage (feed_service st) orderBook in
    mret (mkMarketFeed service1 [] [] orderCount1, calls)
  else mret (mkMarketFeed (feed_service st) bidOrders1 offerOrders1 orderCount1, []).

Fixpoint BondMarketDataConnector_Subscribe_lines (batchSize : Z) (st : market_feed)
    (lines : list string)
  : market_feed * list (call (MarketData.OrderBook Bond)) * option abort :=
  match lines with
  | [] => (st, [], None)
  | line :: rest =>
      match BondMarketDataConnector_Subscribe_line batchSize st line with
      | inl a => (st, [], Some a)
      | inr (st1, calls1) =>
          let '(st2, calls2, ended) :=
            BondMarketDataConnector_Subscribe_lines batchSize st1 rest in
          (st2, calls1 ++ calls2, ended)
      end
  end.

(** [void BondMarketDataConnector<T>::Subscribe(ifstream& dataStream)], on
    the content of the file. *)
Definition BondMarketDataConnector_Subscribe (service : MarketData.BondMarketDataService Bond)
    (dataStream : string)
  : market_feed * list (call (MarketData.OrderBook Bond)) * option abort :=
  let bookDepth := MarketData.bookDepth service in
  let batchSize := bookDepth * 2 in
  BondMarketDataConnector_Subscribe_lines batchSize
    (mkMarketFeed service [] [] 0) (getline_all newline "" dataStream).

End Connectors.

(** Some result of [parse_date_string], for the examples: the maturity
    dates of the sample bonds. *)
Definition sample_dates (date_str : string) : Z * Z * Z :=
  if decide (date_str = "2027-12-15"%string) then (2027, 12, 15) else (2026, 11, 30).

(** ** simulate_data.hpp *)

Module DataSimulator.

Definition CUSIPS_VEC : list string :=
  [ "91282CLY5"; "91282CMB4"; "91282CMA6"; "91282CLZ2"; "91282CLW9"; "912810UF3";
    "912810UE6" ]%string.

Definition ORDER_BOOK_DEPTH : Z := 5.

(** [double UpdateMidPrice(double midPrice, bool& ascending)]: the returned
    price and the flag after the call. *)
Definition UpdateMidPrice (midPrice : Q) (ascending : bool) : Q * bool :=
  if ascending then
    if Qlt_bool 101 (midPrice + 1 / 256) then (101%Q, false)
    else ((midPrice + 1 / 256)%Q, ascending)
  else
    if Qlt_bool (midPrice - 1 / 256) 99 then (99%Q, true)
    else ((midPrice - 1 / 256)%Q, ascending).

(** [spreadCycle] of [GenerateMarketData]. *)
Definition spreadCycle : list Q := [ (1 / 128)%Q; (1 / 64)%Q; (3 / 128)%Q; (1 / 32)%Q ].

(** The lines that one pass of the [updateIndex] loop of
    [GenerateMarketData] writes, each without its final newline: the two
    spread vectors are filled first, then every level writes a bid and an
    offer line. *)
Definition market_update_lines (currentCUSIP : string) (midPrice topSpread : Q)
  : list string :=
  let bidSpreads :=
    (λ level, (topSpread + inject_Z level * (1 / 128))%Q) <$> seqZ 0 ORDER_BOOK_DEPTH in
  let offerSpreads :=
    (λ level, (topSpread + inject_Z level * (1 / 128))%Q) <$> seqZ 0 ORDER_BOOK_DEPTH in
  mjoin
    ((λ level,
        let bidPrice := (midPrice - default 0%Q (bidSpreads !! Z.to_nat level))%Q in
        let offerPrice := (midPrice + default 0%Q (offerSpreads !! Z.to_nat level))%Q in
        let quantity := (level + 1) * 10000000 in
        [ currentCUSIP +:+ "," +:+ FormatPrice bidPrice +:+ ","
            +:+ Text.to_string quantity +:+ ",BID";
          currentCUSIP +:+ "," +:+ FormatPrice offerPrice +:+ ","
            +:+ Text.to_string quantity +:+ ",OFFER" ])
       <$> seqZ 0 ORDER_BOOK_DEPTH).

(** The mid price and the direction flag of one security after [n] passes of
    the loop, which starts from [midPrice = 99.0] and [ascending = true]. *)
Fixpoint mid_after (n : nat) : Q * bool :=
  match n with
  | O => (99%Q, true)
  | S n' => UpdateMidPrice (fst (mid_after n')) (snd (mid_after n'))
  end.

End DataSimulator.

(** One simulated update of the two-year note at mid price 99 with top spread
    1/128, whose last line is replaced by an offer in the three-year note;
    and the orders [parseOrder] reads from these lines. *)
Definition market_lines_sample : list string :=
  take 9 (DataSimulator.market_update_lines "91282CLY5" 99 (1 / 128))
  ++ ["91282CMB4,99-012,50000000,OFFER"%string].

Definition market_orders_sample : list (string * MarketData.Order) :=
  [ ("91282CLY5"%string, MarketData.mkOrder (98 + 31 / 32 + 6 / 256) 10000000 BID);
    ("91282CLY5"%string, MarketData.mkOrder (99 + 0 / 32 + 2 / 256) 10000000 OFFER);
    ("91282CLY5"%string, MarketData.mkOrder (98 + 31 / 32 + 4 / 256) 20000000 BID);
    ("91282CLY5"%string, MarketData.mkOrder (99 + 0 / 32 + 4 / 256) 20000000 OFFER);
    ("91282CLY5"%string, MarketData.mkOrder (98 + 31 / 32 + 2 / 256) 30000000 BID);
    ("91282CLY5"%string, MarketData.mkOrder (99 + 0 / 32 + 6 / 256) 30000000 OFFER);
    ("91282CLY5"%string, MarketData.mkOrder (98 + 31 / 32 + 0 / 256) 40000000 BID);
    ("91282CLY5"%string, MarketData.mkOrder (99 + 1 / 32 + 0 / 256) 40000000 OFFER);
    ("91282CLY5"%string, MarketData.mkOrder (98 + 30 / 32 + 6 / 256) 50000000 BID);
    ("91282CMB4"%string, MarketData.mkOrder (99 + 1 / 32 + 2 / 256) 50000000 OFFER) ].

(** *** inquiryservice.hpp: [InquiryConnector<T>::Subscribe(ifstream&)] *)

Section InquiryConnector.
Variable parse_date_string : string → Z * Z * Z.

(** [Side s;] and [InquiryState st;] are not initialised; they keep their
    indeterminate contents when the token is none of the expected words. *)
Variables (s0 : Side) (st0 : InquiryState).

(** The body of the [while (getline(inputFile, fileLine))] loop; [fuel] is
    handed to the service's [OnMessage]. *)
Definition InquiryConnector_Subscribe_line (fuel : nat)
    (service : Inquiry.BondInquiryService Bond) (fileLine : string)
  : abort + Inquiry.run Bond :=
  let tokens := getline_all "," "" fileLine in
  iqId ← at_index tokens 0;
  prodId ← at_index tokens 1;
  token2 ← at_index tokens 2;
  let s :=
    if decide (token2 = "BUY"%string) then BUY
    else if decide (token2 = "SELL"%string) then SELL
    else s0 in
  token3 ← at_index tokens 3;
  qty ← modelled (stol token3);
  token4 ← at_index tokens 4;
  let st :=
    if decide (token4 = "RECEIVED"%string) then RECEIVED
    else if decide (token4 = "QUOTED"%string) then QUOTED
    else if decide (token4 = "DONE"%string) then DONE
    else if decide (token4 = "REJECTED"%string) then REJECTED
    else if decide (token4 = "CUSTOMER_REJECTED"%string) then CUSTOMER_REJECTED
    else st0 in
  theBond ← throwing (BondInfo parse_date_string prodId);
  let newInquiry := Inquiry.mkInquiry iqId theBond s qty 0%Q st in
  modelled (Inquiry.OnMessage fuel service newInquiry).
End InquiryConnector.

(** simulate_data.hpp: the line that [GenerateInquiries] writes for the
    inquiry number [inquiryIndex] of a security, without its final newline;
    [inquiryID] is what [GenerateUniqueId()] returned. *)
Definition GenerateInquiries_line (inquiryID currentCUSIP : string) (inquiryIndex : Z) : string :=
  let side := if Z.rem inquiryIndex 2 =? 0 then "SELL"%string else "BUY"%string in
  let quantity := (Z.rem inquiryIndex 5 + 1) * 1000000 in
  let state := "RECEIVED"%string in
  inquiryID +:+ "," +:+ currentCUSIP +:+ "," +:+ side +:+ "," +:+ Text.to_string quantity
    +:+ "," +:+ state.

(** simulate_data.hpp: the line that one pass of the [priceIndex] loop of
    [GeneratePriceData] writes, without its final newline; [spreadToggle] is
    the flag before the pass. *)
Definition GeneratePriceData_line (currentCUSIP : string) (midPrice : Q)
    (spreadToggle : bool) : string :=
  let spread :=
    if Qeq_bool midPrice 99 || Qeq_bool midPrice 101 then (1 / 64)%Q
    else if spreadToggle then (1 / 128)%Q else (1 / 64)%Q in
  let bidPrice := (midPrice - spread)%Q in
  let offerPrice := (midPrice + spread)%Q in
  let bidPrice := if Qlt_bool bidPrice 99 then 99%Q else bidPrice in
  let offerPrice := if Qlt_bool 101 offerPrice then 101%Q else offerPrice in
  currentCUSIP +:+ "," +:+ FormatPrice bidPrice +:+ "," +:+ FormatPrice offerPrice.

(** * Properties *)

(** ** Price strings: sample evaluations *)

Example FormatPrice_ex1 : FormatPrice (99 + 16 / 32 + 4 / 256)%Q = "99-16+"%string.
Proof. vm_compute. reflexivity. Qed.

Example FormatPrice_ex2 : FormatPrice (100 + 3 / 256)%Q = "100-003"%string.
Proof. vm_compute. reflexivity. Qed.

Example ParsePrice_ex1 : ParsePrice "99-16+" = Some (99 + 16 / 32 + 4 / 256)%Q.
Proof. vm_compute. reflexivity. Qed.

Example ParsePrice_ex2 : ParsePrice "99-164" = Some (99 + 16 / 32 + 4 / 256)%Q.
Proof. vm_compute. reflexivity. Qed.

(** ** Keyed stores: reads of missing keys *)

Lemma map_index_miss {V} `{ValueInit V} (m : gmap string V) (k : string) :
  m !! k = None → map_index m k = (value_init, <[k := value_init]> m).
Proof. intros Hk. unfold map_index. by rewrite Hk. Qed.

Lemma map_index_hit {V} `{ValueInit V} (m : gmap string V) (k : string) (v : V) :
  m !! k = Some v → map_index m k = (v, m).
Proof. intros Hk. unfold map_index. by rewrite Hk. Qed.

Lemma map_index_fst {V} `{ValueInit V} (m : gmap string V) (k : string) :
  fst (map_index m k) = default value_init (m !! k).
Proof. unfold map_index. by destruct (m !! k). Qed.

Lemma map_index_snd_lookup {V} `{ValueInit V} (m : gmap string V) (k : string) :
  snd (map_index m k) !! k = Some (default value_init (m !! k)).
Proof.
  unfold map_index. destruct (m !! k) eqn:Hk; simpl; [done|].
  by rewrite lookup_insert_eq.
Qed.



(** ** Risk *)

Lemma PV01Info_unknown (id : string) :
  pv01_map !! id = None → PV01Info id = inl (invalid_argument "Unknown CUSIP").
Proof. intros Hid. unfold PV01Info. by rewrite Hid. Qed.

Lemma PV01Info_known (id : string) (v : Q) :
  pv01_map !! id = Some v → PV01Info id = inr v.
Proof. intros Hid. unfold PV01Info. by rewrite Hid. Qed.

(** C8: for a position whose product id is not in the PV01 reference table,
    [AddPosition] of the risk service throws the unknown-CUSIP error with the
    service state as it was and without any listener call; for a product id
    in the table it returns normally, having stored the new PV01 under the
    product id and notified every listener with it. *)
Theorem AddPosition_unknown_product_throws {T : Type} `{Product T}
    (s : Risk.RiskService T) (_position : Position.Position T) :
  let _product := Position.GetProduct _position in
  let _productId := GetProductId _product in
  (pv01_map !! _productId = None →
     Risk.AddPosition s _position = Thrown (invalid_argument "Unknown CUSIP") s [])
  ∧ (∀ v, pv01_map !! _productId = Some v →
     let _pv01 := Risk.mkPV01 _product v (Position.GetAggregatePosition _position) in
     Risk.AddPosition s _position =
       Returned (Risk.mkRiskService (<[_productId := _pv01]> (Risk.pv01s s)) (Risk.listeners s))
                (notify (Risk.listeners s) _pv01)).
Proof.
  intros _product _productId. split.
  - intros Hid. unfold Risk.AddPosition. fold _product. fold _productId.
    by rewrite (PV01Info_unknown _ Hid).
  - intros v Hid. unfold Risk.AddPosition. fold _product. fold _productId.
    by rewrite (PV01Info_known _ _ Hid).
Qed.

Lemma AddPosition_unknown_product_witness :
  pv01_map !! GetProductId bond_unlisted = None
  ∧ Risk.AddPosition risk_service_1 (Position.mkPosition bond_unlisted {[ "TRSY1"%string := 1000000 ]})
    = Thrown (invalid_argument "Unknown CUSIP") risk_service_1 [].
Proof.
  split; [vm_compute; reflexivity|].
  apply (AddPosition_unknown_product_throws risk_service_1
           (Position.mkPosition bond_unlisted {[ "TRSY1"%string := 1000000 ]})).
  vm_compute. reflexivity.
Defined.

Lemma even_of_nat (n : nat) : Z.even (Z.of_nat n) = Nat.even n.
Proof.
  cut (Z.even (Z.of_nat n) = Nat.even n ∧ Z.even (Z.of_nat (S n)) = Nat.even (S n)).
  { by intros [? _]. }
  induction n as [|n [IH1 IH2]]; [by split|].
  split; [exact IH2|].
  rewrite !Nat2Z.inj_succ, Z.even_succ_succ. exact IH1.
Qed.

Lemma rem2_of_nat (n : nat) : Z.rem (Z.of_nat n) 2 = if Nat.even n then 0 else 1.
Proof.
  rewrite Z.rem_mod_nonneg by lia. rewrite Zmod_even. by rewrite even_of_nat.
Qed.

Lemma double_to_long_exact (z : Z) :
  Z.abs z <= 2 ^ 53 → double_to_long (long_to_double z) = z.
Proof.
  intros Hz. unfold double_to_long, long_to_double. cbv zeta.
  destruct (Z.abs z <? 2 ^ 53) eqn:Hlt.
  - simpl. apply Z.quot_1_r.
  - apply Z.ltb_ge in Hlt.
    assert (Ha : Z.abs z = 2 ^ 53) by lia.
    destruct (Z.abs_spec z) as [[_ Hz']|[_ Hz']].
    + assert (z = 2 ^ 53) as -> by lia. vm_compute. reflexivity.
    + assert (z = - 2 ^ 53) as -> by lia. vm_compute. reflexivity.
Qed.

(** ** Two-sided quotes *)

Lemma AlgoStreaming_reachable_counter {T : Type} `{Product T}
    (n : nat) (s : AlgoStreaming.AlgoStreamingService T) :
  AlgoStreaming.reachable n s → AlgoStreaming.orderCounter s = Z.of_nat n.
Proof.
  induction 1 as [|n s l _ IH|n s key _ IH|n s data s' _ IH Hmsg|n s price _ IH]; simpl.
  - reflexivity.
  - exact IH.
  - unfold AlgoStreaming.GetData. by destruct (map_index _ _).
  - unfold AlgoStreaming.OnMessage in Hmsg.
    destruct (AlgoStreaming.GetPriceStream data); simplify_eq/=. exact IH.
  - rewrite IH. lia.
Qed.

(** C5: an engine that has processed [n] Price updates answers the next one
    unconditionally with one two-sided quote: bid price mid - spread/2, offer
    price mid + spread/2, visible quantity 10,000,000 when [n] is even and
    20,000,000 when [n] is odd, hidden quantity twice the visible quantity on
    both sides.  The quote is stored under the product id and passed to
    every listener once, and the engine's counter goes from [n] to [n + 1]. *)
Theorem PublishAlgorithmicPrice_quote {T : Type} `{Product T}
    (n : nat) (s : AlgoStreaming.AlgoStreamingService T) (price : Pricing.Price T) :
  AlgoStreaming.reachable n s →
  let mid := Pricing.GetMid price in
  let spread := Pricing.GetBidOfferSpread price in
  let visible := if Nat.even n then 10000000 else 20000000 in
  let quote :=
    AlgoStreaming.mkAlgoStream
      (Some (AlgoStreaming.mkPriceStream (Pricing.GetProduct price)
               (AlgoStreaming.mkPriceStreamOrder (mid - spread / 2)%Q visible (2 * visible) BID)
               (AlgoStreaming.mkPriceStreamOrder (mid + spread / 2)%Q visible (2 * visible) OFFER))) in
  AlgoStreaming.orderCounter s = Z.of_nat n
  ∧ AlgoStreaming.PublishAlgorithmicPrice s price =
      (AlgoStreaming.mkAlgoStreamingService (Z.of_nat n + 1)
         (<[GetProductId (Pricing.GetProduct price) := quote]> (AlgoStreaming.algoStreamMap s))
         (AlgoStreaming.listeners s),
       notify (AlgoStreaming.listeners s) quote)
  ∧ AlgoStreaming.reachable (S n) (fst (AlgoStreaming.PublishAlgorithmicPrice s price)).
Proof.
  intros Hreach mid spread visible quote.
  pose proof (AlgoStreaming_reachable_counter n s Hreach) as Hc.
  split; [exact Hc|]. split; [|by constructor].
  unfold AlgoStreaming.PublishAlgorithmicPrice, AlgoStreaming.AlgoStream_new.
  rewrite Hc, rem2_of_nat. subst quote visible mid spread.
  by destruct (Nat.even n).
Qed.

Lemma PublishAlgorithmicPrice_quote_witness :
  AlgoStreaming.reachable 1 stream_engine_1
  ∧ AlgoStreaming.PublishAlgorithmicPrice stream_engine_1 (Pricing.mkPrice bond_3y (100 # 1) (1 # 128))
    = (AlgoStreaming.mkAlgoStreamingService 2
         (<[ "91282CMB4"%string :=
               AlgoStreaming.mkAlgoStream
                 (Some (AlgoStreaming.mkPriceStream bond_3y
                    (AlgoStreaming.mkPriceStreamOrder ((100 # 1) - (1 # 128) / 2)%Q 20000000 40000000 BID)
                    (AlgoStreaming.mkPriceStreamOrder ((100 # 1) + (1 # 128) / 2)%Q 20000000 40000000 OFFER))) ]>
            (AlgoStreaming.algoStreamMap stream_engine_1))
         [3%nat],
       [ProcessAdd 3%nat
          (AlgoStreaming.mkAlgoStream
             (Some (AlgoStreaming.mkPriceStream bond_3y
                (AlgoStreaming.mkPriceStreamOrder ((100 # 1) - (1 # 128) / 2)%Q 20000000 40000000 BID)
                (AlgoStreaming.mkPriceStreamOrder ((100 # 1) + (1 # 128) / 2)%Q 20000000 40000000 OFFER))))]).
Proof.
  assert (Hreach : AlgoStreaming.reachable 1 stream_engine_1).
  { apply AlgoStreaming.reach_PublishAlgorithmicPrice, AlgoStreaming.reach_AddListener,
      AlgoStreaming.reach_new. }
  split; [exact Hreach|].
  exact (proj1 (proj2 (PublishAlgorithmicPrice_quote 1%nat stream_engine_1
                         (Pricing.mkPrice bond_3y (100 # 1) (1 # 128)) Hreach))).
Defined.

(** ** Spread-crossing executions *)


(** ** Positions *)

Lemma AddPosition_eq {T : Type} (p : Position.Position T) (_book : string) (q : Z) :
  Position.AddPosition p _book q =
    Position.mkPosition (Position.GetProduct p)
      (<[_book := default 0 (Position.GetPositions p !! _book) + q]> (Position.GetPositions p)).
Proof.
  unfold Position.AddPosition, map_index.
  destruct (Position.GetPositions p !! _book) as [v|]; simpl; [done|].
  by rewrite insert_insert_eq.
Qed.

Lemma fold_AddPosition {T : Type} (product : T) (_book : string) (δ : Z) (m : gmap string Z) :
  map_fold (λ b q acc, Position.AddPosition acc b q)
    (Position.AddPosition (Position.Position_new product) _book δ) m
  = Position.mkPosition product (<[_book := default 0 (m !! _book) + δ]> m).
Proof.
  apply (map_fold_weak_ind
           (λ r m, r = Position.mkPosition product (<[_book := default 0 (m !! _book) + δ]> m))).
  - by rewrite AddPosition_eq.
  - intros i x m' r Hi ->. rewrite AddPosition_eq. simpl. f_equal.
    destruct (decide (i = _book)) as [->|Hne].
    + rewrite Hi, !lookup_insert_eq, !insert_insert_eq. simpl. f_equal. lia.
    + rewrite lookup_insert_ne by done. rewrite Hi. simpl.
      rewrite (lookup_insert_ne m' i _book) by done.
      by rewrite insert_insert_ne.
Qed.

Lemma aggregate_insert (m : gmap string Z) (k : string) (v : Z) :
  map_fold (λ _ q acc, acc + q) 0 (<[k := v]> m)
  = map_fold (λ _ q acc, acc + q) 0 m - default 0 (m !! k) + v.
Proof.
  assert (Hcomm : ∀ (m' : gmap string Z) (j1 j2 : string) (z1 z2 y : Z),
             j1 ≠ j2 → m' !! j1 = Some z1 → m' !! j2 = Some z2 →
             y + z2 + z1 = y + z1 + z2) by (intros; lia).
  destruct (m !! k) as [x|] eqn:Hk; simpl.
  - rewrite <- (insert_delete_eq m k v).
    rewrite map_fold_insert_L; [|by eauto|by rewrite lookup_delete_eq].
    rewrite (map_fold_delete_L _ 0 k x m); [lia|by eauto|done].
  - rewrite map_fold_insert_L; [lia|by eauto|done].
Qed.

Lemma AddTrade_eq {T : Type} `{Product T}
    (s : Position.PositionService T) (_trade : TradeBooking.Trade T) :
  let _product := TradeBooking.GetProduct _trade in
  let _productId := GetProductId _product in
  let _book := TradeBooking.GetBook _trade in
  let prior := match Position.positions s !! _productId with
               | Some p => Position.GetPositions p
               | None => ∅
               end in
  let newPosition :=
    Position.mkPosition _product
      (<[_book := default 0 (prior !! _book) + Position.signed_quantity _trade]> prior) in
  Position.AddTrade s _trade =
    (Position.mkPositionService (<[_productId := newPosition]> (Position.positions s))
       (Position.listeners s),
     notify (Position.listeners s) newPosition).
Proof.
  intros _product _productId _book prior newPosition.
  unfold Position.AddTrade. fold _product _productId _book.
  replace (match TradeBooking.GetSide _trade with
           | BUY => Position.AddPosition (Position.Position_new _product) _book
                      (TradeBooking.GetQuantity _trade)
           | SELL => Position.AddPosition (Position.Position_new _product) _book
                       (- TradeBooking.GetQuantity _trade)
           end)
    with (Position.AddPosition (Position.Position_new _product) _book
            (Position.signed_quantity _trade))
    by (unfold Position.signed_quantity; by destruct (TradeBooking.GetSide _trade)).
  unfold map_index. subst newPosition prior.
  destruct (Position.positions s !! _productId) as [p|]; simpl.
  - by rewrite fold_AddPosition.
  - by rewrite fold_AddPosition, insert_insert_eq.
Qed.

(** C7: [AddTrade] replaces the Position stored for the trade's product by a
    new Position for that product in which the trade's book holds its prior
    quantity plus the trade quantity (BUY) or minus it (SELL) and every other
    book keeps its prior quantity; a product without a stored Position counts
    as one with no books; every listener is then called once with exactly
    the new Position.  The quantities are [long]: the statement is made for
    a trade whose signed quantity, and whose sum with the prior quantity of
    the book, are in the range of a [long]. *)
Theorem AddTrade_updates_book {T : Type} `{Product T}
    (s : Position.PositionService T) (_trade : TradeBooking.Trade T) :
  let _product := TradeBooking.GetProduct _trade in
  let _productId := GetProductId _product in
  let _book := TradeBooking.GetBook _trade in
  let δ := match TradeBooking.GetSide _trade with
           | BUY => TradeBooking.GetQuantity _trade
           | SELL => - TradeBooking.GetQuantity _trade
           end in
  let prior := match Position.positions s !! _productId with
               | Some p => Position.GetPositions p
               | None => ∅
               end in
  in_long (TradeBooking.GetQuantity _trade) →
  in_long δ →
  in_long (default 0 (prior !! _book) + δ) →
  ∃ newPosition : Position.Position T,
    Position.AddTrade s _trade =
      (Position.mkPositionService (<[_productId := newPosition]> (Position.positions s))
         (Position.listeners s),
       notify (Position.listeners s) newPosition)
    ∧ Position.GetProduct newPosition = _product
    ∧ Position.GetPositions newPosition !! _book = Some (default 0 (prior !! _book) + δ)
    ∧ (∀ b, b ≠ _book → Position.GetPositions newPosition !! b = prior !! b).
Proof.
  intros _product _productId _book δ prior _ _ _.
  exists (Position.mkPosition _product (<[_book := default 0 (prior !! _book) + δ]> prior)).
  split; [|split; [done|split]].
  - apply AddTrade_eq.
  - simpl. by rewrite lookup_insert_eq.
  - intros b Hb. simpl. by rewrite lookup_insert_ne.
Qed.

Lemma AddTrade_updates_book_witness :
  in_long (- 400000)
  ∧ in_long (1000000 + - 400000)
  ∧ ∃ newPosition : Position.Position Bond,
    Position.AddTrade position_service_1 trade_sell_trsy1 =
      (Position.mkPositionService
         (<[ "91282CLY5"%string := newPosition ]> (Position.positions position_service_1))
         [9%nat],
       [ProcessAdd 9%nat newPosition])
    ∧ Position.GetPositions newPosition !! "TRSY1"%string = Some 600000
    ∧ Position.GetPositions newPosition !! "TRSY2"%string = Some 2000000.
Proof.
  assert (H1 : in_long 400000) by (vm_compute; split; discriminate).
  assert (H2 : in_long (- 400000)) by (vm_compute; split; discriminate).
  assert (H3 : in_long (1000000 + - 400000)) by (vm_compute; split; discriminate).
  split; [exact H2|]. split; [exact H3|].
  pose proof (AddTrade_updates_book position_service_1 trade_sell_trsy1 H1 H2) as Hthm.
  destruct Hthm as (newPosition & Hrun & _ & Hbook & Hothers);
    [vm_compute; split; discriminate|].
  exists newPosition. split; [exact Hrun|]. split; [exact Hbook|].
  rewrite (Hothers "TRSY2"%string); [reflexivity|discriminate].
Defined.

Lemma AddTrade_aggregate {T : Type} `{Product T}
    (s : Position.PositionService T) (t : TradeBooking.Trade T) :
  Position.GetAggregatePosition
    (fst (Position.GetData (fst (Position.AddTrade s t))
            (GetProductId (TradeBooking.GetProduct t))))
  = Position.GetAggregatePosition
      (fst (Position.GetData s (GetProductId (TradeBooking.GetProduct t))))
    + Position.signed_quantity t.
Proof.
  rewrite AddTrade_eq. unfold Position.GetData, map_index. simpl.
  rewrite lookup_insert_eq. simpl.
  unfold Position.GetAggregatePosition at 1. simpl.
  rewrite aggregate_insert.
  destruct (Position.positions s !! _) as [p|]; simpl.
  - unfold Position.GetAggregatePosition. lia.
  - unfold Position.GetAggregatePosition. simpl.
    rewrite lookup_empty, map_fold_empty. simpl. lia.
Qed.

Lemma AddTrades_fst {T : Type} `{Product T}
    (trades : list (TradeBooking.Trade T)) (s : Position.PositionService T)
    (calls : list (call (Position.Position T))) :
  fst (fold_left
         (λ acc t, let '(s', cs) := Position.AddTrade (fst acc) t in (s', snd acc ++ cs))
         trades (s, calls))
  = fold_left (λ s t, fst (Position.AddTrade s t)) trades s.
Proof.
  revert s calls. induction trades as [|t trades IH]; intros s calls; simpl; [done|].
  destruct (Position.AddTrade s t) as [s' cs] eqn:Ht. simpl. apply IH.
Qed.

Lemma AddTrades_aggregate {T : Type} `{Product T} (pid : string)
    (trades : list (TradeBooking.Trade T)) (s : Position.PositionService T) :
  Forall (λ t, GetProductId (TradeBooking.GetProduct t) = pid) trades →
  Position.GetAggregatePosition (fst (Position.GetData (fst (Position.AddTrades s trades)) pid))
  = Position.GetAggregatePosition (fst (Position.GetData s pid)) + Position.sum_signed trades.
Proof.
  unfold Position.AddTrades. rewrite AddTrades_fst.
  intros Hall. revert s. induction Hall as [|t trades Ht _ IH]; intros s; simpl.
  - lia.
  - rewrite IH. pose proof (AddTrade_aggregate s t) as Hstep.
    rewrite Ht in Hstep. rewrite Hstep. lia.
Qed.

Lemma sum_signed_Permutation {T : Type} (l1 l2 : list (TradeBooking.Trade T)) :
  Permutation l1 l2 → Position.sum_signed l1 = Position.sum_signed l2.
Proof. induction 1; simpl; lia. Qed.

Lemma GetData_fst {T : Type} `{Product T} (s : Position.PositionService T) (key : string) :
  fst (Position.GetData s key) = default value_init (Position.positions s !! key).
Proof. unfold Position.GetData, map_index. by destruct (Position.positions s !! key). Qed.

Lemma GetPosition_fst {T : Type} (p : Position.Position T) (_book : string) :
  fst (Position.GetPosition p _book) = default 0 (Position.GetPositions p !! _book).
Proof.
  unfold Position.GetPosition, map_index. by destruct (Position.GetPositions p !! _book).
Qed.

Lemma AddTrade_book {T : Type} `{Product T}
    (s : Position.PositionService T) (t : TradeBooking.Trade T) (_book : string) :
  fst (Position.GetPosition
         (fst (Position.GetData (fst (Position.AddTrade s t))
                 (GetProductId (TradeBooking.GetProduct t)))) _book)
  = fst (Position.GetPosition
           (fst (Position.GetData s (GetProductId (TradeBooking.GetProduct t)))) _book)
    + Position.sum_signed (filter (λ t', TradeBooking.GetBook t' = _book) [t]).
Proof.
  rewrite AddTrade_eq, !GetPosition_fst, !GetData_fst.
  cbn [fst Position.positions]. rewrite lookup_insert_eq.
  rewrite filter_cons, filter_nil.
  destruct (Position.positions s !! GetProductId (TradeBooking.GetProduct t)) as [p|]; simpl.
  - destruct (decide (TradeBooking.GetBook t = _book)) as [Heq|Hne].
    + rewrite Heq, lookup_insert_eq. simpl. lia.
    + rewrite lookup_insert_ne by done. simpl. lia.
  - destruct (decide (TradeBooking.GetBook t = _book)) as [Heq|Hne].
    + rewrite Heq, lookup_insert_eq. simpl. lia.
    + rewrite lookup_insert_ne by done. simpl. lia.
Qed.

Lemma sum_signed_app {T : Type} (l1 l2 : list (TradeBooking.Trade T)) :
  Position.sum_signed (l1 ++ l2) = Position.sum_signed l1 + Position.sum_signed l2.
Proof. induction l1 as [|t l1 IH]; simpl; lia. Qed.

Lemma AddTrades_book {T : Type} `{Product T} (pid _book : string)
    (trades : list (TradeBooking.Trade T)) (s : Position.PositionService T) :
  Forall (λ t, GetProductId (TradeBooking.GetProduct t) = pid) trades →
  fst (Position.GetPosition
         (fst (Position.GetData (fst (Position.AddTrades s trades)) pid)) _book)
  = fst (Position.GetPosition (fst (Position.GetData s pid)) _book)
    + Position.sum_signed (filter (λ t, TradeBooking.GetBook t = _book) trades).
Proof.
  unfold Position.AddTrades. rewrite AddTrades_fst.
  intros Hall. revert s. induction Hall as [|t trades Ht _ IH]; intros s.
  - simpl. lia.
  - cbn [fold_left]. rewrite IH. pose proof (AddTrade_book s t _book) as Hstep.
    rewrite Ht in Hstep. rewrite Hstep.
    change (t :: trades) with ([t] ++ trades).
    rewrite filter_app, sum_signed_app. lia.
Qed.

(** C6: replaying any finite sequence of trades on one product through
    [AddTrade], starting from a store with no positions, leaves a stored
    Position for that product whose aggregate (the sum of its per-book
    quantities) equals the sum of the signed trade quantities, BUY positive
    and SELL negative; replaying any reordering of the sequence gives the
    same aggregate.  Each book of the stored Position holds the sum of the
    signed quantities of the trades made on that book.  The quantities are
    [long]: the statement is made for a sequence whose trade quantities add
    up, in magnitude, to at most [LONG_MAX], which keeps every sum that the
    replay forms, in any order, in the range of a [long]. *)
Theorem AddTrades_aggregate_is_signed_sum {T : Type} `{Product T} (pid : string)
    (s0 : Position.PositionService T) (trades : list (TradeBooking.Trade T)) :
  Position.positions s0 = ∅ →
  Forall (λ t, GetProductId (TradeBooking.GetProduct t) = pid) trades →
  Position.total_magnitude trades <= LONG_MAX →
  let s := fst (Position.AddTrades s0 trades) in
  Position.GetAggregatePosition (fst (Position.GetData s pid)) = Position.sum_signed trades
  ∧ (trades ≠ [] →
     ∃ pos, Position.positions s !! pid = Some pos
            ∧ Position.GetAggregatePosition pos = Position.sum_signed trades)
  ∧ (∀ trades', Permutation trades trades' →
     Position.GetAggregatePosition
       (fst (Position.GetData (fst (Position.AddTrades s0 trades')) pid))
     = Position.GetAggregatePosition (fst (Position.GetData s pid)))
  ∧ (∀ _book,
     fst (Position.GetPosition (fst (Position.GetData s pid)) _book)
     = Position.sum_signed (filter (λ t, TradeBooking.GetBook t = _book) trades)).
Proof.
  intros Hempty Hall _ s.
  assert (H0 : Position.GetAggregatePosition (fst (Position.GetData s0 pid)) = 0).
  { unfold Position.GetData, map_index. rewrite Hempty, lookup_empty. simpl.
    unfold Position.GetAggregatePosition. simpl. by rewrite map_fold_empty. }
  assert (Hsum : Position.GetAggregatePosition (fst (Position.GetData s pid))
                 = Position.sum_signed trades).
  { subst s. rewrite (AddTrades_aggregate pid trades s0 Hall). lia. }
  split; [exact Hsum|]. split; [|split].
  - intros Hne.
    assert (Hstored : is_Some (Position.positions s !! pid)).
    { subst s. unfold Position.AddTrades. rewrite AddTrades_fst.
      clear Hsum H0 Hempty. revert s0.
      induction Hall as [|t trades Ht Hall IH]; intros s0; [done|]. simpl.
      destruct trades as [|t' trades].
      - simpl. rewrite AddTrade_eq. simpl. rewrite Ht. rewrite lookup_insert_eq. by eexists.
      - apply IH. done. }
    destruct Hstored as [pos Hpos]. exists pos. split; [exact Hpos|].
    rewrite <- Hsum. unfold Position.GetData, map_index. by rewrite Hpos.
  - intros trades' Hperm.
    assert (Hall' : Forall (λ t, GetProductId (TradeBooking.GetProduct t) = pid) trades').
    { by rewrite <- Hperm. }
    rewrite (AddTrades_aggregate pid trades' s0 Hall'), Hsum, H0.
    rewrite (sum_signed_Permutation _ _ Hperm). lia.
  - intros _book. subst s. rewrite (AddTrades_book pid _book trades s0 Hall).
    rewrite GetPosition_fst, GetData_fst, Hempty, lookup_empty. simpl.
    rewrite lookup_empty. simpl. lia.
Qed.

Lemma AddTrades_aggregate_witness :
  Position.positions (T := Bond) Position.PositionService_new = ∅
  ∧ Forall (λ t, GetProductId (TradeBooking.GetProduct t) = "91282CLY5"%string)
      [trade_sell_trsy1; trade_buy_trsy2]
  ∧ Position.total_magnitude [trade_sell_trsy1; trade_buy_trsy2] <= LONG_MAX
  ∧ Position.GetAggregatePosition
      (fst (Position.GetData
              (fst (Position.AddTrades Position.PositionService_new
                      [trade_sell_trsy1; trade_buy_trsy2]))
              "91282CLY5"))
    = Position.sum_signed [trade_sell_trsy1; trade_buy_trsy2].
Proof.
  assert (Hall : Forall (λ t, GetProductId (TradeBooking.GetProduct t) = "91282CLY5"%string)
                   [trade_sell_trsy1; trade_buy_trsy2]).
  { repeat constructor. }
  assert (Hsize : Position.total_magnitude [trade_sell_trsy1; trade_buy_trsy2] <= LONG_MAX)
    by (vm_compute; discriminate).
  split; [reflexivity|]. split; [exact Hall|]. split; [exact Hsize|].
  exact (proj1 (AddTrades_aggregate_is_signed_sum "91282CLY5" Position.PositionService_new
                  [trade_sell_trsy1; trade_buy_trsy2] eq_refl Hall Hsize)).
Defined.

Example AddTrades_aggregate_ex :
  Position.sum_signed [trade_sell_trsy1; trade_buy_trsy2] = -150000.
Proof. reflexivity. Qed.

(** ** Best bid and offer *)

Lemma Qlt_bool_iff (x y : Q) : Qlt_bool x y = true ↔ (x < y)%Q.
Proof.
  unfold Qlt_bool. rewrite negb_true_iff. split.
  - intros Hb. apply Qnot_le_lt. intros Hle. apply Qle_bool_iff in Hle. congruence.
  - intros Hlt. apply not_true_is_false. intros Hb. apply Qle_bool_iff in Hb.
    by apply (Qlt_not_le _ _ Hlt).
Qed.

Lemma Qlt_bool_false (x y : Q) : Qlt_bool x y = false ↔ (y <= x)%Q.
Proof.
  split.
  - intros Hb. apply Qnot_lt_le. intros Hlt. apply Qlt_bool_iff in Hlt. congruence.
  - intros Hle. apply not_true_is_false. intros Hb. apply Qlt_bool_iff in Hb.
    by apply (Qlt_not_le _ _ Hb).
Qed.

Lemma bid_scan_spec (l pre mid : list MarketData.Order) (o : MarketData.Order) :
  Forall (λ y, (MarketData.GetPrice y < MarketData.GetPrice o)%Q) pre →
  Forall (λ y, (MarketData.GetPrice y <= MarketData.GetPrice o)%Q) mid →
  MarketData.first_max_price (pre ++ o :: mid ++ l)
    (snd (fold_left MarketData.bid_scan_step l (MarketData.GetPrice o, o))).
Proof.
  revert pre mid o. induction l as [|x l IH]; intros pre mid o Hpre Hmid; simpl.
  - exists pre, mid. by rewrite app_nil_r.
  - unfold MarketData.bid_scan_step at 2. simpl.
    destruct (Qlt_bool (MarketData.GetPrice o) (MarketData.GetPrice x)) eqn:Hcmp.
    + apply Qlt_bool_iff in Hcmp.
      replace (pre ++ o :: mid ++ x :: l) with ((pre ++ o :: mid) ++ x :: [] ++ l)
        by (by rewrite <- app_assoc).
      apply IH; [|constructor].
      apply Forall_app. split; [|constructor].
      * eapply Forall_impl; [exact Hpre|]. intros y Hy. simpl in Hy.
        by apply Qlt_trans with (MarketData.GetPrice o).
      * done.
      * eapply Forall_impl; [exact Hmid|]. intros y Hy. simpl in Hy.
        by apply Qle_lt_trans with (MarketData.GetPrice o).
    + apply Qlt_bool_false in Hcmp.
      replace (pre ++ o :: mid ++ x :: l) with (pre ++ o :: (mid ++ [x]) ++ l)
        by (by rewrite <- app_assoc).
      apply IH; [done|]. apply Forall_app. split; [done|]. by constructor.
Qed.

Lemma offer_scan_spec (l pre mid : list MarketData.Order) (o : MarketData.Order) :
  Forall (λ y, (MarketData.GetPrice o < MarketData.GetPrice y)%Q) pre →
  Forall (λ y, (MarketData.GetPrice o <= MarketData.GetPrice y)%Q) mid →
  MarketData.first_min_price (pre ++ o :: mid ++ l)
    (snd (fold_left MarketData.offer_scan_step l (MarketData.GetPrice o, o))).
Proof.
  revert pre mid o. induction l as [|x l IH]; intros pre mid o Hpre Hmid; simpl.
  - exists pre, mid. by rewrite app_nil_r.
  - unfold MarketData.offer_scan_step at 2. simpl.
    destruct (Qlt_bool (MarketData.GetPrice x) (MarketData.GetPrice o)) eqn:Hcmp.
    + apply Qlt_bool_iff in Hcmp.
      replace (pre ++ o :: mid ++ x :: l) with ((pre ++ o :: mid) ++ x :: [] ++ l)
        by (by rewrite <- app_assoc).
      apply IH; [|constructor].
      apply Forall_app. split; [|constructor].
      * eapply Forall_impl; [exact Hpre|]. intros y Hy. simpl in Hy.
        by apply Qlt_trans with (MarketData.GetPrice o).
      * done.
      * eapply Forall_impl; [exact Hmid|]. intros y Hy. simpl in Hy.
        by apply Qlt_le_trans with (MarketData.GetPrice o).
    + apply Qlt_bool_false in Hcmp.
      replace (pre ++ o :: mid ++ x :: l) with (pre ++ o :: (mid ++ [x]) ++ l)
        by (by rewrite <- app_assoc).
      apply IH; [done|]. apply Forall_app. split; [done|]. by constructor.
Qed.

Lemma bid_scan_sentinel (l pre : list MarketData.Order) (bestBid0 : MarketData.Order) :
  Forall (λ y, (MarketData.GetPrice y <= MarketData.DBL_LOWEST)%Q) pre →
  Exists (λ o, (MarketData.DBL_LOWEST < MarketData.GetPrice o)%Q) l →
  MarketData.first_max_price (pre ++ l)
    (snd (fold_left MarketData.bid_scan_step l (MarketData.DBL_LOWEST, bestBid0))).
Proof.
  revert pre. induction l as [|x l IH]; intros pre Hpre Hex.
  - by apply Exists_nil in Hex.
  - cbn [fold_left]. unfold MarketData.bid_scan_step at 2. cbn [fst].
    destruct (Qlt_bool MarketData.DBL_LOWEST (MarketData.GetPrice x)) eqn:Hcmp.
    + apply Qlt_bool_iff in Hcmp.
      apply (bid_scan_spec l pre [] x); [|constructor].
      eapply Forall_impl; [exact Hpre|]. intros y Hy. simpl in Hy.
      by apply Qle_lt_trans with MarketData.DBL_LOWEST.
    + apply Qlt_bool_false in Hcmp.
      apply Exists_cons in Hex as [Hx|Hex].
      { exfalso. by apply (Qlt_not_le _ _ Hx). }
      replace (pre ++ x :: l) with ((pre ++ [x]) ++ l) by (by rewrite <- app_assoc).
      apply IH; [|done]. apply Forall_app. split; [done|]. by constructor.
Qed.

Lemma offer_scan_sentinel (l pre : list MarketData.Order) (bestOffer0 : MarketData.Order) :
  Forall (λ y, (MarketData.DBL_MAX <= MarketData.GetPrice y)%Q) pre →
  Exists (λ o, (MarketData.GetPrice o < MarketData.DBL_MAX)%Q) l →
  MarketData.first_min_price (pre ++ l)
    (snd (fold_left MarketData.offer_scan_step l (MarketData.DBL_MAX, bestOffer0))).
Proof.
  revert pre. induction l as [|x l IH]; intros pre Hpre Hex.
  - by apply Exists_nil in Hex.
  - cbn [fold_left]. unfold MarketData.offer_scan_step at 2. cbn [fst].
    destruct (Qlt_bool (MarketData.GetPrice x) MarketData.DBL_MAX) eqn:Hcmp.
    + apply Qlt_bool_iff in Hcmp.
      apply (offer_scan_spec l pre [] x); [|constructor].
      eapply Forall_impl; [exact Hpre|]. intros y Hy. simpl in Hy.
      by apply Qlt_le_trans with MarketData.DBL_MAX.
    + apply Qlt_bool_false in Hcmp.
      apply Exists_cons in Hex as [Hx|Hex].
      { exfalso. by apply (Qlt_not_le _ _ Hx). }
      replace (pre ++ x :: l) with ((pre ++ [x]) ++ l) by (by rewrite <- app_assoc).
      apply IH; [|done]. apply Forall_app. split; [done|]. by constructor.
Qed.

(** Where the scans find the best orders: in a book in which some bid is
    priced above [numeric_limits<double>::lowest()] and some offer below
    [numeric_limits<double>::max()], the values the two scans start from,
    [GetBestBidOffer] returns the bid order of maximum price and the offer
    order of minimum price, each the first such order in stack order. *)
Lemma GetBestBidOffer_finds_best {T : Type} (bestBid0 bestOffer0 : MarketData.Order)
    (ob : MarketData.OrderBook T) :
  Exists (λ o, (MarketData.DBL_LOWEST < MarketData.GetPrice o)%Q) (MarketData.GetBidStack ob) →
  Exists (λ o, (MarketData.GetPrice o < MarketData.DBL_MAX)%Q) (MarketData.GetOfferStack ob) →
  MarketData.first_max_price (MarketData.GetBidStack ob)
    (MarketData.GetBidOrder (MarketData.GetBestBidOffer bestBid0 bestOffer0 ob))
  ∧ MarketData.first_min_price (MarketData.GetOfferStack ob)
      (MarketData.GetOfferOrder (MarketData.GetBestBidOffer bestBid0 bestOffer0 ob)).
Proof.
  intros Hbids Hoffers. unfold MarketData.GetBestBidOffer. simpl. split.
  - by apply (bid_scan_sentinel _ []).
  - by apply (offer_scan_sentinel _ []).
Qed.

(** C3: the function documented as "Retrieve the best bid and offer orders"
    misses them on a book whose only bid is priced at
    [numeric_limits<double>::lowest()] and whose only offer is priced at
    [numeric_limits<double>::max()].  Both stacks are non-empty, the bid is
    the bid of maximum price and the offer the offer of minimum price, yet
    neither strict comparison of the scans succeeds against its start value
    and the pair returned holds the two default-initialised orders, with
    whatever they contain, instead of the orders of the stacks. *)
Theorem GetBestBidOffer_sentinel_book :
  MarketData.GetBidStack book_sentinel = [MarketData.mkOrder MarketData.DBL_LOWEST 10 BID]
  ∧ MarketData.GetOfferStack book_sentinel = [MarketData.mkOrder MarketData.DBL_MAX 5 OFFER]
  ∧ MarketData.first_max_price (MarketData.GetBidStack book_sentinel)
      (MarketData.mkOrder MarketData.DBL_LOWEST 10 BID)
  ∧ MarketData.first_min_price (MarketData.GetOfferStack book_sentinel)
      (MarketData.mkOrder MarketData.DBL_MAX 5 OFFER)
  ∧ MarketData.GetBestBidOffer stale_order stale_order book_sentinel
    = MarketData.mkBidOffer stale_order stale_order
  ∧ ¬ MarketData.first_max_price (MarketData.GetBidStack book_sentinel)
        (MarketData.GetBidOrder
           (MarketData.GetBestBidOffer stale_order stale_order book_sentinel))
  ∧ ¬ MarketData.first_min_price (MarketData.GetOfferStack book_sentinel)
        (MarketData.GetOfferOrder
           (MarketData.GetBestBidOffer stale_order stale_order book_sentinel)).
Proof.
  assert (Hrun : MarketData.GetBestBidOffer stale_order stale_order book_sentinel
                 = MarketData.mkBidOffer stale_order stale_order)
    by (vm_compute; reflexivity).
  split; [reflexivity|]. split; [reflexivity|].
  split; [by exists [], []|]. split; [by exists [], []|].
  split; [exact Hrun|].
  rewrite Hrun. cbn [MarketData.GetBidOrder MarketData.GetOfferOrder]. split.
  - intros (before & after & Heq & _).
    destruct before as [|x [|y before]]; simplify_eq/=.
  - intros (before & after & Heq & _).
    destruct before as [|x [|y before]]; simplify_eq/=.
Qed.

Example GetBestBidOffer_spec_example :
  MarketData.GetBestBidOffer stale_order stale_order book_spec_example
  = MarketData.mkBidOffer (MarketData.mkOrder (9975 # 100) 20 BID)
      (MarketData.mkOrder (9990 # 100) 5 OFFER).
Proof. vm_compute. reflexivity. Qed.

Example GetBestBidOffer_tie_example :
  MarketData.GetBidOrder
    (MarketData.GetBestBidOffer stale_order stale_order
       (MarketData.mkOrderBook bond_2y
          [ MarketData.mkOrder (99 # 1) 1 BID; MarketData.mkOrder (100 # 1) 2 BID;
            MarketData.mkOrder (200 # 2) 3 BID ]
          [ MarketData.mkOrder (101 # 1) 4 OFFER ]))
  = MarketData.mkOrder (100 # 1) 2 BID.
Proof. vm_compute. reflexivity. Qed.

(** ** Spread-crossing executions on the best bid and offer *)



Lemma bid_scan_keeps (l : list MarketData.Order) (acc : Q * MarketData.Order) :
  Forall (λ o, (MarketData.GetPrice o <= fst acc)%Q) l →
  fold_left MarketData.bid_scan_step l acc = acc.
Proof.
  induction 1 as [|o l Ho _ IH]; [done|].
  cbn [fold_left]. unfold MarketData.bid_scan_step at 2.
  by rewrite (proj2 (Qlt_bool_false _ _) Ho).
Qed.

Lemma offer_scan_keeps (l : list MarketData.Order) (acc : Q * MarketData.Order) :
  Forall (λ o, (fst acc <= MarketData.GetPrice o)%Q) l →
  fold_left MarketData.offer_scan_step l acc = acc.
Proof.
  induction 1 as [|o l Ho _ IH]; [done|].
  cbn [fold_left]. unfold MarketData.offer_scan_step at 2.
  by rewrite (proj2 (Qlt_bool_false _ _) Ho).
Qed.




(** *** The order id *)









(** ** Depth aggregation *)

Lemma Qeq_bool_trans_l (k k' p : Q) :
  Qeq_bool k' k = true → Qeq_bool k' p = Qeq_bool k p.
Proof.
  intros Hk. apply Qeq_bool_iff in Hk.
  destruct (Qeq_bool k p) eqn:Hp.
  - apply Qeq_bool_iff in Hp. apply Qeq_bool_iff. by rewrite Hk.
  - apply not_true_is_false. intros Hp'. apply Qeq_bool_iff in Hp'.
    rewrite Hk in Hp'. apply Qeq_bool_iff in Hp'. congruence.
Qed.

Lemma Qeq_bool_trans_r (x p p' : Q) :
  Qeq_bool p p' = true → Qeq_bool x p = Qeq_bool x p'.
Proof.
  intros Hp. apply Qeq_bool_iff in Hp.
  destruct (Qeq_bool x p') eqn:Hx.
  - apply Qeq_bool_iff in Hx. apply Qeq_bool_iff. by rewrite Hp.
  - apply not_true_is_false. intros Hx'. apply Qeq_bool_iff in Hx'.
    rewrite Hp in Hx'. apply Qeq_bool_iff in Hx'. congruence.
Qed.

Lemma Qeq_bool_refl (p : Q) : Qeq_bool p p = true.
Proof. apply Qeq_bool_iff. reflexivity. Qed.

Lemma key_count_umap_add (m : list (Q * Z)) (k : Q) (v : Z) (p : Q) :
  MarketData.key_count (MarketData.umap_add m k v) p
  = if (MarketData.key_count m k =? 0)%nat && Qeq_bool k p
    then S (MarketData.key_count m p) else MarketData.key_count m p.
Proof.
  induction m as [|[k1 v1] m IH]; simpl.
  - by destruct (Qeq_bool k p).
  - destruct (Qeq_bool k1 k) eqn:Hk1; simpl.
    + done.
    + rewrite IH. destruct (MarketData.key_count m k =? 0)%nat; simpl; [|done].
      by destruct (Qeq_bool k p), (Qeq_bool k1 p).
Qed.

Lemma val_sum_umap_add (m : list (Q * Z)) (k : Q) (v : Z) (p : Q) :
  MarketData.val_sum (MarketData.umap_add m k v) p
  = MarketData.val_sum m p + (if Qeq_bool k p then v else 0).
Proof.
  induction m as [|[k1 v1] m IH]; simpl.
  - destruct (Qeq_bool k p); lia.
  - destruct (Qeq_bool k1 k) eqn:Hk1; simpl.
    + rewrite (Qeq_bool_trans_l k k1 p Hk1). destruct (Qeq_bool k p); lia.
    + rewrite IH. destruct (Qeq_bool k p), (Qeq_bool k1 p); lia.
Qed.

Lemma quantity_at_snoc (stack : list MarketData.Order) (o : MarketData.Order) (p : Q) :
  MarketData.quantity_at (stack ++ [o]) p
  = MarketData.quantity_at stack p
    + (if Qeq_bool (MarketData.GetPrice o) p then MarketData.GetQuantity o else 0).
Proof.
  induction stack as [|x stack IH]; simpl.
  - destruct (Qeq_bool _ p); lia.
  - rewrite IH. destruct (Qeq_bool (MarketData.GetPrice x) p); lia.
Qed.

Lemma has_price_snoc (stack : list MarketData.Order) (o : MarketData.Order) (p : Q) :
  MarketData.has_price (stack ++ [o]) p
  = MarketData.has_price stack p || Qeq_bool (MarketData.GetPrice o) p.
Proof. unfold MarketData.has_price. rewrite existsb_app. simpl. by rewrite orb_false_r. Qed.

Lemma has_price_Qeq (stack : list MarketData.Order) (p p' : Q) :
  Qeq_bool p p' = true → MarketData.has_price stack p = MarketData.has_price stack p'.
Proof.
  intros Hp. induction stack as [|x stack IH]; simpl; [done|].
  by rewrite IH, (Qeq_bool_trans_r _ p p' Hp).
Qed.

Lemma has_price_elem (stack : list MarketData.Order) (p : Q) :
  MarketData.has_price stack p = true
  ↔ ∃ o, o ∈ stack ∧ (MarketData.GetPrice o == p)%Q.
Proof.
  unfold MarketData.has_price. rewrite existsb_exists. split.
  - intros (o & Hin & Ho). exists o. split; [by apply list_elem_of_In|by apply Qeq_bool_iff].
  - intros (o & Hin & Ho). exists o. split; [by apply list_elem_of_In|by apply Qeq_bool_iff].
Qed.

Lemma aggregate_fold_inv (stack : list MarketData.Order) :
  let m := fold_left
             (λ m order, MarketData.umap_add m (MarketData.GetPrice order)
                           (MarketData.GetQuantity order)) stack [] in
  (∀ p, MarketData.key_count m p = if MarketData.has_price stack p then 1%nat else 0%nat)
  ∧ (∀ p, MarketData.val_sum m p = MarketData.quantity_at stack p).
Proof.
  induction stack as [|o stack [IHk IHv]] using rev_ind; simpl.
  - done.
  - rewrite fold_left_app. simpl. split; intros p.
    + rewrite key_count_umap_add, has_price_snoc, !IHk.
      destruct (Qeq_bool (MarketData.GetPrice o) p) eqn:Hop.
      * rewrite (has_price_Qeq stack _ _ Hop).
        by destruct (MarketData.has_price stack p).
      * rewrite andb_false_r, orb_false_r. done.
    + rewrite val_sum_umap_add, quantity_at_snoc, IHv. done.
Qed.

Lemma key_count_elem (m : list (Q * Z)) (kv : Q * Z) :
  kv ∈ m → (1 ≤ MarketData.key_count m (fst kv))%nat.
Proof.
  induction m as [|h m IH]; intros Hin; [by apply not_elem_of_nil in Hin|].
  simpl. apply elem_of_cons in Hin as [->|Hin].
  - rewrite Qeq_bool_refl. lia.
  - specialize (IH Hin). destruct (Qeq_bool (fst h) (fst kv)); lia.
Qed.

Lemma key_count_zero_val_sum (m : list (Q * Z)) (p : Q) :
  MarketData.key_count m p = 0%nat → MarketData.val_sum m p = 0.
Proof.
  induction m as [|h m IH]; simpl; [done|].
  destruct (Qeq_bool (fst h) p); [done|exact IH].
Qed.

Lemma val_sum_single (m : list (Q * Z)) (kv : Q * Z) :
  kv ∈ m → MarketData.key_count m (fst kv) = 1%nat →
  MarketData.val_sum m (fst kv) = snd kv.
Proof.
  induction m as [|h m IH]; intros Hin Hcount; [by apply not_elem_of_nil in Hin|].
  simpl in *. destruct (Qeq_bool (fst h) (fst kv)) eqn:Hh.
  - assert (Hzero : MarketData.key_count m (fst kv) = 0%nat) by lia.
    apply elem_of_cons in Hin as [->|Hin].
    + rewrite (key_count_zero_val_sum _ _ Hzero). lia.
    + pose proof (key_count_elem m kv Hin). lia.
  - apply elem_of_cons in Hin as [->|Hin].
    + rewrite Qeq_bool_refl in Hh. done.
    + by apply IH.
Qed.

Lemma filter_same_price_length (m : list (Q * Z)) (side : PricingSide) (p : Q) :
  length (filter (MarketData.same_price p)
            ((λ pq, MarketData.mkOrder (fst pq) (snd pq) side) <$> m))
  = MarketData.key_count m p.
Proof.
  induction m as [|h m IH]; [done|].
  rewrite fmap_cons, filter_cons.
  destruct (decide (MarketData.same_price p _)) as [Hd|Hd];
    unfold MarketData.same_price in Hd; simpl in Hd.
  - cbn [length]. rewrite IH. simpl. by rewrite Hd.
  - apply not_true_is_false in Hd. rewrite IH. simpl. by rewrite Hd.
Qed.

Lemma aggregateStack_aggregated (stack : list MarketData.Order) (side : PricingSide) :
  MarketData.aggregated stack side (MarketData.aggregateStack stack side).
Proof.
  unfold MarketData.aggregateStack.
  destruct (aggregate_fold_inv stack) as [Hk Hv].
  set (m := fold_left _ stack []) in *. split.
  - intros o Ho. rewrite filter_same_price_length, Hk.
    replace (MarketData.has_price stack (MarketData.GetPrice o)) with true; [done|].
    symmetry. apply has_price_elem. exists o. split; [done|reflexivity].
  - intros g Hg. apply list_elem_of_fmap in Hg as (kv & -> & Hkv). simpl.
    pose proof (key_count_elem m kv Hkv) as Hge. rewrite Hk in Hge.
    destruct (MarketData.has_price stack (fst kv)) eqn:Hhas; [|lia].
    split; [by apply has_price_elem|]. split; [|done].
    rewrite <- Hv. symmetry. apply val_sum_single; [done|].
    by rewrite Hk, Hhas.
Qed.

Lemma aggregated_Permutation (stack : list MarketData.Order) (side : PricingSide)
    (out out' : list MarketData.Order) :
  Permutation out out' →
  MarketData.aggregated stack side out → MarketData.aggregated stack side out'.
Proof.
  intros Hperm [Hone Heach]. split.
  - intros o Ho. rewrite <- Hperm. by apply Hone.
  - intros g Hg. apply Heach. by rewrite Hperm.
Qed.

Lemma stack_magnitude_nonneg (stack : list MarketData.Order) :
  0 <= MarketData.stack_magnitude stack.
Proof. induction stack as [|o stack IH]; simpl; lia. Qed.

Lemma stack_magnitude_take (stack : list MarketData.Order) (k : nat) :
  MarketData.stack_magnitude (take k stack) <= MarketData.stack_magnitude stack.
Proof.
  revert k. induction stack as [|o stack IH]; intros [|k]; simpl; try lia.
  - pose proof (stack_magnitude_nonneg stack). lia.
  - specialize (IH k). lia.
Qed.

Lemma quantity_at_magnitude (stack : list MarketData.Order) (p : Q) :
  Z.abs (MarketData.quantity_at stack p) <= MarketData.stack_magnitude stack.
Proof.
  induction stack as [|o stack IH]; simpl; [lia|].
  destruct (Qeq_bool _ _); lia.
Qed.

(** A stack whose quantities add up, in magnitude, to at most [LONG_MAX]
    keeps every running sum in the range of a [long]. *)
Lemma sums_in_long_of_magnitude (stack : list MarketData.Order) :
  MarketData.stack_magnitude stack <= LONG_MAX → MarketData.sums_in_long stack.
Proof.
  intros Hsize. split.
  - induction stack as [|o stack IH]; [constructor|].
    simpl in Hsize. pose proof (stack_magnitude_nonneg stack).
    constructor; [unfold in_long, LONG_MIN, LONG_MAX in *; lia|]. apply IH. lia.
  - intros k p.
    pose proof (quantity_at_magnitude (take k stack) p).
    pose proof (stack_magnitude_take stack k).
    unfold in_long, LONG_MIN, LONG_MAX in *. lia.
Qed.

(** C4: for a product with a stored order book, [AggregateDepth] leaves the
    store as it is and returns an order book for the stored book's product;
    its bid stack, in whatever order the groups come out, holds exactly one
    order for each price occurring in the stored bid stack, with the sum of
    the quantities of the stored bids at that price and side BID, and nothing
    else; likewise its offer stack with side OFFER.  The quantities are
    [long]: the statement is made for stacks in which the running sum of
    every price stays in the range of a [long]. *)
Theorem AggregateDepth_groups_by_price {T : Type} `{Product T}
    (s : MarketData.BondMarketDataService T) (productId : string)
    (ob : MarketData.OrderBook T) :
  MarketData.orderBooks s !! productId = Some ob →
  MarketData.sums_in_long (MarketData.GetBidStack ob) →
  MarketData.sums_in_long (MarketData.GetOfferStack ob) →
  ∃ result : MarketData.OrderBook T,
    MarketData.AggregateDepth s productId = (result, s)
    ∧ MarketData.GetProduct result = MarketData.GetProduct ob
    ∧ (∀ bids, Permutation (MarketData.GetBidStack result) bids →
         MarketData.aggregated (MarketData.GetBidStack ob) BID bids)
    ∧ (∀ offers, Permutation (MarketData.GetOfferStack result) offers →
         MarketData.aggregated (MarketData.GetOfferStack ob) OFFER offers).
Proof.
  intros Hstored _ _.
  exists (MarketData.mkOrderBook (MarketData.GetProduct ob)
            (MarketData.aggregateStack (MarketData.GetBidStack ob) BID)
            (MarketData.aggregateStack (MarketData.GetOfferStack ob) OFFER)).
  split; [|split; [done|split]].
  - unfold MarketData.AggregateDepth.
    rewrite !(map_index_hit _ _ _ Hstored). simpl.
    unfold MarketData.set_orderBooks. by destruct s.
  - intros bids Hperm. simpl in Hperm.
    eapply aggregated_Permutation; [exact Hperm|]. apply aggregateStack_aggregated.
  - intros offers Hperm. simpl in Hperm.
    eapply aggregated_Permutation; [exact Hperm|]. apply aggregateStack_aggregated.
Qed.

Lemma AggregateDepth_groups_by_price_witness :
  MarketData.orderBooks market_service_1 !! "91282CLY5"%string = Some book_depth_example
  ∧ MarketData.sums_in_long (MarketData.GetBidStack book_depth_example)
  ∧ MarketData.sums_in_long (MarketData.GetOfferStack book_depth_example)
  ∧ ∃ result : MarketData.OrderBook Bond,
      MarketData.AggregateDepth market_service_1 "91282CLY5" = (result, market_service_1)
      ∧ MarketData.aggregated (MarketData.GetBidStack book_depth_example) BID
          (MarketData.GetBidStack result).
Proof.
  assert (Hbids0 : MarketData.sums_in_long (MarketData.GetBidStack book_depth_example))
    by (apply sums_in_long_of_magnitude; vm_compute; discriminate).
  assert (Hoffers0 : MarketData.sums_in_long (MarketData.GetOfferStack book_depth_example))
    by (apply sums_in_long_of_magnitude; vm_compute; discriminate).
  split; [reflexivity|]. split; [exact Hbids0|]. split; [exact Hoffers0|].
  destruct (AggregateDepth_groups_by_price market_service_1 "91282CLY5" book_depth_example
              eq_refl Hbids0 Hoffers0) as (result & Hrun & _ & Hbids & _).
  exists result. split; [exact Hrun|]. apply Hbids. reflexivity.
Defined.

Example aggregateStack_spec_example :
  MarketData.aggregateStack (MarketData.GetBidStack book_depth_example) BID
  = [ MarketData.mkOrder (995 # 10) 15 BID; MarketData.mkOrder (9975 # 100) 20 BID ].
Proof. vm_compute. reflexivity. Qed.

(** ** Price strings *)

Lemma string_app_cons (c : ascii) (s1 s2 : string) :
  String c s1 +:+ s2 = String c (s1 +:+ s2).
Proof. reflexivity. Qed.

Lemma string_app_nil_l (s : string) : "" +:+ s = s.
Proof. reflexivity. Qed.

Lemma string_app_assoc (s1 s2 s3 : string) : (s1 +:+ s2) +:+ s3 = s1 +:+ (s2 +:+ s3).
Proof.
  induction s1 as [|c s1 IH]; [done|].
  by rewrite !string_app_cons, IH.
Qed.

Lemma string_app_nil_r (s : string) : s +:+ "" = s.
Proof. induction s as [|c s IH]; [done|]. by rewrite string_app_cons, IH. Qed.

Lemma digit_cases (d : Z) :
  0 <= d < 10 →
  d = 0 ∨ d = 1 ∨ d = 2 ∨ d = 3 ∨ d = 4 ∨ d = 5 ∨ d = 6 ∨ d = 7 ∨ d = 8 ∨ d = 9.
Proof. lia. Qed.

(** Settle a goal about one decimal digit by trying the ten digits. *)
Ltac by_digit_cases Hd :=
  destruct (digit_cases _ Hd) as [->|[->|[->|[->|[->|[->|[->|[->|[->| ->]]]]]]]]];
  reflexivity.

Lemma digit_val_char (d : Z) : 0 <= d < 10 → Text.digit_val (Text.digit_char d) = Some d.
Proof. intros Hd. by_digit_cases Hd. Qed.

Lemma digit_char_not_dash (d : Z) :
  0 <= d < 10 → Ascii.eqb (Text.digit_char d) "-"%char = false.
Proof. intros Hd. by_digit_cases Hd. Qed.

Lemma stod_acc_app (s1 s2 : string) (acc : Z) :
  Text.stod_acc acc (s1 +:+ s2) = Text.stod_acc acc s1 ≫= λ acc', Text.stod_acc acc' s2.
Proof.
  revert acc. induction s1 as [|c s1 IH]; intros acc; [done|].
  rewrite string_app_cons. simpl.
  destruct (Text.digit_val c); [apply IH|done].
Qed.

Lemma digits_nonempty (fuel : nat) (n : Z) : fuel ≠ O → Text.digits fuel n ≠ EmptyString.
Proof.
  destruct fuel as [|f]; [done|]. intros _. cbn [Text.digits].
  destruct (n <? 10); [done|].
  destruct (Text.digits f (n / 10)); [by rewrite string_app_nil_l|by rewrite string_app_cons].
Qed.

Lemma stod_acc_digits (fuel : nat) (n : Z) :
  0 <= n < 2 ^ Z.of_nat fuel → Text.stod_acc 0 (Text.digits fuel n) = Some n.
Proof.
  revert n. induction fuel as [|f IH]; intros n Hn.
  - change (2 ^ Z.of_nat 0) with 1 in Hn. assert (n = 0) by lia. subst. done.
  - cbn [Text.digits]. destruct (n <? 10) eqn:Hlt.
    + apply Z.ltb_lt in Hlt. cbn [Text.stod_acc]. rewrite digit_val_char by lia. done.
    + apply Z.ltb_ge in Hlt. rewrite stod_acc_app.
      rewrite Nat2Z.inj_succ, Z.pow_succ_r in Hn by lia.
      rewrite IH.
      * cbn [mbind option_bind Text.stod_acc].
        rewrite digit_val_char by (apply Z.mod_pos_bound; lia).
        f_equal. pose proof (Z.div_mod n 10). lia.
      * split; [apply Z.div_pos; lia|]. apply Z.div_lt_upper_bound; lia.
Qed.

Lemma to_string_nonneg_fuel (n : Z) : 0 <= n → n < 2 ^ Z.of_nat (S (Z.to_nat (Z.log2 n))).
Proof.
  intros Hn. rewrite Nat2Z.inj_succ, Z2Nat.id by apply Z.log2_nonneg.
  destruct (decide (n = 0)) as [->|Hne]; [done|].
  apply Z.log2_spec. lia.
Qed.

Lemma stod_to_string (n : Z) : 0 <= n → Text.stod (Text.to_string n) = Some (inject_Z n).
Proof.
  intros Hn. unfold Text.to_string, Text.to_string_nonneg.
  rewrite (proj2 (Z.ltb_ge n 0)) by done.
  unfold Text.stod.
  pose proof (digits_nonempty (S (Z.to_nat (Z.log2 n))) n) as Hne.
  destruct (Text.digits (S (Z.to_nat (Z.log2 n))) n) eqn:Hd; [by exfalso; apply Hne|].
  rewrite <- Hd. rewrite stod_acc_digits; [done|].
  split; [done|by apply to_string_nonneg_fuel].
Qed.

Lemma forall_range (P : Z → Prop) `{∀ z, Decision (P z)} (lo len : Z) :
  bool_decide (Forall P (seqZ lo len)) = true → ∀ z, lo <= z < lo + len → P z.
Proof.
  intros Hall z Hz. apply bool_decide_eq_true in Hall.
  rewrite Forall_forall in Hall. apply Hall. apply elem_of_seqZ. lia.
Qed.

Lemma ParsePrice_loop_app (st : parse_state) (s1 s2 : string) :
  ParsePrice_loop st (s1 +:+ s2) = ParsePrice_loop (ParsePrice_loop st s1) s2.
Proof.
  revert st. induction s1 as [|c s1 IH]; intros st; [done|].
  rewrite string_app_cons. cbn [ParsePrice_loop]. apply IH.
Qed.

Lemma ParsePrice_step_whole (pw p32 p8 : string) (d : Z) :
  0 <= d < 10 →
  ParsePrice_step (ParseState pw p32 p8 0) (Text.digit_char d)
  = ParseState (pw +:+ String (Text.digit_char d) "") p32 p8 0.
Proof.
  intros Hd. unfold ParsePrice_step. by rewrite digit_char_not_dash.
Qed.

Lemma ParsePrice_loop_digits (fuel : nat) (n : Z) (pw p32 p8 : string) :
  0 <= n →
  ParsePrice_loop (ParseState pw p32 p8 0) (Text.digits fuel n)
  = ParseState (pw +:+ Text.digits fuel n) p32 p8 0.
Proof.
  revert n pw. induction fuel as [|f IH]; intros n pw Hn.
  - cbn [Text.digits ParsePrice_loop]. by rewrite string_app_nil_r.
  - cbn [Text.digits]. destruct (n <? 10) eqn:Hlt.
    + apply Z.ltb_lt in Hlt. cbn [ParsePrice_loop].
      by rewrite ParsePrice_step_whole by lia.
    + rewrite ParsePrice_loop_app, IH by (apply Z.div_pos; lia).
      cbn [ParsePrice_loop].
      rewrite ParsePrice_step_whole by (apply Z.mod_pos_bound; lia).
      by rewrite string_app_assoc.
Qed.

Lemma ParsePrice_loop_fraction (pw : string) (d1 d2 e : ascii) :
  Ascii.eqb d1 "-"%char = false → Ascii.eqb d2 "-"%char = false →
  Ascii.eqb e "-"%char = false →
  ParsePrice_loop (ParseState pw "" "" 0)
    (String "-"%char (String d1 (String d2 (String e EmptyString))))
  = ParseState pw (String d1 (String d2 EmptyString))
      (String (if Ascii.eqb e "+"%char then "4"%char else e) EmptyString) 3.
Proof.
  intros H1 H2 He. cbn [ParsePrice_loop].
  unfold ParsePrice_step at 4. cbn.
  unfold ParsePrice_step at 3. rewrite H1. cbn.
  unfold ParsePrice_step at 2. rewrite H2. cbn.
  unfold ParsePrice_step. rewrite He. cbn. done.
Qed.

Lemma eighth_value_spec (e : ascii) (v : Z) :
  eighth_value e = Some v →
  0 <= v < 8
  ∧ Ascii.eqb e "-"%char = false
  ∧ Text.stod_acc 0 (String (if Ascii.eqb e "+"%char then "4"%char else e) EmptyString) = Some v.
Proof.
  unfold eighth_value. destruct (Ascii.eqb e "+"%char) eqn:Hplus.
  - intros [= <-]. apply Ascii.eqb_eq in Hplus. subst e. done.
  - destruct (Text.digit_val e) as [d|] eqn:Hd; [|done].
    destruct (d <? 8) eqn:Hlt; [|done]. intros [= <-].
    apply Z.ltb_lt in Hlt.
    assert (0 <= d).
    { unfold Text.digit_val in Hd. cbv zeta in Hd.
      destruct (_ && _) eqn:Hrange; [|done].
      apply andb_true_iff in Hrange as [Hlo _]. apply Z.leb_le in Hlo.
      injection Hd as <-. lia. }
    split; [lia|]. split.
    + destruct (Ascii.eqb e "-"%char) eqn:Hdash; [|done].
      apply Ascii.eqb_eq in Hdash. subst e. done.
    + cbn [Text.stod_acc]. rewrite Hd. done.
Qed.

Lemma two_digits_spec (ff : Z) :
  0 <= ff < 32 →
  Ascii.eqb (Text.digit_char (ff / 10)) "-"%char = false
  ∧ Ascii.eqb (Text.digit_char (ff mod 10)) "-"%char = false
  ∧ Text.stod_acc 0 (two_digits ff) = Some ff.
Proof.
  intros Hff.
  assert (0 <= ff / 10 < 10).
  { split; [apply Z.div_pos; lia|apply Z.div_lt_upper_bound; lia]. }
  assert (0 <= ff mod 10 < 10) by (apply Z.mod_pos_bound; lia).
  split; [by apply digit_char_not_dash|]. split; [by apply digit_char_not_dash|].
  unfold two_digits. cbn [Text.stod_acc]. rewrite !digit_val_char by done.
  f_equal. pose proof (Z.div_mod ff 10). lia.
Qed.

Lemma ParsePrice_price_string (w ff v : Z) (e : ascii) :
  0 <= w → 0 <= ff < 32 → eighth_value e = Some v →
  ParsePrice (price_string w ff e)
  = Some (inject_Z w + inject_Z ff / 32 + inject_Z v / 256)%Q.
Proof.
  intros Hw Hff He.
  destruct (eighth_value_spec e v He) as (Hv & Hdash & Hstod8).
  destruct (two_digits_spec ff Hff) as (Hd1 & Hd2 & Hstod32).
  pose proof (stod_to_string w Hw) as Hstodw.
  unfold ParsePrice, price_string.
  rewrite ParsePrice_loop_app.
  unfold Text.to_string in *. rewrite (proj2 (Z.ltb_ge w 0)) in * by done.
  unfold Text.to_string_nonneg in *.
  rewrite ParsePrice_loop_digits by done. rewrite string_app_nil_l.
  change ("-" +:+ two_digits ff +:+ String e "")
    with (String "-"%char (String (Text.digit_char (ff / 10))
            (String (Text.digit_char (ff mod 10)) (String e EmptyString)))).
  rewrite ParsePrice_loop_fraction by done.
  cbn [partWhole part32 part8].
  pose proof (digits_nonempty (S (Z.to_nat (Z.log2 w))) w) as Hne.
  destruct (Text.digits (S (Z.to_nat (Z.log2 w))) w) eqn:Hdig; [by exfalso; apply Hne|].
  change (stod_or_zero (String a s)) with (Text.stod (String a s)).
  rewrite Hstodw. cbn [mbind option_bind].
  change (stod_or_zero (String (Text.digit_char (ff / 10))
                          (String (Text.digit_char (ff mod 10)) "")))
    with (inject_Z <$> Text.stod_acc 0 (two_digits ff)).
  rewrite Hstod32. cbn [fmap option_fmap option_map mbind option_bind].
  change (stod_or_zero (String (if Ascii.eqb e "+"%char then "4"%char else e) ""))
    with (inject_Z <$> Text.stod_acc 0
            (String (if Ascii.eqb e "+"%char then "4"%char else e) "")).
  rewrite Hstod8. done.
Qed.

Lemma digit_val_inv (e : ascii) (d : Z) :
  Text.digit_val e = Some d → e = Text.digit_char d ∧ 0 <= d < 10.
Proof.
  unfold Text.digit_val. cbv zeta.
  destruct (_ && _) eqn:Hrange; [|done]. intros [= <-].
  apply andb_true_iff in Hrange as [Hlo Hhi].
  apply Z.leb_le in Hlo. apply Z.leb_le in Hhi.
  split; [|lia]. unfold Text.digit_char.
  replace (48 + Z.to_nat (Z.of_nat (nat_of_ascii e) - 48))%nat with (nat_of_ascii e) by lia.
  by rewrite ascii_nat_embedding.
Qed.

Lemma eighth_char_of_value (e : ascii) (v : Z) :
  eighth_value e = Some v → e ≠ "4"%char → eighth_char v = e.
Proof.
  unfold eighth_value, eighth_char. destruct (Ascii.eqb e "+"%char) eqn:Hplus.
  - intros [= <-] _. apply Ascii.eqb_eq in Hplus. by subst e.
  - destruct (Text.digit_val e) as [d|] eqn:Hd; [|done].
    destruct (d <? 8); [|done]. intros [= <-] Hne.
    apply digit_val_inv in Hd as [-> Hd].
    destruct (d =? 4) eqn:H4; [|done].
    apply Z.eqb_eq in H4. subst d. done.
Qed.

Lemma eighth_value_of_char (v : Z) : 0 <= v < 8 → eighth_value (eighth_char v) = Some v.
Proof.
  intros Hv. revert v Hv.
  apply (forall_range (λ v, eighth_value (eighth_char v) = Some v) 0 8).
  vm_compute. reflexivity.
Qed.

Lemma FormatPrice_oss32 (ff : Z) :
  0 <= ff < 32 →
  (if ff <? 10 then "0"%string else ""%string) +:+ Text.to_string ff = two_digits ff.
Proof.
  intros Hff. revert ff Hff.
  apply (forall_range
           (λ ff, (if ff <? 10 then "0"%string else ""%string) +:+ Text.to_string ff
                  = two_digits ff) 0 32).
  vm_compute. reflexivity.
Qed.

Lemma FormatPrice_part8 (v : Z) :
  0 <= v < 8 →
  (if v =? 4 then "+"%string else Text.to_string v) = String (eighth_char v) EmptyString.
Proof.
  intros Hv. revert v Hv.
  apply (forall_range
           (λ v, (if v =? 4 then "+"%string else Text.to_string v)
                 = String (eighth_char v) EmptyString) 0 8).
  vm_compute. reflexivity.
Qed.

Lemma price_value_256 (w ff v : Z) :
  (inject_Z w + inject_Z ff / 32 + inject_Z v / 256 == (w * 256 + ff * 8 + v) # 256)%Q.
Proof. unfold Qeq. simpl. lia. Qed.

Lemma FormatPrice_of_parts (x : Q) (w ff v : Z) :
  (x == inject_Z w + inject_Z ff / 32 + inject_Z v / 256)%Q →
  0 <= ff < 32 → 0 <= v < 8 →
  FormatPrice x = price_string w ff (eighth_char v).
Proof.
  intros Hx Hff Hv.
  assert (Hfloor : Qfloor x = w).
  { rewrite Hx, price_value_256. unfold Qfloor.
    symmetry. apply (Z.div_unique _ _ _ (ff * 8 + v)); lia. }
  assert (Hfrac : Qfloor ((x - inject_Z w) * 256) = ff * 8 + v).
  { rewrite <- (Qfloor_Z (ff * 8 + v)). apply Qfloor_comp.
    rewrite Hx, price_value_256. unfold Qeq. simpl. lia. }
  assert (Hquot : Z.quot (ff * 8 + v) 8 = ff).
  { rewrite Z.quot_div_nonneg by lia. symmetry. apply (Z.div_unique _ _ _ v); lia. }
  assert (Hrem : Z.rem (ff * 8 + v) 8 = v).
  { rewrite Z.rem_mod_nonneg by lia. symmetry. apply (Z.mod_unique _ _ ff); lia. }
  unfold FormatPrice. cbv zeta. rewrite Hfloor, Hfrac, Hquot, Hrem.
  rewrite FormatPrice_oss32, FormatPrice_part8 by done. reflexivity.
Qed.

(** C2 (as amended): for every price [x] that is a non-negative multiple of
    1/256 with integer part below 2^31, [ParsePrice (FormatPrice x)] returns
    [x]; and for every string [s] in the [W-FFE] notation with [W] written
    as [FormatPrice] writes it, [FF] in 00..31 and [E] either [+] or a digit
    0..7 other than 4, [FormatPrice (ParsePrice s)] returns [s]. *)
Theorem price_roundtrip :
  (∀ (x : Q) (n : Z),
      (x == n # 256)%Q → 0 <= n < 2 ^ 31 * 256 →
      ∃ y, ParsePrice (FormatPrice x) = Some y ∧ (y == x)%Q)
  ∧ (∀ (w ff : Z) (e : ascii) (v : Z),
      0 <= w < 2 ^ 31 → 0 <= ff < 32 → eighth_value e = Some v → e ≠ "4"%char →
      ∃ x, ParsePrice (price_string w ff e) = Some x
           ∧ FormatPrice x = price_string w ff e).
Proof.
  split.
  - intros x n Hx Hn.
    set (w := n / 256). set (ff := (n mod 256) / 8). set (v := (n mod 256) mod 8).
    assert (Hr : 0 <= n mod 256 < 256) by (apply Z.mod_pos_bound; lia).
    assert (Hff : 0 <= ff < 32).
    { subst ff. split; [apply Z.div_pos; lia|apply Z.div_lt_upper_bound; lia]. }
    assert (Hv : 0 <= v < 8) by (subst v; apply Z.mod_pos_bound; lia).
    assert (Hw : 0 <= w) by (subst w; apply Z.div_pos; lia).
    assert (Hn' : n = w * 256 + ff * 8 + v).
    { subst w ff v. pose proof (Z.div_mod n 256). pose proof (Z.div_mod (n mod 256) 8). lia. }
    assert (Hparts : (x == inject_Z w + inject_Z ff / 32 + inject_Z v / 256)%Q).
    { rewrite Hx, price_value_256. by rewrite <- Hn'. }
    rewrite (FormatPrice_of_parts x w ff v Hparts Hff Hv).
    rewrite (ParsePrice_price_string w ff v (eighth_char v) Hw Hff (eighth_value_of_char v Hv)).
    eexists. split; [reflexivity|]. by rewrite Hparts.
  - intros w ff e v Hw Hff He Hne.
    rewrite (ParsePrice_price_string w ff v e) by (done || lia).
    eexists. split; [reflexivity|].
    rewrite (FormatPrice_of_parts _ w ff v); [|reflexivity|done|].
    + by rewrite (eighth_char_of_value e v He Hne).
    + by destruct (eighth_value_spec e v He).
Qed.

Lemma price_roundtrip_witness :
  ((99 + 16 / 32 + 4 / 256 == 25476 # 256)%Q ∧ 0 <= 25476 < 2 ^ 31 * 256
   ∧ ∃ y, ParsePrice (FormatPrice (99 + 16 / 32 + 4 / 256)%Q) = Some y
          ∧ (y == 99 + 16 / 32 + 4 / 256)%Q)
  ∧ (0 <= 99 < 2 ^ 31 ∧ 0 <= 16 < 32 ∧ eighth_value "7"%char = Some 7
     ∧ "7"%char ≠ "4"%char
     ∧ ∃ x, ParsePrice (price_string 99 16 "7") = Some x
            ∧ FormatPrice x = price_string 99 16 "7").
Proof.
  destruct price_roundtrip as [Hformat Hparse].
  assert (H1 : (99 + 16 / 32 + 4 / 256 == 25476 # 256)%Q) by reflexivity.
  assert (H2 : 0 <= 25476 < 2 ^ 31 * 256) by lia.
  assert (H3 : 0 <= 99 < 2 ^ 31) by lia.
  assert (H4 : 0 <= 16 < 32) by lia.
  assert (H5 : eighth_value "7"%char = Some 7) by reflexivity.
  assert (H6 : "7"%char ≠ "4"%char) by discriminate.
  split.
  - split; [exact H1|]. split; [exact H2|]. exact (Hformat _ _ H1 H2).
  - split; [exact H3|]. split; [exact H4|]. split; [exact H5|]. split; [exact H6|].
    exact (Hparse 99 16 "7"%char 7 H3 H4 H5 H6).
Defined.

(** C2 as stated fails for [E] = [4]: the string "99-164" is in the
    notation ([eighth_value] accepts the digit 4), it parses to
    99 + 16/32 + 4/256, and [FormatPrice] writes that price as "99-16+". *)
Lemma price_roundtrip_digit4_counterexample :
  price_string 99 16 "4" = "99-164"%string
  ∧ eighth_value "4"%char = Some 4
  ∧ ParsePrice "99-164" = Some (99 + 16 / 32 + 4 / 256)%Q
  ∧ FormatPrice (99 + 16 / 32 + 4 / 256)%Q = "99-16+"%string
  ∧ ¬ (∃ x, ParsePrice (price_string 99 16 "4") = Some x
            ∧ FormatPrice x = price_string 99 16 "4").
Proof.
  split; [vm_compute; reflexivity|]. split; [reflexivity|].
  split; [vm_compute; reflexivity|]. split; [vm_compute; reflexivity|].
  intros (x & Hparse & Hformat).
  vm_compute in Hparse. injection Hparse as <-.
  vm_compute in Hformat. discriminate Hformat.
Qed.

(** * Further properties of the code *)

(** ** utils.hpp: price strings on arbitrary prices *)

Lemma Qfloor_unique (q : Q) (n : Z) :
  (inject_Z n <= q)%Q → (q < inject_Z (n + 1))%Q → Qfloor q = n.
Proof.
  intros Hlo Hhi. apply Z.le_antisymm.
  - assert (Qfloor q < n + 1); [|lia].
    rewrite Zlt_Qlt. eapply Qle_lt_trans; [apply Qfloor_le|exact Hhi].
  - rewrite <- (Qfloor_Z n). by apply Qfloor_resp_le.
Qed.

Lemma FormatPrice_general (x : Q) (w f : Z) :
  Qfloor x = w → Qfloor ((x - inject_Z w) * 256) = f → 0 <= f < 256 →
  FormatPrice x = price_string w (f / 8) (eighth_char (f mod 8)).
Proof.
  intros Hw Hf Hrange.
  assert (Hff : 0 <= f / 8 < 32).
  { split; [apply Z.div_pos; lia|apply Z.div_lt_upper_bound; lia]. }
  assert (Hv : 0 <= f mod 8 < 8) by (apply Z.mod_pos_bound; lia).
  unfold FormatPrice. cbv zeta. rewrite Hw, Hf.
  rewrite Z.quot_div_nonneg, Z.rem_mod_nonneg by lia.
  rewrite FormatPrice_oss32, FormatPrice_part8 by done. reflexivity.
Qed.

Lemma fraction256_range (x : Q) :
  0 <= Qfloor ((x - inject_Z (Qfloor x)) * 256) < 256.
Proof.
  pose proof (Qfloor_le x) as Hlo. pose proof (Qlt_floor x) as Hhi.
  rewrite inject_Z_plus in Hhi. change (inject_Z 1) with 1%Q in Hhi.
  split.
  - rewrite <- (Qfloor_Z 0). apply Qfloor_resp_le.
    change (inject_Z 0) with 0%Q. lra.
  - assert (Qfloor ((x - inject_Z (Qfloor x)) * 256) < 256); [|lia].
    rewrite Zlt_Qlt. eapply Qle_lt_trans; [apply Qfloor_le|].
    change (inject_Z 256) with 256%Q. lra.
Qed.

(** X1: for every non-negative price whose integer part fits an [int],
    parsing the string that [FormatPrice] writes gives the price rounded down
    to a multiple of 1/256: the result is floor(256 x)/256, at most [x] and
    less than 1/256 below it. *)
Theorem ParsePrice_FormatPrice_truncates (x : Q) :
  (0 <= x)%Q → (x < inject_Z (2 ^ 31))%Q →
  ∃ y, ParsePrice (FormatPrice x) = Some y
       ∧ (y == inject_Z (Qfloor (x * 256)) / 256)%Q
       ∧ (y <= x)%Q ∧ (x < y + 1 / 256)%Q.
Proof.
  intros Hx0 Hx1.
  set (w := Qfloor x). set (f := Qfloor ((x - inject_Z w) * 256)).
  pose proof (fraction256_range x) as Hf. fold w f in Hf.
  assert (Hw : 0 <= w).
  { subst w. rewrite <- (Qfloor_Z 0). by apply Qfloor_resp_le. }
  assert (Hff : 0 <= f / 8 < 32).
  { split; [apply Z.div_pos; lia|apply Z.div_lt_upper_bound; lia]. }
  assert (Hv : 0 <= f mod 8 < 8) by (apply Z.mod_pos_bound; lia).
  rewrite (FormatPrice_general x w f eq_refl eq_refl Hf).
  rewrite (ParsePrice_price_string w (f / 8) (f mod 8) _ Hw Hff (eighth_value_of_char _ Hv)).
  eexists. split; [reflexivity|].
  assert (Hval : (inject_Z w + inject_Z (f / 8) / 32 + inject_Z (f mod 8) / 256
                  == inject_Z w + inject_Z f / 256)%Q).
  { rewrite price_value_256.
    replace (w * 256 + f / 8 * 8 + f mod 8) with (w * 256 + f)
      by (pose proof (Z.div_mod f 8); lia).
    unfold Qeq. simpl. lia. }
  pose proof (Qfloor_le ((x - inject_Z w) * 256)) as Hlo.
  pose proof (Qlt_floor ((x - inject_Z w) * 256)) as Hhi.
  fold f in Hlo, Hhi. rewrite inject_Z_plus in Hhi.
  change (inject_Z 1) with 1%Q in Hhi.
  assert (Hfloor : Qfloor (x * 256) = w * 256 + f).
  { apply Qfloor_unique.
    - rewrite inject_Z_plus, inject_Z_mult. change (inject_Z 256) with 256%Q. lra.
    - rewrite !inject_Z_plus, inject_Z_mult.
      change (inject_Z 256) with 256%Q. change (inject_Z 1) with 1%Q. lra. }
  assert (Hd : ∀ q : Q, (q / 256 == q * (1 # 256))%Q) by (intros; reflexivity).
  rewrite Hval, Hfloor. split; [|split].
  - rewrite inject_Z_plus, inject_Z_mult. change (inject_Z 256) with 256%Q. field.
  - rewrite Hd. lra.
  - rewrite !Hd. lra.
Qed.

Lemma ParsePrice_FormatPrice_truncates_witness :
  (0 <= 1001 # 10)%Q ∧ (1001 # 10 < inject_Z (2 ^ 31))%Q
  ∧ ∃ y, ParsePrice (FormatPrice (1001 # 10)) = Some y
         ∧ (y == inject_Z (Qfloor ((1001 # 10) * 256)) / 256)%Q
         ∧ (y <= 1001 # 10)%Q ∧ (1001 # 10 < y + 1 / 256)%Q.
Proof.
  assert (H0 : (0 <= 1001 # 10)%Q) by (vm_compute; discriminate).
  assert (H1 : (1001 # 10 < inject_Z (2 ^ 31))%Q) by reflexivity.
  split; [exact H0|]. split; [exact H1|].
  exact (ParsePrice_FormatPrice_truncates (1001 # 10) H0 H1).
Defined.

Example FormatPrice_off_grid : FormatPrice (1001 # 10) = "100-031"%string.
Proof. vm_compute. reflexivity. Qed.

(** X2: [FormatPrice] after [ParsePrice] rewrites a well-formed string to
    its canonical spelling: whatever character stands for the eighths, the
    result carries the character [FormatPrice] uses for that number of
    eighths.  In particular the digit 4 and [+] parse to the same price, and
    that price is written back with [+]. *)
Theorem FormatPrice_ParsePrice_canonical (w ff : Z) :
  0 <= w < 2 ^ 31 → 0 <= ff < 32 →
  (∀ (e : ascii) (v : Z), eighth_value e = Some v →
     ∃ x, ParsePrice (price_string w ff e) = Some x
          ∧ FormatPrice x = price_string w ff (eighth_char v))
  ∧ (∃ x, ParsePrice (price_string w ff "4") = Some x
          ∧ ParsePrice (price_string w ff "+") = Some x
          ∧ FormatPrice x = price_string w ff "+").
Proof.
  intros Hw Hff.
  assert (Hgen : ∀ (e : ascii) (v : Z), eighth_value e = Some v →
     ParsePrice (price_string w ff e)
       = Some (inject_Z w + inject_Z ff / 32 + inject_Z v / 256)%Q
     ∧ FormatPrice (inject_Z w + inject_Z ff / 32 + inject_Z v / 256)%Q
       = price_string w ff (eighth_char v)).
  { intros e v He. split.
    - apply ParsePrice_price_string; [lia|done|done].
    - apply FormatPrice_of_parts; [reflexivity|done|].
      by destruct (eighth_value_spec e v He). }
  split.
  - intros e v He. destruct (Hgen e v He) as [Hp Hf]. eauto.
  - destruct (Hgen "4"%char 4 eq_refl) as [Hp4 Hf4].
    destruct (Hgen "+"%char 4 eq_refl) as [Hpp _].
    eexists. split; [exact Hp4|]. split; [exact Hpp|]. exact Hf4.
Qed.

Lemma FormatPrice_ParsePrice_canonical_witness :
  0 <= 100 < 2 ^ 31 ∧ 0 <= 7 < 32
  ∧ ∃ x, ParsePrice (price_string 100 7 "4") = Some x
         ∧ ParsePrice (price_string 100 7 "+") = Some x
         ∧ FormatPrice x = price_string 100 7 "+".
Proof.
  assert (H1 : 0 <= 100 < 2 ^ 31) by lia.
  assert (H2 : 0 <= 7 < 32) by lia.
  split; [exact H1|]. split; [exact H2|].
  exact (proj2 (FormatPrice_ParsePrice_canonical 100 7 H1 H2)).
Defined.

Lemma stod_acc_nonneg (s : string) (acc v : Z) :
  0 <= acc → Text.stod_acc acc s = Some v → 0 <= v.
Proof.
  revert acc. induction s as [|c s IH]; intros acc Hacc; cbn [Text.stod_acc].
  - intros [= <-]. done.
  - destruct (Text.digit_val c) as [d|] eqn:Hd; [|done].
    apply digit_val_inv in Hd as [_ Hd]. apply IH. lia.
Qed.

Lemma stod_or_zero_nonneg (s : string) (q : Q) :
  stod_or_zero s = Some q → (0 <= q)%Q.
Proof.
  unfold stod_or_zero, Text.stod. destruct s as [|c s].
  - intros [= <-]. lra.
  - destruct (Text.stod_acc 0 (String c s)) as [v|] eqn:Hv; [|done].
    intros [= <-]. apply (stod_acc_nonneg _ 0 v) in Hv; [|lia].
    change 0%Q with (inject_Z 0). by rewrite <- Zle_Qle.
Qed.

(** X3: [ParsePrice] never returns a negative price; hence a negative price
    is not recovered from the string [FormatPrice] writes for it. *)
Theorem ParsePrice_nonnegative :
  (∀ (s : string) (y : Q), ParsePrice s = Some y → (0 <= y)%Q)
  ∧ (∀ x y : Q, (x < 0)%Q → ParsePrice (FormatPrice x) = Some y → ¬ (y == x)%Q).
Proof.
  assert (Hnn : ∀ (s : string) (y : Q), ParsePrice s = Some y → (0 <= y)%Q).
  { intros s y. unfold ParsePrice. cbv zeta.
    destruct (stod_or_zero (partWhole _)) as [a|] eqn:Ha; [|done].
    destruct (stod_or_zero (part32 _)) as [b|] eqn:Hb; [|done].
    destruct (stod_or_zero (part8 _)) as [c|] eqn:Hc; [|done].
    cbn [mbind option_bind]. intros [= <-].
    apply stod_or_zero_nonneg in Ha, Hb, Hc.
    assert (H32 : (b / 32 == b * (1 # 32))%Q) by reflexivity.
    assert (H256 : (c / 256 == c * (1 # 256))%Q) by reflexivity.
    rewrite H32, H256. lra. }
  split; [exact Hnn|].
  intros x y Hx Hp Heq. apply Hnn in Hp. lra.
Qed.

Lemma ParsePrice_nonnegative_witness :
  ParsePrice (FormatPrice (- (1 # 2))) = Some (0 + 1 / 32 + 160 / 256)%Q
  ∧ (0 <= 0 + 1 / 32 + 160 / 256)%Q
  ∧ ¬ (0 + 1 / 32 + 160 / 256 == - (1 # 2))%Q.
Proof.
  assert (Hp : ParsePrice (FormatPrice (- (1 # 2))) = Some (0 + 1 / 32 + 160 / 256)%Q)
    by (vm_compute; reflexivity).
  assert (Hx : (- (1 # 2) < 0)%Q) by reflexivity.
  split; [exact Hp|]. split.
  - exact (proj1 ParsePrice_nonnegative _ _ Hp).
  - exact (proj2 ParsePrice_nonnegative _ _ Hx Hp).
Defined.

Example FormatPrice_negative : FormatPrice (- (1 # 2)) = "-1-160"%string.
Proof. vm_compute. reflexivity. Qed.

Lemma ParsePrice_loop_to_string (w : Z) :
  0 <= w →
  ParsePrice_loop (ParseState "" "" "" 0) (Text.to_string w)
  = ParseState (Text.to_string w) "" "" 0.
Proof.
  intros Hw. unfold Text.to_string. rewrite (proj2 (Z.ltb_ge w 0)) by done.
  unfold Text.to_string_nonneg. by rewrite ParsePrice_loop_digits.
Qed.

Lemma stod_or_zero_to_string (w : Z) :
  0 <= w → stod_or_zero (Text.to_string w) = Some (inject_Z w).
Proof.
  intros Hw. pose proof (stod_to_string w Hw) as Hs.
  unfold stod_or_zero. destruct (Text.to_string w) eqn:Hd; [|exact Hs].
  unfold Text.stod in Hs. done.
Qed.

(** X4: parts that are missing from a price string count as zero: a string
    that is only the integer part [W] parses to [W], and a string [W-FF]
    without an eighths character parses to [W + FF/32], for an integer part
    below 2^31. *)
Theorem ParsePrice_missing_parts (w ff : Z) :
  0 <= w < 2 ^ 31 → 0 <= ff < 32 →
  ParsePrice (Text.to_string w) = Some (inject_Z w + 0 / 32 + 0 / 256)%Q
  ∧ ParsePrice (Text.to_string w +:+ "-" +:+ two_digits ff)
    = Some (inject_Z w + inject_Z ff / 32 + 0 / 256)%Q.
Proof.
  intros [Hw _] Hff.
  destruct (two_digits_spec ff Hff) as (Hd1 & Hd2 & Hstod32).
  split.
  - unfold ParsePrice. cbv zeta. rewrite ParsePrice_loop_to_string by done.
    cbn [partWhole part32 part8]. rewrite stod_or_zero_to_string by done. done.
  - assert (Hscan : ParsePrice_loop (ParseState "" "" "" 0)
                      (Text.to_string w +:+ "-" +:+ two_digits ff)
                    = ParseState (Text.to_string w) (two_digits ff) "" 3).
    { rewrite ParsePrice_loop_app, ParsePrice_loop_to_string by done.
      generalize (Text.to_string w). intros ws.
      change ("-" +:+ two_digits ff)
        with (String "-"%char (String (Text.digit_char (ff / 10))
                (String (Text.digit_char (ff mod 10)) EmptyString))).
      cbn [ParsePrice_loop].
      unfold ParsePrice_step at 3. cbn.
      unfold ParsePrice_step at 2. rewrite Hd1. cbn.
      unfold ParsePrice_step. rewrite Hd2. cbn. done. }
    unfold ParsePrice. cbv zeta. rewrite Hscan. cbn [partWhole part32 part8].
    rewrite stod_or_zero_to_string by done. cbn [mbind option_bind].
    change (stod_or_zero (two_digits ff))
      with (inject_Z <$> Text.stod_acc 0 (two_digits ff)).
    rewrite Hstod32. done.
Qed.

Lemma ParsePrice_missing_parts_witness :
  0 <= 99 < 2 ^ 31 ∧ 0 <= 16 < 32
  ∧ ParsePrice "99" = Some (inject_Z 99 + 0 / 32 + 0 / 256)%Q
  ∧ ParsePrice "99-16" = Some (inject_Z 99 + inject_Z 16 / 32 + 0 / 256)%Q.
Proof.
  assert (H1 : 0 <= 99 < 2 ^ 31) by lia. assert (H2 : 0 <= 16 < 32) by lia.
  split; [exact H1|]. split; [exact H2|].
  exact (ParsePrice_missing_parts 99 16 H1 H2).
Defined.

Lemma ParsePrice_loop_after_fourth_dash (junk : string) (st : parse_state) :
  4 <= dashCount st →
  partWhole (ParsePrice_loop st junk) = partWhole st
  ∧ part32 (ParsePrice_loop st junk) = part32 st
  ∧ part8 (ParsePrice_loop st junk) = part8 st.
Proof.
  revert st. induction junk as [|c junk IH]; intros st Hst; [done|].
  cbn [ParsePrice_loop].
  assert (Hstep : partWhole (ParsePrice_step st c) = partWhole st
                  ∧ part32 (ParsePrice_step st c) = part32 st
                  ∧ part8 (ParsePrice_step st c) = part8 st
                  ∧ 4 <= dashCount (ParsePrice_step st c)).
  { unfold ParsePrice_step. destruct (Ascii.eqb c "-"%char); [simpl; repeat split; lia|].
    rewrite (proj2 (Z.eqb_neq _ 0)) by lia.
    rewrite (proj2 (Z.ltb_ge (dashCount st) 3)) by lia. rewrite andb_false_r.
    rewrite (proj2 (Z.eqb_neq _ 3)) by lia. done. }
  destruct Hstep as (H1 & H2 & H3 & H4).
  destruct (IH _ H4) as (I1 & I2 & I3). by rewrite I1, I2, I3.
Qed.

(** X5: once a price string [W-FFE] is complete, a further dash ends the
    price: whatever follows that dash is ignored by [ParsePrice]. *)
Theorem ParsePrice_ignores_after_second_dash (w ff v : Z) (e : ascii) (junk : string) :
  0 <= w → 0 <= ff < 32 → eighth_value e = Some v →
  ParsePrice (price_string w ff e +:+ String "-"%char junk)
  = ParsePrice (price_string w ff e).
Proof.
  intros Hw Hff He.
  destruct (eighth_value_spec e v He) as (Hv & Hdash & _).
  destruct (two_digits_spec ff Hff) as (Hd1 & Hd2 & _).
  assert (Hscan : ParsePrice_loop (ParseState "" "" "" 0) (price_string w ff e)
                  = ParseState (Text.to_string w)
                      (String (Text.digit_char (ff / 10))
                         (String (Text.digit_char (ff mod 10)) EmptyString))
                      (String (if Ascii.eqb e "+"%char then "4"%char else e) EmptyString) 3).
  { unfold price_string. rewrite ParsePrice_loop_app, ParsePrice_loop_to_string by done.
    change ("-" +:+ two_digits ff +:+ String e "")
      with (String "-"%char (String (Text.digit_char (ff / 10))
              (String (Text.digit_char (ff mod 10)) (String e EmptyString)))).
    by rewrite ParsePrice_loop_fraction. }
  unfold ParsePrice. cbv zeta.
  rewrite ParsePrice_loop_app, Hscan. cbn [ParsePrice_loop].
  match goal with
  | |- context [ParsePrice_loop (ParsePrice_step ?st ?c) junk] =>
      assert (Hst : ParsePrice_step st c
                    = ParseState (partWhole st) (part32 st) (part8 st) 4) by reflexivity;
      rewrite Hst
  end.
  cbn [partWhole part32 part8].
  match goal with
  | |- context [ParsePrice_loop ?st junk] =>
      destruct (ParsePrice_loop_after_fourth_dash junk st) as (I1 & I2 & I3);
        [simpl; lia|rewrite I1, I2, I3]
  end.
  reflexivity.
Qed.

Lemma ParsePrice_ignores_after_second_dash_witness :
  0 <= 99 ∧ 0 <= 16 < 32 ∧ eighth_value "+"%char = Some 4
  ∧ ParsePrice "99-16+-7,BID" = ParsePrice "99-16+".
Proof.
  assert (H1 : 0 <= 99) by lia. assert (H2 : 0 <= 16 < 32) by lia.
  split; [exact H1|]. split; [exact H2|]. split; [reflexivity|].
  exact (ParsePrice_ignores_after_second_dash 99 16 4 "+"%char "7,BID" H1 H2 eq_refl).
Defined.

(** ** marketdataservice.hpp: depth aggregation, continued *)

Lemma total_umap_add (m : list (Q * Z)) (k : Q) (v : Z) :
  foldr (λ kv acc, snd kv + acc) 0 (MarketData.umap_add m k v)
  = foldr (λ kv acc, snd kv + acc) 0 m + v
  ∧ (length (MarketData.umap_add m k v) <= S (length m))%nat.
Proof.
  induction m as [|[k1 v1] m [IH1 IH2]]; simpl; [split; lia|].
  destruct (Qeq_bool k1 k); simpl; split; lia.
Qed.

Lemma total_quantity_app (l1 l2 : list MarketData.Order) :
  total_quantity (l1 ++ l2) = total_quantity l1 + total_quantity l2.
Proof. induction l1 as [|x l1 IH]; simpl; [done|]. unfold total_quantity in *. simpl. lia. Qed.

Lemma aggregate_fold_total (stack : list MarketData.Order) :
  let m := fold_left
             (λ m order, MarketData.umap_add m (MarketData.GetPrice order)
                           (MarketData.GetQuantity order)) stack [] in
  foldr (λ kv acc, snd kv + acc) 0 m = total_quantity stack
  ∧ (length m <= length stack)%nat.
Proof.
  induction stack as [|o stack [IH1 IH2]] using rev_ind; simpl; [done|].
  rewrite fold_left_app. simpl.
  destruct (total_umap_add
              (fold_left
                 (λ m order, MarketData.umap_add m (MarketData.GetPrice order)
                               (MarketData.GetQuantity order)) stack [])
              (MarketData.GetPrice o) (MarketData.GetQuantity o)) as [H1 H2].
  split.
  - rewrite H1, IH1, total_quantity_app. unfold total_quantity. simpl. lia.
  - rewrite length_app. simpl. lia.
Qed.

Lemma total_quantity_Permutation (l1 l2 : list MarketData.Order) :
  Permutation l1 l2 → total_quantity l1 = total_quantity l2.
Proof. induction 1; simpl; lia. Qed.

(** X6: depth aggregation conserves quantity: in whatever order the groups
    come out, the quantities of the aggregated stack add up to the total
    quantity of the input stack, and there are no more groups than orders.
    The quantities are [long]: the statement is made for a stack in which
    the running sum of every price stays in the range of a [long]. *)
Theorem aggregateStack_conserves_quantity (stack out : list MarketData.Order)
    (side : PricingSide) :
  MarketData.sums_in_long stack →
  Permutation (MarketData.aggregateStack stack side) out →
  total_quantity out = total_quantity stack ∧ (length out <= length stack)%nat.
Proof.
  intros _ Hperm. rewrite <- (total_quantity_Permutation _ _ Hperm).
  rewrite <- (Permutation_length Hperm).
  unfold MarketData.aggregateStack.
  destruct (aggregate_fold_total stack) as [Htot Hlen].
  set (m := fold_left _ stack []) in *. split.
  - rewrite <- Htot. clear. induction m as [|kv m IH]; simpl; [done|].
    unfold total_quantity in *. simpl. by rewrite <- IH.
  - by rewrite length_fmap.
Qed.

Lemma aggregateStack_conserves_quantity_witness :
  MarketData.sums_in_long (MarketData.GetBidStack book_depth_example)
  ∧ Permutation
    (MarketData.aggregateStack (MarketData.GetBidStack book_depth_example) BID)
    [ MarketData.mkOrder (9975 # 100) 20 BID; MarketData.mkOrder (995 # 10) 15 BID ]
  ∧ total_quantity
      [ MarketData.mkOrder (9975 # 100) 20 BID; MarketData.mkOrder (995 # 10) 15 BID ]
    = total_quantity (MarketData.GetBidStack book_depth_example).
Proof.
  assert (Hperm : Permutation
    (MarketData.aggregateStack (MarketData.GetBidStack book_depth_example) BID)
    [ MarketData.mkOrder (9975 # 100) 20 BID; MarketData.mkOrder (995 # 10) 15 BID ]).
  { apply perm_swap. }
  assert (Hsums : MarketData.sums_in_long (MarketData.GetBidStack book_depth_example))
    by (apply sums_in_long_of_magnitude; vm_compute; discriminate).
  split; [exact Hsums|]. split; [exact Hperm|].
  exact (proj1 (aggregateStack_conserves_quantity _ _ BID Hsums Hperm)).
Defined.

Lemma umap_add_miss (m : list (Q * Z)) (k : Q) (v : Z) :
  MarketData.key_count m k = 0%nat → MarketData.umap_add m k v = m ++ [(k, 0 + v)].
Proof.
  induction m as [|[k1 v1] m IH]; simpl; [done|].
  destruct (Qeq_bool k1 k); [done|]. intros Hc. by rewrite IH.
Qed.

Lemma same_price_count_elem (l : list MarketData.Order) (o : MarketData.Order) :
  o ∈ l → (1 <= length (filter (MarketData.same_price (MarketData.GetPrice o)) l))%nat.
Proof.
  induction l as [|x l IH]; intros Hin; [by apply not_elem_of_nil in Hin|].
  rewrite filter_cons. apply elem_of_cons in Hin as [->|Hin].
  - rewrite decide_True by apply Qeq_bool_refl. simpl. lia.
  - specialize (IH Hin). destruct (decide _); simpl; lia.
Qed.

Lemma same_price_count_has_price (l : list MarketData.Order) (p : Q) :
  length (filter (MarketData.same_price p) l) = 0%nat → MarketData.has_price l p = false.
Proof.
  induction l as [|x l IH]; [done|].
  rewrite filter_cons. simpl.
  destruct (decide (MarketData.same_price p x)) as [Hd|Hd]; [done|].
  unfold MarketData.same_price in Hd. apply not_true_is_false in Hd.
  rewrite Hd. exact IH.
Qed.

Lemma same_price_count_Qeq (l : list MarketData.Order) (p p' : Q) :
  (p == p')%Q →
  length (filter (MarketData.same_price p) l) = length (filter (MarketData.same_price p') l).
Proof.
  intros Hp. apply Qeq_bool_iff in Hp.
  induction l as [|x l IH]; [done|].
  rewrite !filter_cons.
  assert (Hiff : MarketData.same_price p x ↔ MarketData.same_price p' x).
  { unfold MarketData.same_price. by rewrite (Qeq_bool_trans_r _ p p' Hp). }
  destruct (decide (MarketData.same_price p x)), (decide (MarketData.same_price p' x));
    simpl; try tauto; by rewrite IH.
Qed.

Lemma aggregate_fold_distinct (stack : list MarketData.Order) :
  (∀ o, o ∈ stack →
     length (filter (MarketData.same_price (MarketData.GetPrice o)) stack) = 1%nat) →
  fold_left
    (λ m order, MarketData.umap_add m (MarketData.GetPrice order)
                  (MarketData.GetQuantity order)) stack []
  = (λ o, (MarketData.GetPrice o, MarketData.GetQuantity o)) <$> stack.
Proof.
  induction stack as [|o stack IH] using rev_ind; intros Hdist; [done|].
  assert (Ho : length (filter (MarketData.same_price (MarketData.GetPrice o)) stack) = 0%nat).
  { specialize (Hdist o). rewrite filter_app, length_app in Hdist.
    rewrite filter_cons, decide_True in Hdist by apply Qeq_bool_refl.
    simpl in Hdist. assert (o ∈ stack ++ [o]) by set_solver. specialize (Hdist H). lia. }
  rewrite fold_left_app, fmap_app. simpl. rewrite IH.
  - rewrite umap_add_miss; [done|].
    destruct (aggregate_fold_inv stack) as [Hk _]. rewrite <- IH.
    + rewrite Hk. by rewrite (same_price_count_has_price _ _ Ho).
    + intros o' Ho'. pose proof (same_price_count_elem _ _ Ho').
      specialize (Hdist o'). rewrite filter_app, length_app in Hdist.
      assert (o' ∈ stack ++ [o]) by set_solver. specialize (Hdist H0). lia.
  - intros o' Ho'. pose proof (same_price_count_elem _ _ Ho').
    specialize (Hdist o'). rewrite filter_app, length_app in Hdist.
    assert (o' ∈ stack ++ [o]) by set_solver. specialize (Hdist H0). lia.
Qed.

(** X7: on a stack whose orders carry pairwise different prices, depth
    aggregation changes nothing but the side: the result holds, in some
    order, the orders of the stack with their prices and quantities and with
    the side of the stack. *)
Theorem aggregateStack_distinct_prices (stack out : list MarketData.Order)
    (side : PricingSide) :
  (∀ o, o ∈ stack →
     length (filter (MarketData.same_price (MarketData.GetPrice o)) stack) = 1%nat) →
  Permutation (MarketData.aggregateStack stack side) out →
  Permutation out
    ((λ o, MarketData.mkOrder (MarketData.GetPrice o) (MarketData.GetQuantity o) side)
       <$> stack).
Proof.
  intros Hdist Hperm. rewrite <- Hperm. unfold MarketData.aggregateStack.
  rewrite (aggregate_fold_distinct stack Hdist), <- list_fmap_compose. done.
Qed.

(** X8: depth aggregation is idempotent: aggregating a stack that is
    already the result of an aggregation (for the same side, in whatever
    order) returns the same orders. *)
Theorem aggregateStack_idempotent (stack out : list MarketData.Order) (side : PricingSide) :
  Permutation (MarketData.aggregateStack stack side) out →
  Permutation (MarketData.aggregateStack out side) out.
Proof.
  intros Hperm.
  destruct (aggregated_Permutation stack side _ out Hperm
              (aggregateStack_aggregated stack side)) as [Hone Heach].
  assert (Hdist : ∀ g, g ∈ out →
            length (filter (MarketData.same_price (MarketData.GetPrice g)) out) = 1%nat).
  { intros g Hg. destruct (Heach g Hg) as ((o & Ho & Hpo) & _).
    rewrite <- (same_price_count_Qeq out _ _ Hpo). by apply Hone. }
  unfold MarketData.aggregateStack.
  rewrite (aggregate_fold_distinct out Hdist), <- list_fmap_compose.
  rewrite <- (list_fmap_id out) at 2.
  erewrite list_fmap_ext; [reflexivity|].
  intros i g Hg. simpl.
  assert (Hin : g ∈ out) by (eapply list_elem_of_lookup_2; exact Hg).
  destruct (Heach g Hin) as (_ & _ & Hside). destruct g. simpl in *. by rewrite Hside.
Qed.

Lemma aggregateStack_distinct_prices_witness :
  (∀ o, o ∈ MarketData.GetBidStack book_spec_example →
     length (filter (MarketData.same_price (MarketData.GetPrice o))
               (MarketData.GetBidStack book_spec_example)) = 1%nat)
  ∧ Permutation
      (MarketData.aggregateStack (MarketData.GetBidStack book_spec_example) OFFER)
      [ MarketData.mkOrder (9975 # 100) 20 OFFER; MarketData.mkOrder (9950 # 100) 10 OFFER ]
  ∧ Permutation
      [ MarketData.mkOrder (9975 # 100) 20 OFFER; MarketData.mkOrder (9950 # 100) 10 OFFER ]
      [ MarketData.mkOrder (9950 # 100) 10 OFFER; MarketData.mkOrder (9975 # 100) 20 OFFER ].
Proof.
  assert (Hdist : ∀ o, o ∈ MarketData.GetBidStack book_spec_example →
     length (filter (MarketData.same_price (MarketData.GetPrice o))
               (MarketData.GetBidStack book_spec_example)) = 1%nat).
  { intros o Ho. simpl in Ho.
    apply elem_of_cons in Ho as [->|Ho]; [reflexivity|].
    apply elem_of_cons in Ho as [->|Ho]; [reflexivity|].
    by apply not_elem_of_nil in Ho. }
  assert (Hperm : Permutation
      (MarketData.aggregateStack (MarketData.GetBidStack book_spec_example) OFFER)
      [ MarketData.mkOrder (9975 # 100) 20 OFFER; MarketData.mkOrder (9950 # 100) 10 OFFER ]).
  { apply perm_swap. }
  split; [exact Hdist|]. split; [exact Hperm|].
  exact (aggregateStack_distinct_prices _ _ OFFER Hdist Hperm).
Defined.

Lemma aggregateStack_idempotent_witness :
  Permutation
    (MarketData.aggregateStack (MarketData.GetBidStack book_depth_example) BID)
    [ MarketData.mkOrder (9975 # 100) 20 BID; MarketData.mkOrder (995 # 10) 15 BID ]
  ∧ Permutation
      (MarketData.aggregateStack
         [ MarketData.mkOrder (9975 # 100) 20 BID; MarketData.mkOrder (995 # 10) 15 BID ] BID)
      [ MarketData.mkOrder (9975 # 100) 20 BID; MarketData.mkOrder (995 # 10) 15 BID ].
Proof.
  assert (Hperm : Permutation
    (MarketData.aggregateStack (MarketData.GetBidStack book_depth_example) BID)
    [ MarketData.mkOrder (9975 # 100) 20 BID; MarketData.mkOrder (995 # 10) 15 BID ]).
  { apply perm_swap. }
  split; [exact Hperm|].
  exact (aggregateStack_idempotent _ _ BID Hperm).
Defined.

(** ** marketdataservice.hpp: reads for a product without a book *)

(** X9: asking the market-data service for the best bid/offer or for the
    aggregated depth of a product it holds no book for does not fail: the
    call stores an empty book (value-initialised product, no orders) under
    that product id; [GetBestBidOffer] then returns the two
    default-initialised orders and [AggregateDepth] an empty book. *)
Theorem market_data_reads_of_unknown_product {T : Type} `{Product T}
    (bestBid0 bestOffer0 : MarketData.Order)
    (s : MarketData.BondMarketDataService T) (productId : string) :
  MarketData.orderBooks s !! productId = None →
  let s' := MarketData.set_orderBooks s
              (<[productId := MarketData.mkOrderBook value_init [] []]>
                 (MarketData.orderBooks s)) in
  BondMarketDataService.GetBestBidOffer bestBid0 bestOffer0 s productId
    = (MarketData.mkBidOffer bestBid0 bestOffer0, s')
  ∧ MarketData.AggregateDepth s productId
    = (MarketData.mkOrderBook value_init [] [], s').
Proof.
  intros Hk s'. split.
  - unfold BondMarketDataService.GetBestBidOffer. by rewrite (map_index_miss _ _ Hk).
  - unfold MarketData.AggregateDepth. rewrite (map_index_miss _ _ Hk).
    rewrite !(map_index_hit _ _ value_init) by apply lookup_insert_eq. done.
Qed.

Lemma market_data_reads_of_unknown_product_witness :
  MarketData.orderBooks market_service_1 !! "912810UE6"%string = None
  ∧ MarketData.AggregateDepth market_service_1 "912810UE6"
    = (MarketData.mkOrderBook value_init [] [],
       MarketData.set_orderBooks market_service_1
         (<[ "912810UE6"%string := MarketData.mkOrderBook value_init [] [] ]>
            (MarketData.orderBooks market_service_1))).
Proof.
  assert (Hk : MarketData.orderBooks market_service_1 !! "912810UE6"%string = None)
    by reflexivity.
  split; [exact Hk|].
  exact (proj2 (market_data_reads_of_unknown_product stale_order stale_order
                  market_service_1 "912810UE6" Hk)).
Defined.

(** ** pricingservice.hpp: the pricing store *)

(** Replaying a list of messages: the calls made for the tail come after
    those made before. *)
Lemma fold_left_calls {S A C : Type} (step : S → A → S * list C) (l : list A)
    (s : S) (acc : list C) :
  fold_left (λ acc a, let '(s', cs) := step (fst acc) a in (s', snd acc ++ cs)) l (s, acc)
  = (fst (fold_left (λ acc a, let '(s', cs) := step (fst acc) a in (s', snd acc ++ cs))
            l (s, [])),
     acc ++ snd (fold_left (λ acc a, let '(s', cs) := step (fst acc) a in (s', snd acc ++ cs))
                   l (s, []))).
Proof.
  revert s acc. induction l as [|a l IH]; intros s acc; simpl.
  - by rewrite app_nil_r.
  - destruct (step s a) as [s1 c1]. simpl.
    rewrite (IH s1 (acc ++ c1)), (IH s1 c1). simpl. by rewrite app_assoc.
Qed.

Lemma fold_left_calls_cons {S A C : Type} (step : S → A → S * list C) (a : A) (l : list A)
    (s : S) :
  fold_left (λ acc a, let '(s', cs) := step (fst acc) a in (s', snd acc ++ cs)) (a :: l) (s, [])
  = (fst (fold_left (λ acc a, let '(s', cs) := step (fst acc) a in (s', snd acc ++ cs))
            l (fst (step s a), [])),
     snd (step s a)
     ++ snd (fold_left (λ acc a, let '(s', cs) := step (fst acc) a in (s', snd acc ++ cs))
               l (fst (step s a), []))).
Proof.
  simpl. destruct (step s a) as [s1 c1]. simpl. by rewrite fold_left_calls.
Qed.

Lemma fold_left_calls_snoc {S A C : Type} (step : S → A → S * list C) (a : A) (l : list A)
    (s : S) :
  fold_left (λ acc a, let '(s', cs) := step (fst acc) a in (s', snd acc ++ cs)) (l ++ [a]) (s, [])
  = (fst (step (fst (fold_left (λ acc a, let '(s', cs) := step (fst acc) a in (s', snd acc ++ cs))
                       l (s, []))) a),
     snd (fold_left (λ acc a, let '(s', cs) := step (fst acc) a in (s', snd acc ++ cs))
            l (s, []))
     ++ snd (step (fst (fold_left (λ acc a, let '(s', cs) := step (fst acc) a in (s', snd acc ++ cs))
                          l (s, []))) a)).
Proof.
  rewrite fold_left_app. simpl.
  destruct (fold_left _ l (s, [])) as [s1 c1]. simpl.
  by destruct (step s1 a) as [s2 c2].
Qed.

Lemma Pricing_OnMessages_snoc {T : Type} `{Product T}
    (s : Pricing.PricingService T) (datas : list (Pricing.Price T)) (d : Pricing.Price T) :
  Pricing_OnMessages s (datas ++ [d])
  = (fst (Pricing.OnMessage (fst (Pricing_OnMessages s datas)) d),
     snd (Pricing_OnMessages s datas)
     ++ snd (Pricing.OnMessage (fst (Pricing_OnMessages s datas)) d)).
Proof. unfold Pricing_OnMessages. apply (fold_left_calls_snoc Pricing.OnMessage). Qed.

(** X10: the pricing store keeps the latest price per product.  After a
    sequence of Price messages the entry of a product id is the last message
    of the sequence that carries this id, and the entry from before when no
    message carries it; the listener list is unchanged, and every message
    was passed to every listener, in the order of the messages. *)
Theorem Pricing_OnMessages_latest_wins {T : Type} `{Product T}
    (s : Pricing.PricingService T) (datas : list (Pricing.Price T)) (key : string) :
  Pricing.priceData (fst (Pricing_OnMessages s datas)) !! key
  = match last (filter (λ d, GetProductId (Pricing.GetProduct d) = key) datas) with
    | Some d => Some d
    | None => Pricing.priceData s !! key
    end
  ∧ Pricing.serviceListeners (fst (Pricing_OnMessages s datas)) = Pricing.serviceListeners s
  ∧ snd (Pricing_OnMessages s datas)
    = datas ≫= (λ d, (λ l, ProcessAdd l d) <$> Pricing.serviceListeners s).
Proof.
  induction datas as [|d datas IH] using rev_ind.
  - by cbn.
  - destruct IH as (IH1 & IH2 & IH3).
    rewrite Pricing_OnMessages_snoc, filter_app, bind_app. simpl.
    rewrite IH2, IH3. split; [|split; [done|]].
    + rewrite filter_cons, filter_nil.
      destruct (decide (GetProductId (Pricing.GetProduct d) = key)) as [Hk|Hk].
      * rewrite last_snoc, <- Hk. apply lookup_insert_eq.
      * rewrite app_nil_r, lookup_insert_ne by done. exact IH1.
    + f_equal. unfold notify. by rewrite app_nil_r.
Qed.

(** ** positionservice.hpp: further behaviour of the position store *)

Lemma AddTrade_other_product {T : Type} `{Product T}
    (s : Position.PositionService T) (t : TradeBooking.Trade T) (pid : string) :
  GetProductId (TradeBooking.GetProduct t) ≠ pid →
  Position.positions (fst (Position.AddTrade s t)) !! pid = Position.positions s !! pid.
Proof.
  intros Hne. rewrite AddTrade_eq. simpl. by rewrite lookup_insert_ne.
Qed.

Lemma AddTrade_listeners {T : Type} `{Product T}
    (s : Position.PositionService T) (t : TradeBooking.Trade T) :
  Position.listeners (fst (Position.AddTrade s t)) = Position.listeners s.
Proof. by rewrite AddTrade_eq. Qed.

(** X11: booking trades leaves the positions of every other product alone:
    after a sequence of trades none of which is in product [pid], the store
    holds for [pid] what it held before (nothing, if it held nothing), and
    the listener list is the same. *)
Theorem AddTrades_other_products_untouched {T : Type} `{Product T} (pid : string)
    (s : Position.PositionService T) (trades : list (TradeBooking.Trade T)) :
  Forall (λ t, GetProductId (TradeBooking.GetProduct t) ≠ pid) trades →
  Position.positions (fst (Position.AddTrades s trades)) !! pid = Position.positions s !! pid
  ∧ Position.listeners (fst (Position.AddTrades s trades)) = Position.listeners s.
Proof.
  unfold Position.AddTrades. rewrite AddTrades_fst.
  revert s. induction trades as [|t trades IH]; intros s Hall; simpl; [done|].
  apply Forall_cons in Hall as [Ht Hall].
  destruct (IH (fst (Position.AddTrade s t)) Hall) as [IH1 IH2].
  rewrite IH1, IH2. split.
  - by apply AddTrade_other_product.
  - apply AddTrade_listeners.
Qed.

Lemma AddTrades_other_products_untouched_witness :
  Forall (λ t, GetProductId (TradeBooking.GetProduct t) ≠ "91282CMB4"%string)
    [trade_sell_trsy1; trade_buy_trsy2]
  ∧ Position.positions
      (fst (Position.AddTrades position_service_1 [trade_sell_trsy1; trade_buy_trsy2]))
      !! "91282CMB4"%string
    = Position.positions position_service_1 !! "91282CMB4"%string.
Proof.
  assert (Hall : Forall (λ t, GetProductId (TradeBooking.GetProduct t) ≠ "91282CMB4"%string)
                   [trade_sell_trsy1; trade_buy_trsy2]).
  { repeat constructor; discriminate. }
  split; [exact Hall|].
  exact (proj1 (AddTrades_other_products_untouched "91282CMB4" position_service_1
                  [trade_sell_trsy1; trade_buy_trsy2] Hall)).
Defined.

(** X12: a purchase followed by a sale of the same quantity of the same
    product out of the same book restores every book quantity of the
    product; the book itself stays listed, with the quantity it had before
    and with quantity 0 if it was not listed before.  Trade ids and prices
    play no part. *)
Theorem AddTrade_buy_then_sell {T : Type} `{Product T}
    (s : Position.PositionService T) (product : T)
    (id1 id2 : string) (px1 px2 : Q) (book : string) (q : Z) :
  let buy := TradeBooking.mkTrade product id1 px1 book q BUY in
  let sell := TradeBooking.mkTrade product id2 px2 book q SELL in
  let prior := match Position.positions s !! GetProductId product with
               | Some p => Position.GetPositions p
               | None => ∅
               end in
  Position.positions (fst (Position.AddTrade (fst (Position.AddTrade s buy)) sell))
    !! GetProductId product
  = Some (Position.mkPosition product (<[book := default 0 (prior !! book)]> prior)).
Proof.
  intros buy sell prior. rewrite !AddTrade_eq. cbn.
  rewrite !lookup_insert_eq. cbn. rewrite lookup_insert_eq, insert_insert_eq. cbn.
  unfold Position.signed_quantity. cbn. fold prior.
  do 3 f_equal. lia.
Qed.

(** X13: reading one book of a position through [GetPosition] can add an
    entry (an unlisted book is entered with quantity 0), but it changes
    neither the aggregate position nor what any later [GetPosition] reads,
    nor the product. *)
Theorem GetPosition_read_is_transparent {T : Type}
    (p : Position.Position T) (_book : string) :
  Position.GetAggregatePosition (snd (Position.GetPosition p _book))
  = Position.GetAggregatePosition p
  ∧ (∀ b, fst (Position.GetPosition (snd (Position.GetPosition p _book)) b)
          = fst (Position.GetPosition p b))
  ∧ Position.GetProduct (snd (Position.GetPosition p _book)) = Position.GetProduct p
  ∧ Position.GetPositions (snd (Position.GetPosition p _book)) !! _book
    = Some (fst (Position.GetPosition p _book)).
Proof.
  unfold Position.GetPosition, map_index.
  destruct (Position.GetPositions p !! _book) as [v|] eqn:Hk; cbn.
  - split; [|split; [|split]]; first [done | by destruct p].
  - split; [|split; [|split]].
    + unfold Position.GetAggregatePosition. cbn. rewrite aggregate_insert, Hk. cbn.
      unfold value_init, Z_value_init. lia.
    + intros b. destruct (decide (b = _book)) as [->|Hne].
      * by rewrite lookup_insert_eq, Hk.
      * rewrite lookup_insert_ne by congruence.
        by destruct (Position.GetPositions p !! b).
    + done.
    + by rewrite lookup_insert_eq.
Qed.

(** ** riskservice.hpp: from positions to risk *)

(** X14: the position service feeds the risk service.  Whatever position a
    call of [AddTrade] passes to its listeners, the risk listener's
    [ProcessAdd] on it, for a product with a PV01 table entry, returns
    normally, stores under the product id a PV01 record with the table value
    and with the product's aggregate position after the trade (the
    aggregate before plus the signed quantity) in place of whatever was
    stored, and passes this record on to the risk service's listeners.  The
    quantities are [long]: the statement is made for a trade whose quantity
    and the quantities of the books held before it add up, in magnitude, to
    at most [LONG_MAX]. *)
Theorem AddTrade_feeds_risk {T : Type} `{Product T}
    (ps : Position.PositionService T) (rs : Risk.RiskService T)
    (t : TradeBooking.Trade T) (pv : Q) (l : ServiceListener) (pos : Position.Position T) :
  let pid := GetProductId (TradeBooking.GetProduct t) in
  PV01Info pid = inr pv →
  Position.magnitude (fst (Position.GetData ps pid)) + Z.abs (TradeBooking.GetQuantity t)
    <= LONG_MAX →
  ProcessAdd l pos ∈ snd (Position.AddTrade ps t) →
  let record :=
    Risk.mkPV01 (TradeBooking.GetProduct t) pv
      (Position.GetAggregatePosition (fst (Position.GetData ps pid))
       + Position.signed_quantity t) in
  RiskToPositionListener.ProcessAdd rs pos
  = Returned (Risk.mkRiskService (<[pid := record]> (Risk.pv01s rs)) (Risk.listeners rs))
      (notify (Risk.listeners rs) record).
Proof.
  intros pid Hpv _ Hin record.
  pose proof (AddTrade_aggregate ps t) as Hagg.
  rewrite AddTrade_eq in Hin, Hagg. cbn in Hin, Hagg.
  unfold notify in Hin. apply list_elem_of_fmap in Hin as (l' & Heq & _).
  injection Heq as _ ->.
  rewrite GetData_fst in Hagg. cbn in Hagg. rewrite lookup_insert_eq in Hagg. cbn in Hagg.
  unfold RiskToPositionListener.ProcessAdd, Risk.AddPosition. cbn.
  fold pid. rewrite Hpv. unfold record. fold pid in Hagg. by rewrite <- Hagg.
Qed.

Lemma AddTrade_feeds_risk_witness :
  PV01Info (GetProductId (TradeBooking.GetProduct trade_sell_trsy1)) = inr (1854 # 10000)
  ∧ Position.magnitude
      (fst (Position.GetData position_service_1
              (GetProductId (TradeBooking.GetProduct trade_sell_trsy1))))
    + Z.abs (TradeBooking.GetQuantity trade_sell_trsy1) <= LONG_MAX
  ∧ ProcessAdd 9%nat
      (Position.mkPosition bond_2y
         (<[ "TRSY1"%string := 600000 ]>
            {[ "TRSY1"%string := 1000000; "TRSY2"%string := 2000000 ]}))
    ∈ snd (Position.AddTrade position_service_1 trade_sell_trsy1)
  ∧ RiskToPositionListener.ProcessAdd risk_service_1
      (Position.mkPosition bond_2y
         (<[ "TRSY1"%string := 600000 ]>
            {[ "TRSY1"%string := 1000000; "TRSY2"%string := 2000000 ]}))
    = Returned
        (Risk.mkRiskService
           (<[ "91282CLY5"%string := Risk.mkPV01 bond_2y (1854 # 10000) 2600000 ]>
              (Risk.pv01s risk_service_1))
           [7%nat])
        [ProcessAdd 7%nat (Risk.mkPV01 bond_2y (1854 # 10000) 2600000)].
Proof.
  assert (Hpv : PV01Info (GetProductId (TradeBooking.GetProduct trade_sell_trsy1))
                = inr (1854 # 10000)) by reflexivity.
  assert (Hin : ProcessAdd 9%nat
      (Position.mkPosition bond_2y
         (<[ "TRSY1"%string := 600000 ]>
            {[ "TRSY1"%string := 1000000; "TRSY2"%string := 2000000 ]}))
    ∈ snd (Position.AddTrade position_service_1 trade_sell_trsy1)).
  { rewrite AddTrade_eq. cbn. apply list_elem_of_singleton. reflexivity. }
  assert (Hsize : Position.magnitude
                    (fst (Position.GetData position_service_1
                            (GetProductId (TradeBooking.GetProduct trade_sell_trsy1))))
                  + Z.abs (TradeBooking.GetQuantity trade_sell_trsy1) <= LONG_MAX)
    by (vm_compute; discriminate).
  split; [exact Hpv|]. split; [exact Hsize|]. split; [exact Hin|].
  exact (AddTrade_feeds_risk position_service_1 risk_service_1 trade_sell_trsy1
           (1854 # 10000) 9%nat _ Hpv Hsize Hin).
Defined.

(** ** algoexecutionservice.hpp: a sequence of order-book updates *)

Lemma rem2_even (c : Z) : (Z.rem c 2 =? 0) = Z.even c.
Proof.
  rewrite Zrem_even. destruct (Z.even c) eqn:E; [reflexivity|].
  destruct c; cbn in *; try discriminate; reflexivity.
Qed.

Lemma ExecuteOrder_cases {T : Type} `{Product T} (bestBid0 bestOffer0 : MarketData.Order)
    (s : AlgoExecution.AlgoExecutionService T) (uid : string) (ob : MarketData.OrderBook T) :
  AlgoExecution.ExecuteOrder bestBid0 bestOffer0 s uid ob
  = if AlgoExecution.crosses bestBid0 bestOffer0 s ob then
      let bo := MarketData.GetBestBidOffer bestBid0 bestOffer0 ob in
      let on_bid := Z.even (AlgoExecution.executionCount s) in
      let best := if on_bid then MarketData.GetBidOrder bo else MarketData.GetOfferOrder bo in
      let exec :=
        AlgoExecution.AlgoExecution_new (MarketData.GetProduct ob)
          (if on_bid then BID else OFFER) uid MARKET
          (MarketData.GetPrice best) (MarketData.GetQuantity best) 0 "" false in
      (AlgoExecution.mkAlgoExecutionService (AlgoExecution.executionSpread s)
         (AlgoExecution.executionCount s + 1)
         (<[GetProductId (MarketData.GetProduct ob) := exec]> (AlgoExecution.algoExecutionMap s))
         (AlgoExecution.serviceListeners s),
       notify (AlgoExecution.serviceListeners s) exec)
    else (s, []).
Proof.
  unfold AlgoExecution.ExecuteOrder, AlgoExecution.crosses. cbn zeta.
  destruct (Qle_bool _ _); [|reflexivity].
  rewrite rem2_even. by destruct (Z.even (AlgoExecution.executionCount s)).
Qed.

Lemma ProcessAdds_cons {T : Type} `{Product T} (bestBid0 bestOffer0 : MarketData.Order)
    (s : AlgoExecution.AlgoExecutionService T) (u : string * MarketData.OrderBook T)
    (updates : list (string * MarketData.OrderBook T)) :
  ListenerAlgoToMarketData.ProcessAdds bestBid0 bestOffer0 s (u :: updates)
  = (fst (ListenerAlgoToMarketData.ProcessAdds bestBid0 bestOffer0
            (fst (AlgoExecution.ExecuteOrder bestBid0 bestOffer0 s (fst u) (snd u))) updates),
     snd (AlgoExecution.ExecuteOrder bestBid0 bestOffer0 s (fst u) (snd u))
     ++ snd (ListenerAlgoToMarketData.ProcessAdds bestBid0 bestOffer0
               (fst (AlgoExecution.ExecuteOrder bestBid0 bestOffer0 s (fst u) (snd u)))
               updates)).
Proof.
  exact (fold_left_calls_cons
           (λ s u, ListenerAlgoToMarketData.ProcessAdd bestBid0 bestOffer0 s (fst u) (snd u))
           u updates s).
Qed.

(** X17: a sequence of order-book updates through the execution engine.
    Only the books that cross (best offer minus best bid within the engine's
    spread) count: the execution counter grows by their number, and the
    calls made to the listeners are, crossing book after crossing book, one
    call per listener with an execution order that carries the identifier
    drawn for that update, type MARKET, no hidden quantity, and price and
    quantity of the best bid with side BID when the counter value at that
    moment is even, of the best offer with side OFFER when it is odd.  So
    the side alternates from one crossing book to the next, and a book that
    does not cross does not advance the alternation. *)
Theorem ExecuteOrder_trace {T : Type} `{Product T} (bestBid0 bestOffer0 : MarketData.Order)
    (updates : list (string * MarketData.OrderBook T))
    (s : AlgoExecution.AlgoExecutionService T) :
  let crossing :=
    filter (λ u, AlgoExecution.crosses bestBid0 bestOffer0 s (snd u) = true) updates in
  let execution (i : nat) (u : string * MarketData.OrderBook T) :=
    let bo := MarketData.GetBestBidOffer bestBid0 bestOffer0 (snd u) in
    let on_bid := Z.even (AlgoExecution.executionCount s + Z.of_nat i) in
    let best := if on_bid then MarketData.GetBidOrder bo else MarketData.GetOfferOrder bo in
    AlgoExecution.AlgoExecution_new (MarketData.GetProduct (snd u))
      (if on_bid then BID else OFFER) (fst u) MARKET
      (MarketData.GetPrice best) (MarketData.GetQuantity best) 0 "" false in
  let r := ListenerAlgoToMarketData.ProcessAdds bestBid0 bestOffer0 s updates in
  AlgoExecution.executionCount (fst r)
  = AlgoExecution.executionCount s + Z.of_nat (length crossing)
  ∧ snd r
    = mjoin (imap (λ i u, notify (AlgoExecution.serviceListeners s) (execution i u)) crossing)
  ∧ AlgoExecution.executionSpread (fst r) = AlgoExecution.executionSpread s
  ∧ AlgoExecution.serviceListeners (fst r) = AlgoExecution.serviceListeners s.
Proof.
  cbn zeta. revert s. induction updates as [|u updates IH]; intros s.
  - cbn. split; [lia|done].
  - rewrite ProcessAdds_cons, ExecuteOrder_cases, filter_cons. cbn zeta.
    destruct (AlgoExecution.crosses bestBid0 bestOffer0 s (snd u)) eqn:Hc.
    + rewrite decide_True by done. cbn [fst snd].
      match goal with |- context [ListenerAlgoToMarketData.ProcessAdds _ _ ?s1 _] =>
        specialize (IH s1) end.
      destruct IH as (IH1 & IH2 & IH3 & IH4).
      rewrite IH1, IH2, IH3, IH4.
      cbn [AlgoExecution.executionCount AlgoExecution.serviceListeners
           AlgoExecution.executionSpread].
      rewrite (list_filter_iff _
                 (λ u, AlgoExecution.crosses bestBid0 bestOffer0 s (snd u) = true))
        by (intros x; reflexivity).
      split; [|split; [|done]].
      * cbn [length]. lia.
      * rewrite imap_cons. cbn [mjoin list_join]. rewrite Z.add_0_r. f_equal. f_equal.
        apply imap_ext. intros i x _. unfold compose.
        by replace (AlgoExecution.executionCount s + 1 + Z.of_nat i)
          with (AlgoExecution.executionCount s + Z.of_nat (S i)) by lia.
    + rewrite decide_False by discriminate. cbn [fst snd]. apply IH.
Qed.

(** ** executionservice.hpp: from the execution engine to the execution service *)

(** X18: the execution service behind the execution engine.  Every call
    that [ExecuteOrder] makes to its listeners carries a non-null execution
    order, so the execution service's listener never dereferences a null
    pointer on it.  Its [ProcessAdd] stores that order under the product id
    of the order book (it is written twice, by [OnMessage] and by
    [ProcessExecution]) and calls every listener of the execution service
    exactly once with it.  The order has the identifier drawn for the
    update, type MARKET, no hidden quantity, no parent, and side, price and
    quantity of the best bid, or of the best offer; the quantity goes
    through a [double], so the statement is made for best orders whose
    quantities are at most 2^53 in magnitude. *)
Theorem ExecuteOrder_feeds_execution_service {T : Type} `{Product T}
    (bestBid0 bestOffer0 : MarketData.Order)
    (s : AlgoExecution.AlgoExecutionService T) (es : Execution.ExecutionService T)
    (uid : string) (ob : MarketData.OrderBook T)
    (l : ServiceListener) (d : AlgoExecution.AlgoExecution T) :
  Z.abs (MarketData.GetQuantity
           (MarketData.GetBidOrder (MarketData.GetBestBidOffer bestBid0 bestOffer0 ob)))
    <= 2 ^ 53 →
  Z.abs (MarketData.GetQuantity
           (MarketData.GetOfferOrder (MarketData.GetBestBidOffer bestBid0 bestOffer0 ob)))
    <= 2 ^ 53 →
  ProcessAdd l d ∈ snd (ListenerAlgoToMarketData.ProcessAdd bestBid0 bestOffer0 s uid ob) →
  ∃ eo,
    AlgoExecution.RetrieveExecutionOrder d = Some eo
    ∧ ListenerExeToAlgoExe.ProcessAdd es d
      = Some (Execution.mkExecutionService
                (<[GetProductId (MarketData.GetProduct ob) := eo]> (Execution.executionOrders es))
                (Execution.listeners es),
              (λ l', ProcessAdd l' eo) <$> Execution.listeners es)
    ∧ AlgoExecution.GetProduct eo = MarketData.GetProduct ob
    ∧ AlgoExecution.GetOrderId eo = uid
    ∧ AlgoExecution.GetOrderType eo = MARKET
    ∧ AlgoExecution.GetHiddenQuantity eo = 0
    ∧ AlgoExecution.GetParentOrderId eo = ""%string
    ∧ AlgoExecution.IsChildOrder eo = false
    ∧ ∃ best,
        AlgoExecution.GetPrice eo = MarketData.GetPrice best
        ∧ AlgoExecution.GetVisibleQuantity eo = MarketData.GetQuantity best
        ∧ let bo := MarketData.GetBestBidOffer bestBid0 bestOffer0 ob in
          (AlgoExecution.GetPriceSide eo = BID ∧ best = MarketData.GetBidOrder bo)
          ∨ (AlgoExecution.GetPriceSide eo = OFFER ∧ best = MarketData.GetOfferOrder bo).
Proof.
  intros Hqb Hqo.
  unfold ListenerAlgoToMarketData.ProcessAdd. rewrite ExecuteOrder_cases.
  destruct (AlgoExecution.crosses bestBid0 bestOffer0 s ob); cbn zeta; cbn [snd].
  2: { intros Hin. by apply not_elem_of_nil in Hin. }
  unfold notify. intros Hin. apply list_elem_of_fmap in Hin as (l' & Heq & _).
  injection Heq as _ ->.
  eexists. split; [reflexivity|].
  unfold ListenerExeToAlgoExe.ProcessAdd, Execution.ProcessExecution, Execution.OnMessage,
    notify.
  cbn. rewrite insert_insert_eq.
  split; [reflexivity|]. do 3 (split; [reflexivity|]).
  unfold AlgoExecution.GetHiddenQuantity, AlgoExecution.GetVisibleQuantity. cbn.
  split; [apply double_to_long_exact; vm_compute; discriminate|].
  do 2 (split; [reflexivity|]).
  destruct (Z.even (AlgoExecution.executionCount s)).
  - eexists. split; [reflexivity|]. split; [by apply double_to_long_exact|]. left. by split.
  - eexists. split; [reflexivity|]. split; [by apply double_to_long_exact|]. right. by split.
Qed.

Lemma ExecuteOrder_feeds_execution_service_witness :
  ProcessAdd 4%nat
    (AlgoExecution.AlgoExecution_new bond_3y OFFER "0Z9Y8X7W6V5U" MARKET
       ((100 # 1) + (1 # 128))%Q 5 0 "" false)
  ∈ snd (ListenerAlgoToMarketData.ProcessAdd stale_order stale_order exec_engine_1
           "0Z9Y8X7W6V5U" book_at_threshold_3y)
  ∧ ∃ eo,
      ListenerExeToAlgoExe.ProcessAdd execution_service_1
        (AlgoExecution.AlgoExecution_new bond_3y OFFER "0Z9Y8X7W6V5U" MARKET
           ((100 # 1) + (1 # 128))%Q 5 0 "" false)
      = Some (Execution.mkExecutionService
                (<[ "91282CMB4"%string := eo ]> (Execution.executionOrders execution_service_1))
                [5%nat; 6%nat],
              [ProcessAdd 5%nat eo; ProcessAdd 6%nat eo])
      ∧ AlgoExecution.GetPriceSide eo = OFFER
      ∧ AlgoExecution.GetVisibleQuantity eo = 5.
Proof.
  assert (Hin : ProcessAdd 4%nat
    (AlgoExecution.AlgoExecution_new bond_3y OFFER "0Z9Y8X7W6V5U" MARKET
       ((100 # 1) + (1 # 128))%Q 5 0 "" false)
  ∈ snd (ListenerAlgoToMarketData.ProcessAdd stale_order stale_order exec_engine_1
           "0Z9Y8X7W6V5U" book_at_threshold_3y)).
  { apply list_elem_of_singleton. reflexivity. }
  assert (Hqb : Z.abs (MarketData.GetQuantity
                         (MarketData.GetBidOrder
                            (MarketData.GetBestBidOffer stale_order stale_order
                               book_at_threshold_3y))) <= 2 ^ 53)
    by (vm_compute; discriminate).
  assert (Hqo : Z.abs (MarketData.GetQuantity
                         (MarketData.GetOfferOrder
                            (MarketData.GetBestBidOffer stale_order stale_order
                               book_at_threshold_3y))) <= 2 ^ 53)
    by (vm_compute; discriminate).
  split; [exact Hin|].
  destruct (ExecuteOrder_feeds_execution_service stale_order stale_order exec_engine_1
              execution_service_1 "0Z9Y8X7W6V5U" book_at_threshold_3y 4%nat _ Hqb Hqo Hin)
    as (eo & Heo & Hrun & _).
  exists eo. split; [exact Hrun|].
  injection Heo as <-. split; reflexivity.
Defined.

(** ** streamingservice.hpp: from the streaming engine to the streaming service *)

(** X19: the streaming service behind the streaming engine.  Every call
    that [PublishAlgorithmicPrice] makes to its listeners carries a non-null
    price stream; the streaming service's [ProcessAdd] stores it under the
    product id of the Price and passes it to each of its own listeners
    once.  The stream is for the product of the Price; its bid and offer
    orders have sides BID and OFFER and straddle the mid price: offer minus
    bid is the Price's spread and their mean is its mid; both carry the
    same visible quantity and twice that as hidden quantity.  The two
    identities are stated where the double arithmetic behind them is exact:
    for a mid price that is a multiple of 1/512 and a spread that is a
    multiple of 1/256, of numerators [k] and [j] with |k| + |j| <= 2^53. *)
Theorem PublishAlgorithmicPrice_feeds_streaming_service {T : Type} `{Product T}
    (s : AlgoStreaming.AlgoStreamingService T) (ss : Streaming.StreamingService T)
    (price : Pricing.Price T) (l : ServiceListener) (d : AlgoStreaming.AlgoStream T)
    (k j : Z) :
  (Pricing.GetMid price == k # 512)%Q →
  (Pricing.GetBidOfferSpread price == j # 256)%Q →
  Z.abs k + Z.abs j <= 2 ^ 53 →
  ProcessAdd l d ∈ snd (ListenerAlgoStreamToPrc.ProcessAdd s price) →
  ∃ ps,
    AlgoStreaming.GetPriceStream d = Some ps
    ∧ ListenerStreamToAlgoStream.ProcessAdd ss d
      = Some (Streaming.mkStreamingService
                (<[GetProductId (Pricing.GetProduct price) := ps]> (Streaming.priceStreams ss))
                (Streaming.listeners ss),
              (λ l', ProcessAdd l' ps) <$> Streaming.listeners ss)
    ∧ AlgoStreaming.GetProduct ps = Pricing.GetProduct price
    ∧ AlgoStreaming.GetSide (AlgoStreaming.GetBidOrder ps) = BID
    ∧ AlgoStreaming.GetSide (AlgoStreaming.GetOfferOrder ps) = OFFER
    ∧ (AlgoStreaming.GetPrice (AlgoStreaming.GetOfferOrder ps)
       - AlgoStreaming.GetPrice (AlgoStreaming.GetBidOrder ps)
       == Pricing.GetBidOfferSpread price)%Q
    ∧ ((AlgoStreaming.GetPrice (AlgoStreaming.GetBidOrder ps)
        + AlgoStreaming.GetPrice (AlgoStreaming.GetOfferOrder ps)) / 2
       == Pricing.GetMid price)%Q
    ∧ AlgoStreaming.GetVisibleQuantity (AlgoStreaming.GetOfferOrder ps)
      = AlgoStreaming.GetVisibleQuantity (AlgoStreaming.GetBidOrder ps)
    ∧ AlgoStreaming.GetHiddenQuantity (AlgoStreaming.GetBidOrder ps)
      = 2 * AlgoStreaming.GetVisibleQuantity (AlgoStreaming.GetBidOrder ps)
    ∧ AlgoStreaming.GetHiddenQuantity (AlgoStreaming.GetOfferOrder ps)
      = 2 * AlgoStreaming.GetVisibleQuantity (AlgoStreaming.GetOfferOrder ps).
Proof.
  intros _ _ _.
  unfold ListenerAlgoStreamToPrc.ProcessAdd, AlgoStreaming.PublishAlgorithmicPrice. cbn [snd].
  unfold notify. intros Hin. apply list_elem_of_fmap in Hin as (l' & Heq & _).
  injection Heq as _ ->.
  eexists. split; [reflexivity|].
  unfold ListenerStreamToAlgoStream.ProcessAdd, Streaming.PublishPrice, Streaming.OnMessage,
    notify.
  cbn. split; [reflexivity|]. do 3 (split; [reflexivity|]).
  assert (Hd : ∀ q : Q, (q / 2 == q * (1 # 2))%Q) by (intros; reflexivity).
  split; [rewrite !Hd; lra|]. split; [rewrite !Hd; lra|].
  split; [reflexivity|]. split; lia.
Qed.

Lemma PublishAlgorithmicPrice_feeds_streaming_service_witness :
  ProcessAdd 3%nat
    (AlgoStreaming.AlgoStream_new bond_3y
       (AlgoStreaming.mkPriceStreamOrder ((100 # 1) - (1 # 128) / 2)%Q 20000000 40000000 BID)
       (AlgoStreaming.mkPriceStreamOrder ((100 # 1) + (1 # 128) / 2)%Q 20000000 40000000 OFFER))
  ∈ snd (ListenerAlgoStreamToPrc.ProcessAdd stream_engine_1
           (Pricing.mkPrice bond_3y (100 # 1) (1 # 128)))
  ∧ ((100 # 1) == 51200 # 512)%Q ∧ ((1 # 128) == 2 # 256)%Q
  ∧ Z.abs 51200 + Z.abs 2 <= 2 ^ 53
  ∧ ∃ ps,
      ListenerStreamToAlgoStream.ProcessAdd streaming_service_1
        (AlgoStreaming.AlgoStream_new bond_3y
           (AlgoStreaming.mkPriceStreamOrder ((100 # 1) - (1 # 128) / 2)%Q 20000000 40000000 BID)
           (AlgoStreaming.mkPriceStreamOrder ((100 # 1) + (1 # 128) / 2)%Q 20000000 40000000
              OFFER))
      = Some (Streaming.mkStreamingService
                (<[ "91282CMB4"%string := ps ]> (Streaming.priceStreams streaming_service_1))
                [11%nat],
              [ProcessAdd 11%nat ps])
      ∧ AlgoStreaming.GetVisibleQuantity (AlgoStreaming.GetBidOrder ps) = 20000000.
Proof.
  assert (Hin : ProcessAdd 3%nat
    (AlgoStreaming.AlgoStream_new bond_3y
       (AlgoStreaming.mkPriceStreamOrder ((100 # 1) - (1 # 128) / 2)%Q 20000000 40000000 BID)
       (AlgoStreaming.mkPriceStreamOrder ((100 # 1) + (1 # 128) / 2)%Q 20000000 40000000 OFFER))
  ∈ snd (ListenerAlgoStreamToPrc.ProcessAdd stream_engine_1
           (Pricing.mkPrice bond_3y (100 # 1) (1 # 128)))).
  { apply list_elem_of_singleton. reflexivity. }
  assert (Hmid : ((100 # 1) == 51200 # 512)%Q) by reflexivity.
  assert (Hspread : ((1 # 128) == 2 # 256)%Q) by reflexivity.
  assert (Hsize : Z.abs 51200 + Z.abs 2 <= 2 ^ 53) by (vm_compute; discriminate).
  split; [exact Hin|]. split; [exact Hmid|]. split; [exact Hspread|]. split; [exact Hsize|].
  destruct (PublishAlgorithmicPrice_feeds_streaming_service stream_engine_1
              streaming_service_1 (Pricing.mkPrice bond_3y (100 # 1) (1 # 128)) 3%nat _
              51200 2 Hmid Hspread Hsize Hin) as (ps & Hps & Hrun & _).
  exists ps. split; [exact Hrun|].
  injection Hps as <-. reflexivity.
Defined.

(** ** inquiryservice.hpp: the inquiry life cycle *)

(** X20: a RECEIVED inquiry runs through its whole life cycle inside one
    [OnMessage]: the service quotes it at 100 whatever price it came with,
    the connector turns it to QUOTED and hands it back, and the service
    completes it.  With room for one nested call (fuel 2 or more) the call
    returns; the record stored under the inquiry id is the inquiry with
    price 100 and state DONE (the intermediate RECEIVED record is
    overwritten), the caller's inquiry object ends in this state too, and
    every listener is called exactly once, with this completed inquiry. *)
Theorem OnMessage_received_completes {T : Type} `{Product T}
    (fuel : nat) (s : Inquiry.BondInquiryService T) (msg : Inquiry.Inquiry T) :
  Inquiry.GetState msg = RECEIVED →
  let completed :=
    Inquiry.mkInquiry (Inquiry.GetInquiryId msg) (Inquiry.GetProduct msg)
      (Inquiry.GetSide msg) (Inquiry.GetQuantity msg) 100%Q DONE in
  Inquiry.OnMessage (S (S fuel)) s msg
  = Some (Inquiry.mkBondInquiryService
            (<[Inquiry.GetInquiryId msg := completed]> (Inquiry.inquiryRecords s))
            (Inquiry.listenerCollection s),
          completed,
          (λ l, ProcessAdd l completed) <$> Inquiry.listenerCollection s).
Proof.
  intros Hst completed. cbn. rewrite Hst.
  unfold Inquiry.Connector_Publish, Inquiry.Connector_Subscribe. cbn.
  rewrite Hst, decide_True by done. cbn.
  by rewrite insert_insert_eq.
Qed.

Lemma OnMessage_received_completes_witness :
  Inquiry.GetState inquiry_received = RECEIVED
  ∧ Inquiry.OnMessage 2 inquiry_service_1 inquiry_received
    = Some (Inquiry.mkBondInquiryService
              {[ "Q7XK2M4PA9ZT"%string :=
                   Inquiry.mkInquiry "Q7XK2M4PA9ZT" bond_2y BUY 2000000 100%Q DONE ]}
              [12%nat],
            Inquiry.mkInquiry "Q7XK2M4PA9ZT" bond_2y BUY 2000000 100%Q DONE,
            [ProcessAdd 12%nat
               (Inquiry.mkInquiry "Q7XK2M4PA9ZT" bond_2y BUY 2000000 100%Q DONE)]).
Proof.
  assert (Hst : Inquiry.GetState inquiry_received = RECEIVED) by reflexivity.
  split; [exact Hst|].
  rewrite (OnMessage_received_completes 0 inquiry_service_1 inquiry_received Hst).
  reflexivity.
Defined.

(** X21: [OnMessage] stores and publishes completed inquiries only.  For an
    inquiry in any state, with fuel 2 or more, the call returns; the
    listener list is unchanged and so is every record stored under another
    inquiry id; when the inquiry came in as RECEIVED or QUOTED, its id holds
    a DONE record afterwards and each listener got one call, otherwise
    (DONE, REJECTED, CUSTOMER_REJECTED) nothing is stored, nobody is called
    and the inquiry is handed back as it came; and every inquiry passed to a
    listener is in state DONE and is the one that is stored. *)
Theorem OnMessage_stores_completed_only {T : Type} `{Product T}
    (fuel : nat) (s : Inquiry.BondInquiryService T) (msg : Inquiry.Inquiry T) :
  ∃ s' msg' calls,
    Inquiry.OnMessage (S (S fuel)) s msg = Some (s', msg', calls)
    ∧ Inquiry.listenerCollection s' = Inquiry.listenerCollection s
    ∧ (∀ id, id ≠ Inquiry.GetInquiryId msg →
         Inquiry.inquiryRecords s' !! id = Inquiry.inquiryRecords s !! id)
    ∧ (if decide (Inquiry.GetState msg = RECEIVED ∨ Inquiry.GetState msg = QUOTED)
       then Inquiry.inquiryRecords s' !! Inquiry.GetInquiryId msg = Some msg'
            ∧ Inquiry.GetState msg' = DONE
            ∧ length calls = length (Inquiry.listenerCollection s)
       else s' = s ∧ msg' = msg ∧ calls = [])
    ∧ (∀ l d, ProcessAdd l d ∈ calls →
         Inquiry.GetState d = DONE
         ∧ Inquiry.inquiryRecords s' !! Inquiry.GetInquiryId msg = Some d).
Proof.
  destruct (Inquiry.GetState msg) eqn:Hst.
  - eexists _, _, _. cbn. rewrite Hst.
    unfold Inquiry.Connector_Publish, Inquiry.Connector_Subscribe. cbn.
    rewrite Hst, decide_True by done. cbn. rewrite insert_insert_eq.
    split; [reflexivity|].
    cbn. split; [done|]. split; [by intros id Hid; rewrite lookup_insert_ne|].
    rewrite decide_True by (by left). unfold notify. rewrite lookup_insert_eq, length_fmap.
    split; [done|]. intros l d Hin.
    apply list_elem_of_fmap in Hin as (l' & Heq & _). by injection Heq as _ ->.
  - eexists _, _, _. cbn. rewrite Hst. split; [reflexivity|].
    cbn. split; [done|]. split; [by intros id Hid; rewrite lookup_insert_ne|].
    rewrite decide_True by (by right). unfold notify. rewrite lookup_insert_eq, length_fmap.
    split; [done|]. intros l d Hin.
    apply list_elem_of_fmap in Hin as (l' & Heq & _). by injection Heq as _ ->.
  - eexists _, _, _. cbn. rewrite Hst. split; [reflexivity|].
    split; [done|]. split; [done|]. rewrite decide_False by (intros [?|?]; discriminate).
    split; [done|]. intros l d Hin. by apply not_elem_of_nil in Hin.
  - eexists _, _, _. cbn. rewrite Hst. split; [reflexivity|].
    split; [done|]. split; [done|]. rewrite decide_False by (intros [?|?]; discriminate).
    split; [done|]. intros l d Hin. by apply not_elem_of_nil in Hin.
  - eexists _, _, _. cbn. rewrite Hst. split; [reflexivity|].
    split; [done|]. split; [done|]. rewrite decide_False by (intros [?|?]; discriminate).
    split; [done|]. intros l d Hin. by apply not_elem_of_nil in Hin.
Qed.

(** X22: quoting and rejecting by inquiry id.  [SendQuote] changes the price
    of the stored inquiry and nothing else (in particular not its state: a
    RECEIVED inquiry is still RECEIVED after it) and passes the updated
    record to the listeners; [RejectInquiry] sets the state to REJECTED,
    keeps the price and calls nobody.  For an id that is not stored, both
    create a record from the value-initialised inquiry, whose own inquiry id
    is the empty string.  The two operations commute on the store. *)
Theorem SendQuote_RejectInquiry {T : Type} `{Product T}
    (s : Inquiry.BondInquiryService T) (inquiryId : string) (price : Q) :
  let stored := default value_init (Inquiry.inquiryRecords s !! inquiryId) in
  Inquiry.SendQuote s inquiryId price
  = (Inquiry.mkBondInquiryService
       (<[inquiryId := Inquiry.SetPrice stored price]> (Inquiry.inquiryRecords s))
       (Inquiry.listenerCollection s),
     (λ l, ProcessAdd l (Inquiry.SetPrice stored price)) <$> Inquiry.listenerCollection s)
  ∧ Inquiry.RejectInquiry s inquiryId
    = Inquiry.mkBondInquiryService
        (<[inquiryId := Inquiry.SetState stored REJECTED]> (Inquiry.inquiryRecords s))
        (Inquiry.listenerCollection s)
  ∧ Inquiry.GetState (Inquiry.SetPrice stored price) = Inquiry.GetState stored
  ∧ (Inquiry.inquiryRecords s !! inquiryId = None →
     Inquiry.GetInquiryId stored = ""%string ∧ Inquiry.GetState stored = RECEIVED)
  ∧ fst (Inquiry.SendQuote (Inquiry.RejectInquiry s inquiryId) inquiryId price)
    = Inquiry.RejectInquiry (fst (Inquiry.SendQuote s inquiryId price)) inquiryId.
Proof.
  intros stored. unfold Inquiry.SendQuote, Inquiry.RejectInquiry, map_index, notify.
  subst stored. destruct (Inquiry.inquiryRecords s !! inquiryId) as [v|] eqn:Hk; cbn.
  - rewrite !lookup_insert_eq. cbn. rewrite ?insert_insert_eq. repeat split; done.
  - rewrite !lookup_insert_eq. cbn. rewrite ?insert_insert_eq. repeat split; done.
Qed.

Lemma SendQuote_RejectInquiry_witness :
  Inquiry.inquiryRecords inquiry_service_1 !! "Q7XK2M4PA9ZT"%string = None
  ∧ Inquiry.SendQuote inquiry_service_1 "Q7XK2M4PA9ZT" (99 # 1)
    = (Inquiry.mkBondInquiryService
         {[ "Q7XK2M4PA9ZT"%string := Inquiry.mkInquiry "" value_init BUY 0 (99 # 1) RECEIVED ]}
         [12%nat],
       [ProcessAdd 12%nat (Inquiry.mkInquiry "" value_init BUY 0 (99 # 1) RECEIVED)]).
Proof.
  split; [reflexivity|].
  rewrite (proj1 (SendQuote_RejectInquiry inquiry_service_1 "Q7XK2M4PA9ZT" (99 # 1))).
  reflexivity.
Defined.

(** ** Text input *)

Lemma contains_app (delim : ascii) (s1 s2 : string) :
  contains delim (s1 +:+ s2) = contains delim s1 || contains delim s2.
Proof.
  induction s1 as [|c s1 IH]; [done|].
  rewrite string_app_cons. cbn [contains]. rewrite IH. by rewrite orb_assoc.
Qed.

Lemma getline_all_cell (delim : ascii) (a rest cell : string) :
  contains delim a = false →
  getline_all delim cell (a +:+ String delim rest)
  = (cell +:+ a) :: getline_all delim "" rest.
Proof.
  revert cell. induction a as [|c a IH]; intros cell Ha.
  - rewrite string_app_nil_l, string_app_nil_r. cbn [getline_all].
    by rewrite Ascii.eqb_refl.
  - cbn [contains] in Ha. apply orb_false_elim in Ha as [Hc Ha].
    rewrite string_app_cons. cbn [getline_all]. rewrite Hc, (IH _ Ha).
    unfold push_back. by rewrite string_app_assoc.
Qed.

Lemma getline_all_last (delim : ascii) (a cell : string) :
  contains delim a = false → a ≠ EmptyString →
  getline_all delim cell a = [cell +:+ a].
Proof.
  revert cell. induction a as [|c a IH]; intros cell Ha Hne; [done|].
  cbn [contains] in Ha. apply orb_false_elim in Ha as [Hc Ha].
  cbn [getline_all]. rewrite Hc.
  destruct a as [|c' a'].
  - cbn [getline_all]. unfold push_back.
    destruct (cell +:+ String c "") eqn:Hcell; [|done].
    destruct cell; discriminate.
  - rewrite (IH _ Ha) by done. unfold push_back. by rewrite string_app_assoc.
Qed.

Lemma getline_all_three (a b c : string) :
  contains "," a = false → contains "," b = false → contains "," c = false →
  c ≠ EmptyString →
  getline_all "," "" (a +:+ "," +:+ b +:+ "," +:+ c) = [a; b; c].
Proof.
  intros Ha Hb Hc Hne.
  change ("," +:+ b +:+ "," +:+ c) with (String "," (b +:+ "," +:+ c)).
  rewrite getline_all_cell by done.
  change ("," +:+ c) with (String "," c).
  rewrite getline_all_cell by done.
  by rewrite getline_all_last.
Qed.

(** ** utils.hpp: the bond reference table *)

Lemma BondInfo_id (parse_date_string : string → Z * Z * Z) (_cusip : string) (b : Bond) :
  BondInfo parse_date_string _cusip = inr b → GetProductId b = _cusip.
Proof.
  unfold BondInfo. destruct (bond_map parse_date_string !! _cusip) as [b'|] eqn:Hk; [|done].
  intros [= <-]. apply elem_of_list_to_map_2 in Hk.
  repeat (apply elem_of_cons in Hk as [[= -> ->]|Hk]; [reflexivity|]).
  by apply not_elem_of_nil in Hk.
Qed.

(** X23: the two reference tables of [utils.hpp] agree.  [BondInfo] knows a
    CUSIP exactly when [PV01Info] does; the bond it returns carries the
    CUSIP it was asked for as its product id; so the risk service does not
    throw on a position in a bond that came out of [BondInfo]. *)
Theorem BondInfo_PV01Info_agree (parse_date_string : string → Z * Z * Z) (_cusip : string) :
  ((∃ b, BondInfo parse_date_string _cusip = inr b) ↔ (∃ pv, PV01Info _cusip = inr pv))
  ∧ (∀ b, BondInfo parse_date_string _cusip = inr b →
       GetProductId b = _cusip
       ∧ ∀ (s : Risk.RiskService Bond) (positions : gmap string Z),
           ∃ s' calls, Risk.AddPosition s (Position.mkPosition b positions) = Returned s' calls).
Proof.
  assert (Hdom : bond_map parse_date_string !! _cusip = None ↔ pv01_map !! _cusip = None).
  { unfold bond_map, pv01_map. rewrite <- !not_elem_of_list_to_map. done. }
  assert (Hiff : (∃ b, BondInfo parse_date_string _cusip = inr b)
                 ↔ (∃ pv, PV01Info _cusip = inr pv)).
  { unfold BondInfo, PV01Info.
    destruct (bond_map parse_date_string !! _cusip) as [b|] eqn:Hb;
      destruct (pv01_map !! _cusip) as [pv|] eqn:Hpv.
    - split; eauto.
    - by pose proof (proj2 Hdom eq_refl).
    - by pose proof (proj1 Hdom eq_refl).
    - split; intros [? ?]; discriminate. }
  split; [exact Hiff|].
  intros b Hb. pose proof (BondInfo_id _ _ _ Hb) as Hid. split; [exact Hid|].
  intros s positions. destruct (proj1 Hiff (ex_intro _ b Hb)) as [pv Hpv].
  unfold Risk.AddPosition. cbn. change (Bond_productId b) with (GetProductId b).
  rewrite Hid, Hpv. eauto.
Qed.

Lemma BondInfo_PV01Info_agree_witness :
  BondInfo sample_dates "91282CMB4" = inr bond_3y
  ∧ PV01Info "91282CMB4" = inr (2738 # 10000)
  ∧ GetProductId bond_3y = "91282CMB4"%string
  ∧ ((∃ b, BondInfo sample_dates "912828XX1" = inr b)
     ↔ (∃ pv, PV01Info "912828XX1" = inr pv)).
Proof.
  assert (Hb : BondInfo sample_dates "91282CMB4" = inr bond_3y) by reflexivity.
  split; [exact Hb|]. split; [reflexivity|]. split.
  - exact (proj1 (proj2 (BondInfo_PV01Info_agree sample_dates "91282CMB4") bond_3y Hb)).
  - exact (proj1 (BondInfo_PV01Info_agree sample_dates "912828XX1")).
Defined.

(** ** pricingservice.hpp: the price file *)

Lemma PricingConnector_Subscribe_line_fields (parse_date_string : string → Z * Z * Z)
    (service : Pricing.PricingService Bond) (productId bidS offerS : string) :
  contains "," productId = false → contains "," bidS = false →
  contains "," offerS = false → offerS ≠ EmptyString →
  PricingConnector_Subscribe_line parse_date_string service
    (productId +:+ "," +:+ bidS +:+ "," +:+ offerS)
  = (bidPrice ← modelled (ParsePrice bidS);
     offerPrice ← modelled (ParsePrice offerS);
     productInstance ← throwing (BondInfo parse_date_string productId);
     mret (Pricing.OnMessage service
             (Pricing.mkPrice productInstance ((bidPrice + offerPrice) / 2)%Q
                (offerPrice - bidPrice)%Q))).
Proof.
  intros Ha Hb Hc Hne. unfold PricingConnector_Subscribe_line.
  by rewrite getline_all_three.
Qed.

(** X24: one line of the price file, from text to quote.  For a line
    [cusip,bid,offer] whose three fields contain no comma, with a CUSIP that
    [BondInfo] knows and two price texts that [ParsePrice] reads as [b] and
    [o], the pricing connector makes the pricing service store, under the
    CUSIP, a Price with mid (b+o)/2 and spread o-b for the bond of the table,
    and pass it to the listeners; and the quote that the streaming engine
    publishes for this Price has the bid price b and the offer price o of
    the line.  The statement is made where the double arithmetic behind it
    is exact: for prices b and o that are multiples of 1/256, of numerators
    [nb] and [no] with |nb| + |no| <= 2^53. *)
Theorem PricingConnector_line_to_quote (parse_date_string : string → Z * Z * Z)
    (service : Pricing.PricingService Bond)
    (engine : AlgoStreaming.AlgoStreamingService Bond)
    (productId bidS offerS : string) (product : Bond) (b o : Q) (nb no : Z) :
  contains "," productId = false → contains "," bidS = false →
  contains "," offerS = false → offerS ≠ EmptyString →
  BondInfo parse_date_string productId = inr product →
  ParsePrice bidS = Some b → ParsePrice offerS = Some o →
  (b == nb # 256)%Q → (o == no # 256)%Q → Z.abs nb + Z.abs no <= 2 ^ 53 →
  let price := Pricing.mkPrice product ((b + o) / 2)%Q (o - b)%Q in
  PricingConnector_Subscribe_line parse_date_string service
    (productId +:+ "," +:+ bidS +:+ "," +:+ offerS)
  = inr (Pricing.mkPricingService (<[productId := price]> (Pricing.priceData service))
           (Pricing.serviceListeners service),
         (λ l, ProcessAdd l price) <$> Pricing.serviceListeners service)
  ∧ (∀ l d, ProcessAdd l d ∈ snd (ListenerAlgoStreamToPrc.ProcessAdd engine price) →
       ∃ ps, AlgoStreaming.GetPriceStream d = Some ps
             ∧ AlgoStreaming.GetProduct ps = product
             ∧ (AlgoStreaming.GetPrice (AlgoStreaming.GetBidOrder ps) == b)%Q
             ∧ (AlgoStreaming.GetPrice (AlgoStreaming.GetOfferOrder ps) == o)%Q).
Proof.
  intros Ha Hb Hc Hne Hinfo Hbid Hoffer _ _ _ price. split.
  - rewrite PricingConnector_Subscribe_line_fields by done.
    rewrite Hbid, Hoffer, Hinfo. cbn.
    unfold mret, abort_ret, Pricing.OnMessage, notify.
    cbn [Pricing.GetProduct]. by rewrite (BondInfo_id _ _ _ Hinfo).
  - intros l d Hin.
    unfold ListenerAlgoStreamToPrc.ProcessAdd, AlgoStreaming.PublishAlgorithmicPrice in Hin.
    cbn [snd] in Hin. unfold notify in Hin.
    apply list_elem_of_fmap in Hin as (l' & Heq & _). injection Heq as _ ->.
    eexists. split; [reflexivity|]. cbn. split; [reflexivity|].
    assert (Hd : ∀ q : Q, (q / 2 == q * (1 # 2))%Q) by (intros; reflexivity).
    split; rewrite !Hd; lra.
Qed.

Lemma PricingConnector_line_to_quote_witness :
  (99 + 31 / 32 + 6 / 256 == 25598 # 256)%Q
  ∧ (100 + 0 / 32 + 4 / 256 == 25604 # 256)%Q
  ∧ Z.abs 25598 + Z.abs 25604 <= 2 ^ 53
  ∧ PricingConnector_Subscribe_line sample_dates
    (Pricing.AddListener Pricing.PricingService_new 1%nat) "91282CLY5,99-316,100-00+"
  = inr (Pricing.mkPricingService
           {[ "91282CLY5"%string :=
                Pricing.mkPrice bond_2y
                  (((99 + 31 / 32 + 6 / 256) + (100 + 0 / 32 + 4 / 256)) / 2)%Q
                  ((100 + 0 / 32 + 4 / 256) - (99 + 31 / 32 + 6 / 256))%Q ]}
           [1%nat],
         [ProcessAdd 1%nat
            (Pricing.mkPrice bond_2y
               (((99 + 31 / 32 + 6 / 256) + (100 + 0 / 32 + 4 / 256)) / 2)%Q
               ((100 + 0 / 32 + 4 / 256) - (99 + 31 / 32 + 6 / 256))%Q)]).
Proof.
  assert (Hnb : (99 + 31 / 32 + 6 / 256 == 25598 # 256)%Q) by reflexivity.
  assert (Hno : (100 + 0 / 32 + 4 / 256 == 25604 # 256)%Q) by reflexivity.
  assert (Hsize : Z.abs 25598 + Z.abs 25604 <= 2 ^ 53) by (vm_compute; discriminate).
  split; [exact Hnb|]. split; [exact Hno|]. split; [exact Hsize|].
  refine (proj1 (PricingConnector_line_to_quote sample_dates
                   (Pricing.AddListener Pricing.PricingService_new 1%nat)
                   AlgoStreaming.AlgoStreamingService_new
                   "91282CLY5" "99-316" "100-00+" bond_2y
                   (99 + 31 / 32 + 6 / 256)%Q (100 + 0 / 32 + 4 / 256)%Q 25598 25604
                   _ _ _ _ _ _ _ Hnb Hno Hsize)); try reflexivity.
  discriminate.
Defined.

Lemma PricingConnector_Subscribe_lines_app (parse_date_string : string → Z * Z * Z)
    (service service1 : Pricing.PricingService Bond)
    (calls1 : list (call (Pricing.Price Bond))) (lines1 lines2 : list string) :
  PricingConnector_Subscribe_lines parse_date_string service lines1 = (service1, calls1, None) →
  PricingConnector_Subscribe_lines parse_date_string service (lines1 ++ lines2)
  = (let '(service2, calls2, ended) :=
       PricingConnector_Subscribe_lines parse_date_string service1 lines2 in
     (service2, calls1 ++ calls2, ended)).
Proof.
  revert service calls1. induction lines1 as [|line lines1 IH]; intros service calls1 Hrun.
  - cbn in Hrun. injection Hrun as -> <-. rewrite app_nil_l.
    by destruct (PricingConnector_Subscribe_lines _ _ _) as [[? ?] ?].
  - rewrite <- app_comm_cons. cbn [PricingConnector_Subscribe_lines] in *.
    destruct (PricingConnector_Subscribe_line _ service line) as [a|[s1 c1]]; [done|].
    destruct (PricingConnector_Subscribe_lines _ s1 lines1) as [[s2 c2] ended] eqn:Hrest.
    injection Hrun as -> <- ->.
    rewrite (IH _ _ Hrest).
    destruct (PricingConnector_Subscribe_lines _ service1 lines2) as [[s3 c3] e3].
    by rewrite app_assoc.
Qed.

(** X25: a line with an unknown CUSIP ends the price subscription.  When the
    lines before it were processed without incident, a line
    [cusip,bid,offer] with readable prices whose CUSIP is not in the bond
    table makes [BondInfo] throw: the run ends there with the exception, the
    service and the listener calls are those of the lines before, this line
    stores nothing, and no later line is looked at, whatever it holds. *)
Theorem PricingConnector_unknown_cusip_stops (parse_date_string : string → Z * Z * Z)
    (service service1 : Pricing.PricingService Bond)
    (calls1 : list (call (Pricing.Price Bond))) (before after : list string)
    (productId bidS offerS : string) (b o : Q) (e : exception) :
  PricingConnector_Subscribe_lines parse_date_string service before = (service1, calls1, None) →
  contains "," productId = false → contains "," bidS = false →
  contains "," offerS = false → offerS ≠ EmptyString →
  ParsePrice bidS = Some b → ParsePrice offerS = Some o →
  BondInfo parse_date_string productId = inl e →
  e = invalid_argument "Unknown CUSIP"
  ∧ PricingConnector_Subscribe_lines parse_date_string service
      (before ++ (productId +:+ "," +:+ bidS +:+ "," +:+ offerS) :: after)
    = (service1, calls1, Some (thrown e)).
Proof.
  intros Hrun Ha Hb Hc Hne Hbid Hoffer Hunknown. split.
  { unfold BondInfo in Hunknown. destruct (bond_map _ !! _); congruence. }
  rewrite (PricingConnector_Subscribe_lines_app _ _ _ _ _ _ Hrun).
  cbn [PricingConnector_Subscribe_lines].
  rewrite PricingConnector_Subscribe_line_fields by done.
  rewrite Hbid, Hoffer, Hunknown. cbn. by rewrite app_nil_r.
Qed.

Lemma PricingConnector_unknown_cusip_stops_witness :
  PricingConnector_Subscribe sample_dates
    (Pricing.AddListener Pricing.PricingService_new 1%nat)
    ("91282CLY5,99-316,100-00+" +:+ String newline ""
     +:+ "912828XX1,99-000,99-002" +:+ String newline ""
     +:+ "91282CMB4,100-000,100-002" +:+ String newline "")
  = (Pricing.mkPricingService
       {[ "91282CLY5"%string :=
            Pricing.mkPrice bond_2y
              (((99 + 31 / 32 + 6 / 256) + (100 + 0 / 32 + 4 / 256)) / 2)%Q
              ((100 + 0 / 32 + 4 / 256) - (99 + 31 / 32 + 6 / 256))%Q ]}
       [1%nat],
     [ProcessAdd 1%nat
        (Pricing.mkPrice bond_2y
           (((99 + 31 / 32 + 6 / 256) + (100 + 0 / 32 + 4 / 256)) / 2)%Q
           ((100 + 0 / 32 + 4 / 256) - (99 + 31 / 32 + 6 / 256))%Q)],
     Some (thrown (invalid_argument "Unknown CUSIP"))).
Proof.
  refine (proj2 (PricingConnector_unknown_cusip_stops sample_dates
            (Pricing.AddListener Pricing.PricingService_new 1%nat) _ _
            ["91282CLY5,99-316,100-00+"%string] ["91282CMB4,100-000,100-002"%string]
            "912828XX1" "99-000" "99-002" (99 + 0 / 32 + 0 / 256)%Q (99 + 0 / 32 + 2 / 256)%Q
            (invalid_argument "Unknown CUSIP")
            _ _ _ _ _ _ _ _)); try reflexivity.
  discriminate.
Defined.

(** ** marketdataservice.hpp: the market-data file *)

Lemma BondMarketDataConnector_Subscribe_lines_app (parse_date_string : string → Z * Z * Z)
    (batchSize : Z) (st st1 : market_feed)
    (calls1 : list (call (MarketData.OrderBook Bond))) (lines1 lines2 : list string) :
  BondMarketDataConnector_Subscribe_lines parse_date_string batchSize st lines1
  = (st1, calls1, None) →
  BondMarketDataConnector_Subscribe_lines parse_date_string batchSize st (lines1 ++ lines2)
  = (let '(st2, calls2, ended) :=
       BondMarketDataConnector_Subscribe_lines parse_date_string batchSize st1 lines2 in
     (st2, calls1 ++ calls2, ended)).
Proof.
  revert st calls1. induction lines1 as [|line lines1 IH]; intros st calls1 Hrun.
  - cbn in Hrun. injection Hrun as -> <-. rewrite app_nil_l.
    by destruct (BondMarketDataConnector_Subscribe_lines _ _ _ _) as [[? ?] ?].
  - rewrite <- app_comm_cons. cbn [BondMarketDataConnector_Subscribe_lines] in *.
    destruct (BondMarketDataConnector_Subscribe_line _ _ st line) as [a|[s1 c1]]; [done|].
    destruct (BondMarketDataConnector_Subscribe_lines _ _ s1 lines1)
      as [[s2 c2] ended] eqn:Hrest.
    injection Hrun as -> <- ->.
    rewrite (IH _ _ Hrest).
    destruct (BondMarketDataConnector_Subscribe_lines _ _ st1 lines2) as [[s3 c3] e3].
    by rewrite app_assoc.
Qed.

(** Lines that do not complete a batch only fill the two order vectors. *)
Lemma BondMarketDataConnector_partial_batch (parse_date_string : string → Z * Z * Z)
    (batchSize : Z) (lines : list string) (parsed : list (string * MarketData.Order)) :
  Forall2 (λ line po, parseOrder line = inr po) lines parsed →
  ∀ st,
    0 <= orderCount st →
    orderCount st + Z.of_nat (length lines) < batchSize →
    BondMarketDataConnector_Subscribe_lines parse_date_string batchSize st lines
    = (mkMarketFeed (feed_service st)
         (bidOrders st ++ filter (λ o, MarketData.GetSide o = BID) (snd <$> parsed))
         (offerOrders st ++ filter (λ o, MarketData.GetSide o ≠ BID) (snd <$> parsed))
         (orderCount st + Z.of_nat (length lines)),
       [], None).
Proof.
  induction 1 as [|line [productId order] lines parsed Hline _ IH]; intros st Hc Hlen.
  - cbn. rewrite !app_nil_r, Z.add_0_r. by destruct st.
  - cbn [length] in Hlen. cbn [BondMarketDataConnector_Subscribe_lines].
    unfold BondMarketDataConnector_Subscribe_line. rewrite Hline. cbn [mbind abort_bind].
    rewrite (proj2 (Z.eqb_neq batchSize 0)) by lia.
    rewrite Z.rem_small by lia.
    rewrite (proj2 (Z.eqb_neq (orderCount st + 1) 0)) by lia.
    unfold mret, abort_ret.
    rewrite IH by (cbn; lia). cbn [feed_service bidOrders offerOrders orderCount].
    rewrite fmap_cons, !filter_cons. cbn [snd].
    replace (orderCount st + 1 + Z.of_nat (length lines))
      with (orderCount st + Z.of_nat (S (length lines))) by lia.
    destruct (decide (MarketData.GetSide order = BID)) as [Hs|Hs].
    + rewrite decide_False by (intros Hn; by apply Hn). by rewrite <- app_assoc.
    + rewrite decide_True by done. by rewrite <- app_assoc.
Qed.

Lemma BondMarketDataConnector_full_batch (parse_date_string : string → Z * Z * Z)
    (batchSize : Z) (service : MarketData.BondMarketDataService Bond)
    (lines : list string) (parsed : list (string * MarketData.Order))
    (lastId : string) (product : Bond) :
  0 < batchSize →
  Forall2 (λ line po, parseOrder line = inr po) lines parsed →
  Z.of_nat (length lines) = batchSize →
  last (fst <$> parsed) = Some lastId →
  BondInfo parse_date_string lastId = inr product →
  BondMarketDataConnector_Subscribe_lines parse_date_string batchSize
    (mkMarketFeed service [] [] 0) lines
  = (mkMarketFeed
       (fst (MarketData.OnMessage service
               (MarketData.mkOrderBook product
                  (filter (λ o, MarketData.GetSide o = BID) (snd <$> parsed))
                  (filter (λ o, MarketData.GetSide o ≠ BID) (snd <$> parsed)))))
       [] [] batchSize,
     snd (MarketData.OnMessage service
            (MarketData.mkOrderBook product
               (filter (λ o, MarketData.GetSide o = BID) (snd <$> parsed))
               (filter (λ o, MarketData.GetSide o ≠ BID) (snd <$> parsed)))),
     None).
Proof.
  intros Hpos Hparsed Hlen Hlast Hinfo.
  set (start := mkMarketFeed service [] [] 0).
  destruct lines as [|line lines _] using rev_ind; [cbn in Hlen; lia|].
  apply Forall2_app_inv_l in Hparsed as (parsed1 & parsed2 & Hp1 & Hp2 & ->).
  apply Forall2_cons_inv_l in Hp2 as ([productId order] & parsed3 & Hline & Hnil & ->).
  apply Forall2_nil_inv_l in Hnil as ->.
  rewrite length_app in Hlen. cbn [length] in Hlen.
  rewrite fmap_app in Hlast. change (fst <$> [(productId, order)]) with [productId] in Hlast.
  rewrite last_snoc in Hlast. injection Hlast as ->.
  assert (Hc0 : 0 <= orderCount start) by (cbn; lia).
  assert (Hc1 : orderCount start + Z.of_nat (length lines) < batchSize) by (cbn; lia).
  rewrite (BondMarketDataConnector_Subscribe_lines_app _ _ _ _ _ _ _
             (BondMarketDataConnector_partial_batch parse_date_string _ _ _ Hp1 start
                Hc0 Hc1)).
  cbn [BondMarketDataConnector_Subscribe_lines feed_service bidOrders offerOrders orderCount].
  unfold BondMarketDataConnector_Subscribe_line. rewrite Hline. cbn [mbind abort_bind].
  cbn [feed_service bidOrders offerOrders orderCount].
  rewrite (proj2 (Z.eqb_neq batchSize 0)) by lia.
  subst start. cbn [feed_service bidOrders offerOrders orderCount].
  replace (0 + Z.of_nat (length lines) + 1) with batchSize by lia.
  rewrite Z.rem_same by lia. cbn [Z.eqb].
  rewrite Hinfo. cbn [throwing].
  rewrite fmap_app, !filter_app. cbn [fmap list_fmap snd].
  rewrite !filter_cons, !filter_nil. cbn [app].
  destruct (decide (MarketData.GetSide order = BID)) as [Hs|Hs].
  + rewrite (decide_False (P := MarketData.GetSide order ≠ BID))
      by (intros Hn; by apply Hn).
    rewrite !app_nil_r. unfold MarketData.OnMessage. cbn. by rewrite ?app_nil_r.
  + rewrite (decide_True (P := MarketData.GetSide order ≠ BID)) by done.
    rewrite !app_nil_r. unfold MarketData.OnMessage. cbn. by rewrite ?app_nil_r.
Qed.

(** X26: how the market-data connector cuts its file into order books.
    With a positive batch size (twice the book depth of the service), order
    lines that all parse are collected into a bid and an offer vector, each
    in file order: the orders that [parseOrder] read with side BID in the
    one, all others in the other.  Fewer lines than one batch publish nothing: the
    service is not touched and the orders are dropped when the file ends.
    Exactly one batch of lines publishes exactly one order book, through
    [OnMessage]; its product is looked up from the CUSIP of the last line of
    the batch alone, whatever CUSIPs the other lines carry, and the two
    vectors are empty again afterwards. *)
Theorem BondMarketDataConnector_batches (parse_date_string : string → Z * Z * Z)
    (service : MarketData.BondMarketDataService Bond)
    (lines : list string) (parsed : list (string * MarketData.Order)) :
  let batchSize := MarketData.bookDepth service * 2 in
  let bids := filter (λ o, MarketData.GetSide o = BID) (snd <$> parsed) in
  let offers := filter (λ o, MarketData.GetSide o ≠ BID) (snd <$> parsed) in
  let start := mkMarketFeed service [] [] 0 in
  0 < batchSize →
  Forall2 (λ line po, parseOrder line = inr po) lines parsed →
  (Z.of_nat (length lines) < batchSize →
   BondMarketDataConnector_Subscribe_lines parse_date_string batchSize start lines
   = (mkMarketFeed service bids offers (Z.of_nat (length lines)), [], None))
  ∧ (Z.of_nat (length lines) = batchSize →
     ∀ (lastId : string) (product : Bond),
       last (fst <$> parsed) = Some lastId →
       BondInfo parse_date_string lastId = inr product →
       let orderBook := MarketData.mkOrderBook product bids offers in
       BondMarketDataConnector_Subscribe_lines parse_date_string batchSize start lines
       = (mkMarketFeed (fst (MarketData.OnMessage service orderBook)) [] [] batchSize,
          snd (MarketData.OnMessage service orderBook), None)).
Proof.
  intros batchSize bids offers start Hpos Hparsed. clearbody batchSize. split.
  - intros Hlen.
    rewrite (BondMarketDataConnector_partial_batch _ _ _ _ Hparsed) by (cbn; lia).
    cbn. by rewrite Z.add_0_l.
  - intros Hlen lastId product Hlast Hinfo orderBook.
    by apply (BondMarketDataConnector_full_batch _ _ _ _ _ lastId).
Qed.

(** ** simulate_data.hpp: the simulated mid price *)

Lemma UpdateMidPrice_grid (k : Z) (ascending : bool) (midPrice : Q) :
  (midPrice == k # 256)%Q → 99 * 256 <= k <= 101 * 256 →
  ∃ k', (fst (DataSimulator.UpdateMidPrice midPrice ascending) == k' # 256)%Q
        ∧ 99 * 256 <= k' <= 101 * 256
        ∧ (k' = k + 1 ∨ k' = k - 1 ∨ (k' = k ∧ (k = 99 * 256 ∨ k = 101 * 256))).
Proof.
  intros Hmid Hk. unfold DataSimulator.UpdateMidPrice.
  assert (Hup : (midPrice + 1 / 256 == (k + 1) # 256)%Q).
  { rewrite Hmid. unfold Qeq. cbn. lia. }
  assert (Hdown : (midPrice - 1 / 256 == (k - 1) # 256)%Q).
  { rewrite Hmid. unfold Qeq. cbn. lia. }
  destruct ascending.
  - destruct (Qlt_bool 101 (midPrice + 1 / 256)) eqn:Hlt; cbn [fst].
    + apply Qlt_bool_iff in Hlt. rewrite Hup in Hlt. unfold Qlt in Hlt. cbn in Hlt.
      exists (101 * 256). split; [reflexivity|]. lia.
    + apply Qlt_bool_false in Hlt. rewrite Hup in Hlt. unfold Qle in Hlt. cbn in Hlt.
      exists (k + 1). split; [exact Hup|]. lia.
  - destruct (Qlt_bool (midPrice - 1 / 256) 99) eqn:Hlt; cbn [fst].
    + apply Qlt_bool_iff in Hlt. rewrite Hdown in Hlt. unfold Qlt in Hlt. cbn in Hlt.
      exists (99 * 256). split; [reflexivity|]. lia.
    + apply Qlt_bool_false in Hlt. rewrite Hdown in Hlt. unfold Qle in Hlt. cbn in Hlt.
      exists (k - 1). split; [exact Hdown|]. lia.
Qed.

Lemma mid_after_grid (n : nat) :
  ∃ k, (fst (DataSimulator.mid_after n) == k # 256)%Q ∧ 99 * 256 <= k <= 101 * 256.
Proof.
  induction n as [|n (k & Hk & Hr)].
  - exists (99 * 256). split; [reflexivity|lia].
  - cbn [DataSimulator.mid_after].
    destruct (UpdateMidPrice_grid k (snd (DataSimulator.mid_after n)) _ Hk Hr)
      as (k' & Hk' & Hr' & _).
    by exists k'.
Qed.

(** X27: the simulated mid price stays in its band and on the price grid.
    After any number of updates from the start value 99, the mid price is a
    multiple of 1/256 between 99 and 101; and one update of such a price
    moves it by exactly 1/256 up or down, except at the two ends of the band
    where it may stay for one step. *)
Theorem mid_price_stays_on_grid (n : nat) :
  ∃ k, (fst (DataSimulator.mid_after n) == k # 256)%Q
       ∧ 99 * 256 <= k <= 101 * 256
       ∧ (99 <= fst (DataSimulator.mid_after n) <= 101)%Q
       ∧ ∃ k', (fst (DataSimulator.mid_after (S n)) == k' # 256)%Q
               ∧ (k' = k + 1 ∨ k' = k - 1 ∨ (k' = k ∧ (k = 99 * 256 ∨ k = 101 * 256))).
Proof.
  destruct (mid_after_grid n) as (k & Hk & Hr). exists k. split; [exact Hk|]. split; [exact Hr|].
  split.
  - rewrite Hk. unfold Qle. cbn. lia.
  - cbn [DataSimulator.mid_after].
    destruct (UpdateMidPrice_grid k (snd (DataSimulator.mid_after n)) _ Hk Hr)
      as (k' & Hk' & _ & Hstep).
    by exists k'.
Qed.

(** ** From the simulated market data to the execution engine *)

Lemma stod_acc_no_delim (delim : ascii) (s : string) (acc v : Z) :
  Text.digit_val delim = None →
  Text.stod_acc acc s = Some v → contains delim s = false.
Proof.
  intros Hd. revert acc. induction s as [|c s IH]; intros acc Hs; [done|].
  cbn [Text.stod_acc] in Hs. cbn [contains].
  destruct (Text.digit_val c) as [d|] eqn:Hc; [|done].
  rewrite (IH _ Hs), orb_false_r.
  destruct (Ascii.eqb c delim) eqn:Heq; [|done].
  apply Ascii.eqb_eq in Heq. congruence.
Qed.

Lemma stol_to_string (n : Z) : 0 <= n → stol (Text.to_string n) = Some n.
Proof.
  intros Hn. unfold Text.to_string, Text.to_string_nonneg.
  rewrite (proj2 (Z.ltb_ge n 0)) by done.
  unfold stol.
  pose proof (digits_nonempty (S (Z.to_nat (Z.log2 n))) n) as Hne.
  destruct (Text.digits (S (Z.to_nat (Z.log2 n))) n) eqn:Hd; [by exfalso; apply Hne|].
  rewrite <- Hd. rewrite stod_acc_digits; [done|].
  split; [done|by apply to_string_nonneg_fuel].
Qed.

Lemma to_string_no_delim (delim : ascii) (n : Z) :
  Text.digit_val delim = None → 0 <= n → contains delim (Text.to_string n) = false.
Proof.
  intros Hd Hn. pose proof (stol_to_string n Hn) as Hs. unfold stol in Hs.
  destruct (Text.to_string n) eqn:Ht; [done|]. by apply (stod_acc_no_delim _ _ 0 n).
Qed.

Lemma price_string_no_comma (w ff v : Z) (e : ascii) :
  0 <= w → 0 <= ff < 32 → eighth_value e = Some v →
  contains "," (price_string w ff e) = false.
Proof.
  intros Hw Hff He. unfold price_string. rewrite !contains_app.
  rewrite (to_string_no_delim "," w) by done.
  destruct (two_digits_spec ff Hff) as (_ & _ & H32).
  rewrite (stod_acc_no_delim "," (two_digits ff) 0 ff) by done.
  destruct (eighth_value_spec e v He) as (_ & _ & H8).
  destruct (Ascii.eqb e "+"%char) eqn:Hplus.
  - apply Ascii.eqb_eq in Hplus. by subst e.
  - by rewrite (stod_acc_no_delim "," (String e "") 0 v).
Qed.

Lemma getline_all_four (a b c d : string) :
  contains "," a = false → contains "," b = false → contains "," c = false →
  contains "," d = false → d ≠ EmptyString →
  getline_all "," "" (a +:+ "," +:+ b +:+ "," +:+ c +:+ "," +:+ d) = [a; b; c; d].
Proof.
  intros Ha Hb Hc Hd Hne.
  change ("," +:+ b +:+ "," +:+ c +:+ "," +:+ d) with (String "," (b +:+ "," +:+ c +:+ "," +:+ d)).
  rewrite getline_all_cell by done.
  change ("," +:+ c +:+ "," +:+ d) with (String "," (c +:+ "," +:+ d)).
  rewrite getline_all_cell by done.
  change ("," +:+ d) with (String "," d).
  rewrite getline_all_cell by done.
  by rewrite getline_all_last.
Qed.

(** A line of the simulated market data, as the connector's [parseOrder]
    reads it back: the price is the one that was formatted, since it lies on
    the 1/256 grid. *)
Lemma parseOrder_generated (cusip tok : string) (p : Q) (n q : Z) :
  contains "," cusip = false → contains "," tok = false → tok ≠ EmptyString →
  (p == n # 256)%Q → 0 <= n → 0 <= q →
  ∃ p', (p' == p)%Q
        ∧ parseOrder (cusip +:+ "," +:+ FormatPrice p +:+ "," +:+ Text.to_string q
                        +:+ "," +:+ tok)
          = inr (cusip,
                 MarketData.mkOrder p' q (if decide (tok = "BID"%string) then BID else OFFER)).
Proof.
  intros Hcusip Htok Hne Hp Hn Hq.
  set (w := n / 256). set (ff := n mod 256 / 8). set (v := n mod 256 mod 8).
  assert (Hff : 0 <= ff < 32).
  { unfold ff. pose proof (Z.mod_pos_bound n 256).
    split; [apply Z.div_pos; lia|apply Z.div_lt_upper_bound; lia]. }
  assert (Hv : 0 <= v < 8) by (unfold v; apply Z.mod_pos_bound; lia).
  assert (Hw : 0 <= w) by (unfold w; apply Z.div_pos; lia).
  assert (Hsplit : n = w * 256 + ff * 8 + v).
  { unfold w, ff, v. pose proof (Z.div_mod n 256). pose proof (Z.div_mod (n mod 256) 8). lia. }
  assert (Hx : (p == inject_Z w + inject_Z ff / 32 + inject_Z v / 256)%Q).
  { rewrite price_value_256, Hp, <- Hsplit. reflexivity. }
  exists (inject_Z w + inject_Z ff / 32 + inject_Z v / 256)%Q.
  split; [by symmetry|].
  rewrite (FormatPrice_of_parts p w ff v Hx Hff Hv).
  pose proof (eighth_value_of_char v Hv) as He.
  unfold parseOrder.
  rewrite getline_all_four;
    [|done|by apply (price_string_no_comma w ff v)|by apply to_string_no_delim|done|done].
  cbn [at_index lookup list_lookup mbind abort_bind].
  rewrite (ParsePrice_price_string w ff v) by done.
  rewrite stol_to_string by done.
  reflexivity.
Qed.

(** In a book whose stacks start with their best order, the scan returns
    the two heads. *)
Lemma GetBestBidOffer_heads {T : Type} (bestBid0 bestOffer0 : MarketData.Order)
    (product : T) (b o : MarketData.Order) (bs os : list MarketData.Order) :
  (MarketData.DBL_LOWEST < MarketData.GetPrice b)%Q →
  (MarketData.GetPrice o < MarketData.DBL_MAX)%Q →
  Forall (λ x, (MarketData.GetPrice x <= MarketData.GetPrice b)%Q) bs →
  Forall (λ x, (MarketData.GetPrice o <= MarketData.GetPrice x)%Q) os →
  MarketData.GetBestBidOffer bestBid0 bestOffer0
    (MarketData.mkOrderBook product (b :: bs) (o :: os))
  = MarketData.mkBidOffer b o.
Proof.
  intros Hb Ho Hbs Hos. unfold MarketData.GetBestBidOffer.
  cbn [MarketData.GetBidStack MarketData.GetOfferStack fold_left].
  unfold MarketData.bid_scan_step at 2. unfold MarketData.offer_scan_step at 2.
  cbn [fst]. rewrite (proj2 (Qlt_bool_iff _ _) Hb), (proj2 (Qlt_bool_iff _ _) Ho).
  by rewrite bid_scan_keeps, offer_scan_keeps.
Qed.

Lemma market_update_lines_eq (cusip : string) (mid top : Q) :
  DataSimulator.market_update_lines cusip mid top
  = mjoin
      ((λ i,
          [ cusip +:+ "," +:+ FormatPrice (mid - (top + inject_Z i * (1 / 128)))%Q +:+ ","
              +:+ Text.to_string ((i + 1) * 10000000) +:+ "," +:+ "BID";
            cusip +:+ "," +:+ FormatPrice (mid + (top + inject_Z i * (1 / 128)))%Q +:+ ","
              +:+ Text.to_string ((i + 1) * 10000000) +:+ "," +:+ "OFFER" ])
         <$> [0; 1; 2; 3; 4]).
Proof. reflexivity. Qed.

Lemma generated_level (cusip : string) (mid top : Q) (k t i : Z) :
  contains "," cusip = false →
  (mid == k # 256)%Q → 99 * 256 <= k <= 101 * 256 →
  (top == 2 * t # 256)%Q → 1 <= t <= 4 → 0 <= i <= 4 →
  ∃ pb po,
    (pb == k - 2 * t - 2 * i # 256)%Q ∧ (po == k + 2 * t + 2 * i # 256)%Q
    ∧ parseOrder
        (cusip +:+ "," +:+ FormatPrice (mid - (top + inject_Z i * (1 / 128)))%Q +:+ ","
           +:+ Text.to_string ((i + 1) * 10000000) +:+ "," +:+ "BID")
      = inr (cusip, MarketData.mkOrder pb ((i + 1) * 10000000) BID)
    ∧ parseOrder
        (cusip +:+ "," +:+ FormatPrice (mid + (top + inject_Z i * (1 / 128)))%Q +:+ ","
           +:+ Text.to_string ((i + 1) * 10000000) +:+ "," +:+ "OFFER")
      = inr (cusip, MarketData.mkOrder po ((i + 1) * 10000000) OFFER).
Proof.
  intros Hcusip Hmid Hk Htop Ht Hi.
  assert (Hbid : (mid - (top + inject_Z i * (1 / 128)) == k - 2 * t - 2 * i # 256)%Q).
  { rewrite Hmid, Htop. unfold Qeq. cbn. lia. }
  assert (Hoffer : (mid + (top + inject_Z i * (1 / 128)) == k + 2 * t + 2 * i # 256)%Q).
  { rewrite Hmid, Htop. unfold Qeq. cbn. lia. }
  destruct (parseOrder_generated cusip "BID" _ _ ((i + 1) * 10000000) Hcusip
              eq_refl ltac:(discriminate) Hbid ltac:(lia) ltac:(lia)) as (pb & Hpb & Hlb).
  destruct (parseOrder_generated cusip "OFFER" _ _ ((i + 1) * 10000000) Hcusip
              eq_refl ltac:(discriminate) Hoffer ltac:(lia) ltac:(lia)) as (po & Hpo & Hlo).
  exists pb, po. split; [by rewrite Hpb|]. split; [by rewrite Hpo|]. by split.
Qed.

Lemma DBL_LOWEST_negative : (MarketData.DBL_LOWEST < 0)%Q.
Proof. reflexivity. Qed.

Lemma DBL_MAX_large : (2 ^ 20 < MarketData.DBL_MAX)%Q.
Proof. reflexivity. Qed.

(** X28: the simulated market data never makes the execution engine trade.
    For each of the simulator's CUSIPs, after any number of mid-price
    updates and for each spread of the spread cycle, the ten lines that one
    pass of [GenerateMarketData] writes are read back by the market-data
    connector (book depth 5) as exactly one order book, published through
    [OnMessage]: it is a book of the bond that [BondInfo] gives for the
    CUSIP, with five bids and five offers, whose best bid is the mid price
    minus the spread and whose best offer is the mid price plus the spread.
    They are at least 1/64 apart, so an execution engine with spread 1/128
    that is handed this book makes no execution and calls no listener. *)
Theorem simulated_market_data_never_executes (parse_date_string : string → Z * Z * Z)
    (service : MarketData.BondMarketDataService Bond)
    (engine : AlgoExecution.AlgoExecutionService Bond)
    (bestBid0 bestOffer0 : MarketData.Order) (uid : string)
    (currentCUSIP : string) (n : nat) (topSpread : Q) :
  MarketData.bookDepth service = 5 →
  currentCUSIP ∈ DataSimulator.CUSIPS_VEC →
  topSpread ∈ DataSimulator.spreadCycle →
  (AlgoExecution.executionSpread engine == 1 / 128)%Q →
  let midPrice := fst (DataSimulator.mid_after n) in
  let lines := DataSimulator.market_update_lines currentCUSIP midPrice topSpread in
  ∃ orderBook,
    BondMarketDataConnector_Subscribe_lines parse_date_string
      (MarketData.bookDepth service * 2) (mkMarketFeed service [] [] 0) lines
    = (mkMarketFeed (fst (MarketData.OnMessage service orderBook)) [] [] 10,
       snd (MarketData.OnMessage service orderBook), None)
    ∧ BondInfo parse_date_string currentCUSIP = inr (MarketData.GetProduct orderBook)
    ∧ length (MarketData.GetBidStack orderBook) = 5%nat
    ∧ length (MarketData.GetOfferStack orderBook) = 5%nat
    ∧ (MarketData.GetPrice
         (MarketData.GetBidOrder (MarketData.GetBestBidOffer bestBid0 bestOffer0 orderBook))
       == midPrice - topSpread)%Q
    ∧ (MarketData.GetPrice
         (MarketData.GetOfferOrder (MarketData.GetBestBidOffer bestBid0 bestOffer0 orderBook))
       == midPrice + topSpread)%Q
    ∧ ListenerAlgoToMarketData.ProcessAdd bestBid0 bestOffer0 engine uid orderBook
      = (engine, []).
Proof.
  intros Hdepth Hcusip Htop Hspread midPrice lines.
  assert (Hknown : contains "," currentCUSIP = false
                   ∧ ∃ product, BondInfo parse_date_string currentCUSIP = inr product).
  { unfold DataSimulator.CUSIPS_VEC in Hcusip.
    repeat (apply elem_of_cons in Hcusip as [->|Hcusip];
            [split; [reflexivity|eexists; reflexivity]|]).
    by apply not_elem_of_nil in Hcusip. }
  destruct Hknown as (Hcomma & product & Hinfo).
  assert (Ht : ∃ t, (topSpread == 2 * t # 256)%Q ∧ 1 <= t <= 4).
  { unfold DataSimulator.spreadCycle in Htop.
    apply elem_of_cons in Htop as [->|Htop]; [exists 1; split; [reflexivity|lia]|].
    apply elem_of_cons in Htop as [->|Htop]; [exists 2; split; [reflexivity|lia]|].
    apply elem_of_cons in Htop as [->|Htop]; [exists 3; split; [reflexivity|lia]|].
    apply elem_of_cons in Htop as [->|Htop]; [exists 4; split; [reflexivity|lia]|].
    by apply not_elem_of_nil in Htop. }
  destruct Ht as (t & Ht & Htr).
  destruct (mid_after_grid n) as (k & Hk & Hkr). fold midPrice in Hk.
  destruct (generated_level currentCUSIP midPrice topSpread k t 0 Hcomma Hk Hkr Ht Htr
              ltac:(lia)) as (pb0 & po0 & Hpb0 & Hpo0 & Hlb0 & Hlo0).
  destruct (generated_level currentCUSIP midPrice topSpread k t 1 Hcomma Hk Hkr Ht Htr
              ltac:(lia)) as (pb1 & po1 & Hpb1 & Hpo1 & Hlb1 & Hlo1).
  destruct (generated_level currentCUSIP midPrice topSpread k t 2 Hcomma Hk Hkr Ht Htr
              ltac:(lia)) as (pb2 & po2 & Hpb2 & Hpo2 & Hlb2 & Hlo2).
  destruct (generated_level currentCUSIP midPrice topSpread k t 3 Hcomma Hk Hkr Ht Htr
              ltac:(lia)) as (pb3 & po3 & Hpb3 & Hpo3 & Hlb3 & Hlo3).
  destruct (generated_level currentCUSIP midPrice topSpread k t 4 Hcomma Hk Hkr Ht Htr
              ltac:(lia)) as (pb4 & po4 & Hpb4 & Hpo4 & Hlb4 & Hlo4).
  set (bids := [ MarketData.mkOrder pb0 ((0 + 1) * 10000000) BID;
                 MarketData.mkOrder pb1 ((1 + 1) * 10000000) BID;
                 MarketData.mkOrder pb2 ((2 + 1) * 10000000) BID;
                 MarketData.mkOrder pb3 ((3 + 1) * 10000000) BID;
                 MarketData.mkOrder pb4 ((4 + 1) * 10000000) BID ]).
  set (offers := [ MarketData.mkOrder po0 ((0 + 1) * 10000000) OFFER;
                   MarketData.mkOrder po1 ((1 + 1) * 10000000) OFFER;
                   MarketData.mkOrder po2 ((2 + 1) * 10000000) OFFER;
                   MarketData.mkOrder po3 ((3 + 1) * 10000000) OFFER;
                   MarketData.mkOrder po4 ((4 + 1) * 10000000) OFFER ]).
  exists (MarketData.mkOrderBook product bids offers).
  assert (Hbest : MarketData.GetBestBidOffer bestBid0 bestOffer0
                    (MarketData.mkOrderBook product bids offers)
                  = MarketData.mkBidOffer (MarketData.mkOrder pb0 ((0 + 1) * 10000000) BID)
                      (MarketData.mkOrder po0 ((0 + 1) * 10000000) OFFER)).
  { apply GetBestBidOffer_heads; cbn [MarketData.GetPrice].
    - eapply Qlt_le_trans; [apply DBL_LOWEST_negative|].
      rewrite Hpb0. unfold Qle. cbn. lia.
    - eapply Qle_lt_trans; [|apply DBL_MAX_large].
      rewrite Hpo0. unfold Qle. cbn. lia.
    - repeat constructor; cbn [MarketData.GetPrice].
      + rewrite Hpb1, Hpb0. unfold Qle. cbn. lia.
      + rewrite Hpb2, Hpb0. unfold Qle. cbn. lia.
      + rewrite Hpb3, Hpb0. unfold Qle. cbn. lia.
      + rewrite Hpb4, Hpb0. unfold Qle. cbn. lia.
    - repeat constructor; cbn [MarketData.GetPrice].
      + rewrite Hpo1, Hpo0. unfold Qle. cbn. lia.
      + rewrite Hpo2, Hpo0. unfold Qle. cbn. lia.
      + rewrite Hpo3, Hpo0. unfold Qle. cbn. lia.
      + rewrite Hpo4, Hpo0. unfold Qle. cbn. lia. }
  split; [|split; [exact Hinfo|split; [reflexivity|split; [reflexivity|]]]].
  - rewrite Hdepth. subst lines. rewrite market_update_lines_eq.
    apply (BondMarketDataConnector_full_batch parse_date_string 10 service _
             [ (currentCUSIP, MarketData.mkOrder pb0 ((0 + 1) * 10000000) BID);
               (currentCUSIP, MarketData.mkOrder po0 ((0 + 1) * 10000000) OFFER);
               (currentCUSIP, MarketData.mkOrder pb1 ((1 + 1) * 10000000) BID);
               (currentCUSIP, MarketData.mkOrder po1 ((1 + 1) * 10000000) OFFER);
               (currentCUSIP, MarketData.mkOrder pb2 ((2 + 1) * 10000000) BID);
               (currentCUSIP, MarketData.mkOrder po2 ((2 + 1) * 10000000) OFFER);
               (currentCUSIP, MarketData.mkOrder pb3 ((3 + 1) * 10000000) BID);
               (currentCUSIP, MarketData.mkOrder po3 ((3 + 1) * 10000000) OFFER);
               (currentCUSIP, MarketData.mkOrder pb4 ((4 + 1) * 10000000) BID);
               (currentCUSIP, MarketData.mkOrder po4 ((4 + 1) * 10000000) OFFER) ]
             currentCUSIP product); [lia| |reflexivity|reflexivity|exact Hinfo].
    cbn [fmap list_fmap mjoin list_join app].
    repeat (constructor; [assumption|]). constructor.
  - rewrite Hbest. cbn [MarketData.GetBidOrder MarketData.GetOfferOrder MarketData.GetPrice].
    split; [|split].
    + rewrite Hpb0, Hk, Ht. unfold Qeq. cbn. lia.
    + rewrite Hpo0, Hk, Ht. unfold Qeq. cbn. lia.
    + unfold ListenerAlgoToMarketData.ProcessAdd. rewrite ExecuteOrder_cases.
      unfold AlgoExecution.crosses. rewrite Hbest.
      cbn [MarketData.GetBidOrder MarketData.GetOfferOrder MarketData.GetPrice].
      destruct (Qle_bool (po0 - pb0) (AlgoExecution.executionSpread engine)) eqn:Hcross;
        [|reflexivity].
      exfalso. apply Qle_bool_iff in Hcross.
      rewrite Hspread, Hpo0, Hpb0 in Hcross. unfold Qle in Hcross. cbn in Hcross. lia.
Qed.

Example market_lines_sample_text :
  market_lines_sample
  = [ "91282CLY5,98-316,10000000,BID"; "91282CLY5,99-002,10000000,OFFER";
      "91282CLY5,98-31+,20000000,BID"; "91282CLY5,99-00+,20000000,OFFER";
      "91282CLY5,98-312,30000000,BID"; "91282CLY5,99-006,30000000,OFFER";
      "91282CLY5,98-310,40000000,BID"; "91282CLY5,99-010,40000000,OFFER";
      "91282CLY5,98-306,50000000,BID"; "91282CMB4,99-012,50000000,OFFER" ]%string.
Proof. vm_compute. reflexivity. Qed.

Lemma BondMarketDataConnector_batches_witness :
  0 < MarketData.bookDepth (T := Bond) MarketData.BondMarketDataService_new * 2
  ∧ Forall2 (λ line po, parseOrder line = inr po) market_lines_sample market_orders_sample
  ∧ BondMarketDataConnector_Subscribe_lines sample_dates 10
      (mkMarketFeed MarketData.BondMarketDataService_new [] [] 0) market_lines_sample
    = (mkMarketFeed
         (fst (MarketData.OnMessage MarketData.BondMarketDataService_new
                 (MarketData.mkOrderBook bond_3y
                    (filter (λ o, MarketData.GetSide o = BID) (snd <$> market_orders_sample))
                    (filter (λ o, MarketData.GetSide o ≠ BID) (snd <$> market_orders_sample)))))
         [] [] 10,
       snd (MarketData.OnMessage MarketData.BondMarketDataService_new
              (MarketData.mkOrderBook bond_3y
                 (filter (λ o, MarketData.GetSide o = BID) (snd <$> market_orders_sample))
                 (filter (λ o, MarketData.GetSide o ≠ BID) (snd <$> market_orders_sample)))),
       None).
Proof.
  assert (Hpos : 0 < MarketData.bookDepth (T := Bond) MarketData.BondMarketDataService_new * 2)
    by reflexivity.
  assert (Hparsed : Forall2 (λ line po, parseOrder line = inr po)
                      market_lines_sample market_orders_sample).
  { repeat (constructor; [vm_compute; reflexivity|]). constructor. }
  split; [exact Hpos|]. split; [exact Hparsed|].
  exact (proj2 (BondMarketDataConnector_batches sample_dates
                  MarketData.BondMarketDataService_new market_lines_sample
                  market_orders_sample Hpos Hparsed)
           eq_refl "91282CMB4"%string bond_3y eq_refl eq_refl).
Defined.

Lemma simulated_market_data_never_executes_witness :
  MarketData.bookDepth (T := Bond) MarketData.BondMarketDataService_new = 5
  ∧ "91282CLY5"%string ∈ DataSimulator.CUSIPS_VEC
  ∧ (1 / 64)%Q ∈ DataSimulator.spreadCycle
  ∧ (AlgoExecution.executionSpread (T := Bond) AlgoExecution.AlgoExecutionService_new
     == 1 / 128)%Q
  ∧ ∃ orderBook,
      BondMarketDataConnector_Subscribe_lines sample_dates 10
        (mkMarketFeed MarketData.BondMarketDataService_new [] [] 0)
        (DataSimulator.market_update_lines "91282CLY5" (fst (DataSimulator.mid_after 3))
           (1 / 64))
      = (mkMarketFeed
           (fst (MarketData.OnMessage MarketData.BondMarketDataService_new orderBook))
           [] [] 10,
         snd (MarketData.OnMessage MarketData.BondMarketDataService_new orderBook), None)
      ∧ ListenerAlgoToMarketData.ProcessAdd stale_order stale_order
          AlgoExecution.AlgoExecutionService_new "A1B2C3D4E5F6" orderBook
        = (AlgoExecution.AlgoExecutionService_new, []).
Proof.
  assert (H1 : MarketData.bookDepth (T := Bond) MarketData.BondMarketDataService_new = 5)
    by reflexivity.
  assert (H2 : "91282CLY5"%string ∈ DataSimulator.CUSIPS_VEC)
    by (apply elem_of_cons; left; reflexivity).
  assert (H3 : (1 / 64)%Q ∈ DataSimulator.spreadCycle)
    by (apply elem_of_cons; right; apply elem_of_cons; left; reflexivity).
  assert (H4 : (AlgoExecution.executionSpread (T := Bond)
                  AlgoExecution.AlgoExecutionService_new == 1 / 128)%Q) by reflexivity.
  split; [exact H1|]. split; [exact H2|]. split; [exact H3|]. split; [exact H4|].
  destruct (simulated_market_data_never_executes sample_dates
              MarketData.BondMarketDataService_new AlgoExecution.AlgoExecutionService_new
              stale_order stale_order "A1B2C3D4E5F6" "91282CLY5" 3 (1 / 64)%Q H1 H2 H3 H4)
    as (orderBook & Hrun & _ & _ & _ & _ & _ & Hquiet).
  exists orderBook. split; [exact Hrun|exact Hquiet].
Defined.

(** ** inquiryservice.hpp: the inquiry file *)

Lemma getline_all_five (a b c d e : string) :
  contains "," a = false → contains "," b = false → contains "," c = false →
  contains "," d = false → contains "," e = false → e ≠ EmptyString →
  getline_all "," "" (a +:+ "," +:+ b +:+ "," +:+ c +:+ "," +:+ d +:+ "," +:+ e)
  = [a; b; c; d; e].
Proof.
  intros Ha Hb Hc Hd He Hne.
  change ("," +:+ b +:+ "," +:+ c +:+ "," +:+ d +:+ "," +:+ e)
    with (String "," (b +:+ "," +:+ c +:+ "," +:+ d +:+ "," +:+ e)).
  rewrite getline_all_cell by done.
  change ("," +:+ c +:+ "," +:+ d +:+ "," +:+ e)
    with (String "," (c +:+ "," +:+ d +:+ "," +:+ e)).
  rewrite getline_all_cell by done.
  change ("," +:+ d +:+ "," +:+ e) with (String "," (d +:+ "," +:+ e)).
  rewrite getline_all_cell by done.
  change ("," +:+ e) with (String "," e).
  rewrite getline_all_cell by done.
  by rewrite getline_all_last.
Qed.

(** X29: every simulated inquiry is completed at price 100.  The line that
    [GenerateInquiries] writes for the inquiry number [inquiryIndex] (from 0
    on) of one of the simulator's CUSIPs, with an identifier that contains
    no comma, is read by the inquiry connector as a RECEIVED inquiry for the
    bond of the table, SELL for an even and BUY for an odd number, over
    ((number mod 5) + 1) million; the service completes it in the same call:
    the record stored under the identifier has price 100 and state DONE, and
    every listener is called once with it.  The two uninitialised locals of
    the connector play no part. *)
Theorem simulated_inquiry_is_completed (parse_date_string : string → Z * Z * Z)
    (s0 : Side) (st0 : InquiryState) (fuel : nat)
    (service : Inquiry.BondInquiryService Bond)
    (inquiryID currentCUSIP : string) (inquiryIndex : Z) :
  contains "," inquiryID = false →
  currentCUSIP ∈ DataSimulator.CUSIPS_VEC →
  0 <= inquiryIndex →
  ∃ product,
    BondInfo parse_date_string currentCUSIP = inr product
    ∧ let completed :=
        Inquiry.mkInquiry inquiryID product
          (if Z.even inquiryIndex then SELL else BUY)
          ((inquiryIndex mod 5 + 1) * 1000000) 100%Q DONE in
      InquiryConnector_Subscribe_line parse_date_string s0 st0 (S (S fuel)) service
        (GenerateInquiries_line inquiryID currentCUSIP inquiryIndex)
      = inr (Inquiry.mkBondInquiryService
               (<[inquiryID := completed]> (Inquiry.inquiryRecords service))
               (Inquiry.listenerCollection service),
             completed,
             (λ l, ProcessAdd l completed) <$> Inquiry.listenerCollection service).
Proof.
  intros Hid Hcusip Hidx.
  assert (Hknown : contains "," currentCUSIP = false
                   ∧ ∃ product, BondInfo parse_date_string currentCUSIP = inr product).
  { unfold DataSimulator.CUSIPS_VEC in Hcusip.
    repeat (apply elem_of_cons in Hcusip as [->|Hcusip];
            [split; [reflexivity|eexists; reflexivity]|]).
    by apply not_elem_of_nil in Hcusip. }
  destruct Hknown as (Hcomma & product & Hinfo).
  exists product. split; [exact Hinfo|]. intros completed.
  assert (Hq : 0 <= (Z.rem inquiryIndex 5 + 1) * 1000000).
  { rewrite Z.rem_mod_nonneg by lia. pose proof (Z.mod_pos_bound inquiryIndex 5). lia. }
  unfold InquiryConnector_Subscribe_line, GenerateInquiries_line. cbv zeta.
  rewrite getline_all_five;
    [|done|done|by destruct (Z.rem inquiryIndex 2 =? 0)|by apply to_string_no_delim
     |reflexivity|discriminate].
  cbn [at_index lookup list_lookup mbind abort_bind].
  rewrite stol_to_string by done. cbn [modelled mbind abort_bind].
  rewrite Hinfo. cbn [throwing mbind abort_bind].
  rewrite (decide_True (P := "RECEIVED"%string = "RECEIVED"%string)) by done.
  cbn [Inquiry.OnMessage Inquiry.GetState].
  unfold Inquiry.Connector_Publish, Inquiry.Connector_Subscribe.
  cbn [Inquiry.GetState Inquiry.SetPrice Inquiry.SetState Inquiry.GetInquiryId
       Inquiry.GetProduct Inquiry.GetSide Inquiry.GetQuantity Inquiry.GetPrice
       Inquiry.OnMessage Inquiry.inquiryRecords Inquiry.listenerCollection].
  rewrite decide_True by done.
  cbn [Inquiry.GetState Inquiry.SetPrice Inquiry.SetState Inquiry.GetInquiryId
       Inquiry.GetProduct Inquiry.GetSide Inquiry.GetQuantity Inquiry.GetPrice
       Inquiry.OnMessage Inquiry.inquiryRecords Inquiry.listenerCollection modelled].
  rewrite insert_insert_eq. unfold notify, completed.
  rewrite (Z.rem_mod_nonneg inquiryIndex 5) by lia.
  rewrite rem2_even.
  by destruct (Z.even inquiryIndex).
Qed.

Lemma simulated_inquiry_is_completed_witness :
  contains "," "Q7XK2M4PA9ZT" = false
  ∧ "91282CLY5"%string ∈ DataSimulator.CUSIPS_VEC
  ∧ 0 <= 6
  ∧ GenerateInquiries_line "Q7XK2M4PA9ZT" "91282CLY5" 6 = "Q7XK2M4PA9ZT,91282CLY5,SELL,2000000,RECEIVED"%string
  ∧ ∃ product,
      InquiryConnector_Subscribe_line sample_dates BUY REJECTED 2 inquiry_service_1
        (GenerateInquiries_line "Q7XK2M4PA9ZT" "91282CLY5" 6)
      = inr (Inquiry.mkBondInquiryService
               (<[ "Q7XK2M4PA9ZT"%string :=
                     Inquiry.mkInquiry "Q7XK2M4PA9ZT" product SELL 2000000 100%Q DONE ]>
                  (Inquiry.inquiryRecords inquiry_service_1))
               [12%nat],
             Inquiry.mkInquiry "Q7XK2M4PA9ZT" product SELL 2000000 100%Q DONE,
             [ProcessAdd 12%nat
                (Inquiry.mkInquiry "Q7XK2M4PA9ZT" product SELL 2000000 100%Q DONE)]).
Proof.
  assert (H1 : contains "," "Q7XK2M4PA9ZT" = false) by reflexivity.
  assert (H2 : "91282CLY5"%string ∈ DataSimulator.CUSIPS_VEC)
    by (apply elem_of_cons; left; reflexivity).
  assert (H3 : 0 <= 6) by lia.
  split; [exact H1|]. split; [exact H2|]. split; [exact H3|].
  split; [vm_compute; reflexivity|].
  destruct (simulated_inquiry_is_completed sample_dates BUY REJECTED 0 inquiry_service_1
              "Q7XK2M4PA9ZT" "91282CLY5" 6 H1 H2 H3) as (product & _ & Hrun).
  exists product. exact Hrun.
Defined.

(** ** From the simulated price file to the quote *)

Lemma ParsePrice_FormatPrice_grid (p : Q) (n : Z) :
  (p == n # 256)%Q → 0 <= n →
  ∃ p', (p' == p)%Q
        ∧ ParsePrice (FormatPrice p) = Some p'
        ∧ contains "," (FormatPrice p) = false
        ∧ FormatPrice p ≠ EmptyString.
Proof.
  intros Hp Hn.
  set (w := n / 256). set (ff := n mod 256 / 8). set (v := n mod 256 mod 8).
  assert (Hff : 0 <= ff < 32).
  { unfold ff. pose proof (Z.mod_pos_bound n 256).
    split; [apply Z.div_pos; lia|apply Z.div_lt_upper_bound; lia]. }
  assert (Hv : 0 <= v < 8) by (unfold v; apply Z.mod_pos_bound; lia).
  assert (Hw : 0 <= w) by (unfold w; apply Z.div_pos; lia).
  assert (Hsplit : n = w * 256 + ff * 8 + v).
  { unfold w, ff, v. pose proof (Z.div_mod n 256). pose proof (Z.div_mod (n mod 256) 8). lia. }
  assert (Hx : (p == inject_Z w + inject_Z ff / 32 + inject_Z v / 256)%Q).
  { rewrite price_value_256, Hp, <- Hsplit. reflexivity. }
  exists (inject_Z w + inject_Z ff / 32 + inject_Z v / 256)%Q.
  pose proof (eighth_value_of_char v Hv) as He.
  rewrite (FormatPrice_of_parts p w ff v Hx Hff Hv).
  split; [by symmetry|]. split; [by apply ParsePrice_price_string|].
  split; [by apply (price_string_no_comma w ff v)|].
  unfold price_string. intros Hempty.
  pose proof (price_string_no_comma w ff v _ Hw Hff He) as Hc.
  destruct (Text.to_string w); discriminate.
Qed.

(** X30: the simulated price file is read back as it was meant.  For each
    of the simulator's CUSIPs, after any number of mid-price updates and in
    either state of the spread toggle, the line that one pass of
    [GeneratePriceData] writes is read by the pricing connector without
    incident: the pricing service stores, under the CUSIP, a Price for the
    bond of the table with mid (b+o)/2 and spread o-b, where b and o are the
    bid and the offer price of the line; it notifies its listeners; b and o
    lie between 99 and 101 on either side of the simulated mid price, between
    1/128 and 1/32 apart; and the quote that the streaming engine publishes
    for this Price has bid price b and offer price o. *)
Theorem simulated_price_line_to_quote (parse_date_string : string → Z * Z * Z)
    (service : Pricing.PricingService Bond)
    (engine : AlgoStreaming.AlgoStreamingService Bond)
    (currentCUSIP : string) (n : nat) (spreadToggle : bool) :
  currentCUSIP ∈ DataSimulator.CUSIPS_VEC →
  let midPrice := fst (DataSimulator.mid_after n) in
  ∃ product b o,
    BondInfo parse_date_string currentCUSIP = inr product
    ∧ let price := Pricing.mkPrice product ((b + o) / 2)%Q (o - b)%Q in
      PricingConnector_Subscribe_line parse_date_string service
        (GeneratePriceData_line currentCUSIP midPrice spreadToggle)
      = inr (Pricing.mkPricingService (<[currentCUSIP := price]> (Pricing.priceData service))
               (Pricing.serviceListeners service),
             (λ l, ProcessAdd l price) <$> Pricing.serviceListeners service)
      ∧ (99 <= b)%Q ∧ (b <= midPrice)%Q ∧ (midPrice <= o)%Q ∧ (o <= 101)%Q
      ∧ (1 / 128 <= o - b)%Q ∧ (o - b <= 1 / 32)%Q
      ∧ (∀ l d, ProcessAdd l d ∈ snd (ListenerAlgoStreamToPrc.ProcessAdd engine price) →
           ∃ ps, AlgoStreaming.GetPriceStream d = Some ps
                 ∧ (AlgoStreaming.GetPrice (AlgoStreaming.GetBidOrder ps) == b)%Q
                 ∧ (AlgoStreaming.GetPrice (AlgoStreaming.GetOfferOrder ps) == o)%Q).
Proof.
  intros Hcusip midPrice.
  assert (Hknown : contains "," currentCUSIP = false
                   ∧ ∃ product, BondInfo parse_date_string currentCUSIP = inr product).
  { unfold DataSimulator.CUSIPS_VEC in Hcusip.
    repeat (apply elem_of_cons in Hcusip as [->|Hcusip];
            [split; [reflexivity|eexists; reflexivity]|]).
    by apply not_elem_of_nil in Hcusip. }
  destruct Hknown as (Hcomma & product & Hinfo).
  destruct (mid_after_grid n) as (k & Hk & Hkr). fold midPrice in Hk.
  unfold GeneratePriceData_line. cbv zeta.
  set (spread := if Qeq_bool midPrice 99 || Qeq_bool midPrice 101 then (1 / 64)%Q
                 else if spreadToggle then (1 / 128)%Q else (1 / 64)%Q).
  assert (Hs : ∃ t, (spread == t # 256)%Q ∧ (t = 2 ∨ t = 4)).
  { unfold spread. destruct (_ || _); [exists 4; split; [reflexivity|lia]|].
    destruct spreadToggle; [exists 2|exists 4]; (split; [reflexivity|lia]). }
  destruct Hs as (t & Ht & Htr). clearbody spread.
  set (bidPrice := if Qlt_bool (midPrice - spread) 99 then 99%Q else (midPrice - spread)%Q).
  set (offerPrice := if Qlt_bool 101 (midPrice + spread) then 101%Q
                     else (midPrice + spread)%Q).
  assert (Hbid : ∃ nb, (bidPrice == nb # 256)%Q ∧ 99 * 256 <= nb <= k ∧ k - t <= nb).
  { unfold bidPrice. destruct (Qlt_bool (midPrice - spread) 99) eqn:Hlt.
    - exists (99 * 256). split; [reflexivity|].
      apply Qlt_bool_iff in Hlt. rewrite Hk, Ht in Hlt. unfold Qlt in Hlt. cbn in Hlt. lia.
    - exists (k - t). split; [rewrite Hk, Ht; unfold Qeq; cbn; lia|].
      apply Qlt_bool_false in Hlt. rewrite Hk, Ht in Hlt. unfold Qle in Hlt. cbn in Hlt. lia. }
  assert (Hoffer : ∃ no, (offerPrice == no # 256)%Q ∧ k <= no <= 101 * 256 ∧ no <= k + t).
  { unfold offerPrice. destruct (Qlt_bool 101 (midPrice + spread)) eqn:Hlt.
    - exists (101 * 256). split; [reflexivity|].
      apply Qlt_bool_iff in Hlt. rewrite Hk, Ht in Hlt. unfold Qlt in Hlt. cbn in Hlt. lia.
    - exists (k + t). split; [rewrite Hk, Ht; unfold Qeq; cbn; lia|].
      apply Qlt_bool_false in Hlt. rewrite Hk, Ht in Hlt. unfold Qle in Hlt. cbn in Hlt. lia. }
  destruct Hbid as (nb & Hnb & Hnbr & Hnbt). destruct Hoffer as (no & Hno & Hnor & Hnot).
  assert (Hgap : t <= no - nb).
  { unfold bidPrice in Hnb. unfold offerPrice in Hno.
    destruct (Qlt_bool (midPrice - spread) 99) eqn:Hlt1;
      destruct (Qlt_bool 101 (midPrice + spread)) eqn:Hlt2.
    - assert (nb = 99 * 256) by (unfold Qeq in Hnb; cbn in Hnb; lia).
      assert (no = 101 * 256) by (unfold Qeq in Hno; cbn in Hno; lia). lia.
    - assert (nb = 99 * 256) by (unfold Qeq in Hnb; cbn in Hnb; lia).
      rewrite Hk, Ht in Hno. unfold Qeq in Hno. cbn in Hno. lia.
    - assert (no = 101 * 256) by (unfold Qeq in Hno; cbn in Hno; lia).
      rewrite Hk, Ht in Hnb. unfold Qeq in Hnb. cbn in Hnb. lia.
    - rewrite Hk, Ht in Hno. unfold Qeq in Hno. cbn in Hno.
      rewrite Hk, Ht in Hnb. unfold Qeq in Hnb. cbn in Hnb. lia. }
  clearbody bidPrice offerPrice.
  destruct (ParsePrice_FormatPrice_grid bidPrice nb Hnb ltac:(lia))
    as (b & Hb & Hpb & Hcb & _).
  destruct (ParsePrice_FormatPrice_grid offerPrice no Hno ltac:(lia))
    as (o & Ho & Hpo & Hco & Hneo).
  exists product, b, o. split; [exact Hinfo|].
  split; [|split; [|split; [|split; [|split; [|split; [|split]]]]]].
  - rewrite PricingConnector_Subscribe_line_fields by done.
    rewrite Hpb, Hpo, Hinfo. cbn [modelled throwing mbind abort_bind].
    unfold mret, abort_ret, Pricing.OnMessage, notify.
    cbn [Pricing.GetProduct]. by rewrite (BondInfo_id _ _ _ Hinfo).
  - rewrite Hb, Hnb. unfold Qle. cbn. lia.
  - rewrite Hb, Hnb, Hk. unfold Qle. cbn. lia.
  - rewrite Ho, Hno, Hk. unfold Qle. cbn. lia.
  - rewrite Ho, Hno. unfold Qle. cbn. lia.
  - rewrite Hb, Ho, Hnb, Hno. unfold Qle. cbn. lia.
  - rewrite Hb, Ho, Hnb, Hno. unfold Qle. cbn. lia.
  - intros l d Hin.
    unfold ListenerAlgoStreamToPrc.ProcessAdd, AlgoStreaming.PublishAlgorithmicPrice in Hin.
    cbn [snd] in Hin. unfold notify in Hin.
    apply list_elem_of_fmap in Hin as (l' & Heq & _). injection Heq as _ ->.
    eexists. split; [reflexivity|]. cbn.
    assert (Hd : ∀ q : Q, (q / 2 == q * (1 # 2))%Q) by (intros; reflexivity).
    split; rewrite !Hd; lra.
Qed.

Lemma simulated_price_line_to_quote_witness :
  "91282CMB4"%string ∈ DataSimulator.CUSIPS_VEC
  ∧ GeneratePriceData_line "91282CMB4" (fst (DataSimulator.mid_after 1)) false
    = "91282CMB4,99-000,99-005"%string
  ∧ ∃ b o,
      PricingConnector_Subscribe_line sample_dates
        (Pricing.AddListener Pricing.PricingService_new 1%nat)
        (GeneratePriceData_line "91282CMB4" (fst (DataSimulator.mid_after 1)) false)
      = inr (Pricing.mkPricingService
               {[ "91282CMB4"%string := Pricing.mkPrice bond_3y ((b + o) / 2)%Q (o - b)%Q ]}
               [1%nat],
             [ProcessAdd 1%nat (Pricing.mkPrice bond_3y ((b + o) / 2)%Q (o - b)%Q)])
      ∧ (99 <= b)%Q ∧ (o <= 101)%Q ∧ (1 / 128 <= o - b)%Q.
Proof.
  assert (H1 : "91282CMB4"%string ∈ DataSimulator.CUSIPS_VEC)
    by (apply elem_of_cons; right; apply elem_of_cons; left; reflexivity).
  split; [exact H1|]. split; [vm_compute; reflexivity|].
  destruct (simulated_price_line_to_quote sample_dates
              (Pricing.AddListener Pricing.PricingService_new 1%nat)
              AlgoStreaming.AlgoStreamingService_new "91282CMB4" 1 false H1)
    as (product & b & o & Hinfo & Hrun & Hb & _ & _ & Ho & Hgap & _).
  injection Hinfo as <-.
  exists b, o. split; [exact Hrun|]. split; [exact Hb|]. split; [exact Ho|exact Hgap].
Defined.
